(** * ZoneWise multi-agent workflow: a shallow embedding

    This development embeds the orchestration core of the ZoneWise agent
    package:

    - [packages/agent/zonewise_agent.py]: the progressive-disclosure skill
      loader ([load_manifest], [parse_front_matter], [load_skill_content],
      [load_reference_content], the two cached tools and [create_agent]);
    - [packages/agent/langgraph_workflow.py]: the four agent nodes, the
      synthesizer, the router, the graph built by
      [create_analysis_workflow], and [run_parallel_analysis].

    Python exceptions are values of [exn] carried by [result]; file-system
    access goes through an explicit store and is recorded in a log, so that
    one can count retrievals.  The external libraries (YAML parsing,
    pydantic validation of the manifest, number formatting, the language
    model behind [agent.run]) are parameters of the development. *)

From Stdlib Require Import ZArith List Lia Bool.
From Stdlib Require Import Floats.SpecFloat.
From stdpp Require Import base option list strings gmap pretty.

Set Warnings "-register-all".
Open Scope string_scope.
Open Scope Z_scope.

(** ** Python strings *)

Module PyStr.

(** [s.startswith(p)] *)
Fixpoint startswith (p s : string) : bool :=
  match p, s with
  | EmptyString, _ => true
  | String a p', String b s' => if Ascii.eqb a b then startswith p' s' else false
  | String _ _, EmptyString => false
  end.

(** [s[n:]] *)
Fixpoint drop (n : nat) (s : string) : string :=
  match n, s with
  | O, _ => s
  | S n', String _ s' => drop n' s'
  | S _, EmptyString => EmptyString
  end.

(** [s.partition(sep)] for a non-empty [sep], when [sep] occurs: the text
    before the leftmost occurrence and the text after it. *)
Fixpoint partition (sep s : string) : option (string * string) :=
  if startswith sep s then Some (EmptyString, drop (String.length sep) s)
  else match s with
       | EmptyString => None
       | String c s' =>
           match partition sep s' with
           | Some (before, after) => Some (String c before, after)
           | None => None
           end
       end.

(** [s.split(sep, maxsplit)] for a non-empty [sep] and [maxsplit >= 0]:
    at most [maxsplit] cuts, leftmost first. *)
Fixpoint split (sep : string) (maxsplit : nat) (s : string) : list string :=
  match maxsplit with
  | O => [s]
  | S m =>
      match partition sep s with
      | Some (before, after) => before :: split sep m after
      | None => [s]
      end
  end.

(** [s.split(sep)] without a bound: a string of length [n] has at most
    [n] occurrences of a non-empty separator. *)
Definition split_all (sep s : string) : list string :=
  split sep (String.length s) s.

(** [sep.join(parts)] *)
Fixpoint join (sep : string) (parts : list string) : string :=
  match parts with
  | [] => EmptyString
  | [x] => x
  | x :: rest => x +:+ sep +:+ join sep rest
  end.

(** [s.replace(old, new)] for a non-empty [old]. *)
Definition replace (old new s : string) : string :=
  join new (split_all old s).

(** ASCII characters for which [str.isspace] holds.  The white space
    outside ASCII that [str.strip] also removes is not modelled. *)
Definition isspace (c : Ascii.ascii) : bool :=
  let n := Ascii.nat_of_ascii c in
  ((9 <=? n)%nat && (n <=? 13)%nat) || ((28 <=? n)%nat && (n <=? 32)%nat).

Fixpoint lstrip (s : string) : string :=
  match s with
  | String c s' => if isspace c then lstrip s' else s
  | EmptyString => EmptyString
  end.

Fixpoint rstrip (s : string) : string :=
  match s with
  | EmptyString => EmptyString
  | String c s' =>
      match rstrip s' with
      | EmptyString => if isspace c then EmptyString else String c EmptyString
      | r => String c r
      end
  end.

(** [s.strip()] *)
Definition strip (s : string) : string := rstrip (lstrip s).

(** [sub in s] *)
Definition contains (sub s : string) : bool :=
  match partition sub s with Some _ => true | None => false end.

End PyStr.

(** ** Exceptions *)

(** The exception classes the code raises or catches.  Every one of them is
    a subclass of [Exception]; [ValidationError] (pydantic) is a subclass of
    [ValueError]; [CapabilityError] stands for whatever the model call
    behind [agent.run] raises; [GraphRecursionError] is raised by the graph
    engine when a run exceeds its recursion limit; [OverflowError] is what
    the conversion of an int to a float raises. *)
Inductive exn : Type :=
| FileNotFoundError (msg : string)
| ValueError (msg : string)
| ValidationError (msg : string)
| TypeError (msg : string)
| YAMLError (msg : string)
| CapabilityError (msg : string)
| GraphRecursionError (msg : string)
| OverflowError (msg : string).

(** [str(e)] *)
Definition exn_str (e : exn) : string :=
  match e with
  | FileNotFoundError m | ValueError m | ValidationError m | TypeError m
  | YAMLError m | CapabilityError m | GraphRecursionError m | OverflowError m => m
  end.

(** [isinstance(e, yaml.YAMLError)] *)
Definition is_YAMLError (e : exn) : bool :=
  match e with YAMLError _ => true | _ => false end.

(** [isinstance(e, (FileNotFoundError, ValueError))] *)
Definition is_FileNotFound_or_ValueError (e : exn) : bool :=
  match e with
  | FileNotFoundError _ | ValueError _ | ValidationError _ => true
  | _ => false
  end.

Inductive result (A : Type) : Type :=
| Returned (a : A)
| Raised (e : exn).
Arguments Returned {A} a.
Arguments Raised {A} e.

Definition result_bind {A B} (r : result A) (k : A -> result B) : result B :=
  match r with
  | Returned a => k a
  | Raised e => Raised e
  end.

Definition returns {A} (r : result A) : Prop := exists a, r = Returned a.
Definition raises {A} (r : result A) : Prop := exists e, r = Raised e.

(** ** Python values *)

(** [int] and [float] values; floats are IEEE 754 binary64 data. *)
Inductive number : Type :=
| NInt (z : Z)
| NFloat (f : spec_float).

(** [bool(x)] for a number: zero of either sign is falsy, NaN is truthy. *)
Definition number_truthy (x : number) : bool :=
  match x with
  | NInt z => negb (z =? 0)
  | NFloat (S754_zero _) => false
  | NFloat _ => true
  end.

(** [bool(x)] for an [Optional[float]] field. *)
Definition opt_number_truthy (x : option number) : bool :=
  match x with
  | Some n => number_truthy n
  | None => false
  end.

(** The values [yaml.safe_load] can produce. *)
Inductive pyobj : Type :=
| PyNone
| PyBool (b : bool)
| PyNum (x : number)
| PyStr (s : string)
| PyList (l : list pyobj)
| PyDict (d : list (pyobj * pyobj)).

(** [bool(v)] *)
Definition truthy (v : pyobj) : bool :=
  match v with
  | PyNone => false
  | PyBool b => b
  | PyNum x => number_truthy x
  | PyStr s => negb (String.eqb s "")
  | PyList l => match l with [] => false | _ => true end
  | PyDict d => match d with [] => false | _ => true end
  end.

(** A [dict] with string keys, in insertion order. *)
Definition strdict (V : Type) : Type := list (string * V).

(** [d.get(k, default)] *)
Fixpoint dict_get {V} (d : strdict V) (k : string) (default : V) : V :=
  match d with
  | [] => default
  | (k', v) :: d' => if String.eqb k' k then v else dict_get d' k default
  end.

(** ** Effects: a store that survives exceptions *)

(** A computation over a mutable store [S] that returns or raises; the
    store is threaded through both outcomes, as Python keeps the mutations
    made before an exception. *)
Definition stx (S A : Type) : Type := S -> result A * S.

Definition stx_ret {S A} (a : A) : stx S A := fun s => (Returned a, s).

Definition stx_bind {S A B} (m : stx S A) (k : A -> stx S B) : stx S B :=
  fun s => match m s with
           | (Returned a, s') => k a s'
           | (Raised e, s') => (Raised e, s')
           end.

(** [raise e] *)
Definition stx_raise {S A} (e : exn) : stx S A := fun s => (Raised e, s).

(** A pure computation that may raise. *)
Definition stx_lift {S A} (r : result A) : stx S A := fun s => (r, s).

(** [try: body  except <classes> as e: handler(e)] *)
Definition try_except {S A} (body : stx S A) (classes : exn -> bool)
    (handler : exn -> stx S A) : stx S A :=
  fun s => match body s with
           | (Raised e, s') => if classes e then handler e s' else (Raised e, s')
           | done => done
           end.

Definition stx_get {S} : stx S S := fun s => (Returned s, s).
Definition stx_modify {S} (f : S -> S) : stx S unit := fun s => (Returned tt, f s).

(** Run a computation on the second component of a pair store. *)
Definition on_snd {S T A} (m : stx T A) : stx (S * T) A :=
  fun st => let '(r, t') := m (snd st) in (r, (fst st, t')).

Declare Scope stx_scope.
Delimit Scope stx_scope with stx.
Notation "x <- m ;; k" := (stx_bind m (fun x => k))
  (at level 100, m at next level, right associativity) : stx_scope.
Notation "m ;;; k" := (stx_bind m (fun _ => k))
  (at level 100, right associativity) : stx_scope.

(** ** The document store *)

(** Relative POSIX paths as [pathlib] normalises them: the components,
    without empty and [.] components.  The empty list is [Path(".")]. *)
(** [pathlib.Path] for relative paths, as the sequence of their parts. *)
Module Path.
Definition t : Type := list string.

(** [Path(s)] *)
Definition of_str (s : string) : t :=
  filter (fun c => negb (String.eqb c "") && negb (String.eqb c ".")) (PyStr.split_all "/" s).

(** [p / s] for a relative [s] *)
Definition div (p : t) (s : string) : t := (p ++ of_str s)%list.

(** [p.parent] *)
Definition parent (p : t) : t := removelast p.

(** [str(p)] *)
Definition str (p : t) : string :=
  match p with [] => "." | _ => PyStr.join "/" p end.
End Path.

(** What a run does to storage: existence checks and reads, in order. *)
Inductive io_event : Type :=
| FsExists (path : string)
| FsRead (path : string).

Definition io_log : Type := list io_event.

Definition is_read_of (path : string) (ev : io_event) : bool :=
  match ev with FsRead p => String.eqb p path | FsExists _ => false end.

(** Number of reads of [path] recorded in a log. *)
Definition reads_of (path : string) (log : io_log) : nat :=
  length (List.filter (is_read_of path) log).

(** ** Data models (zonewise_agent.py) *)

Module SkillMetadata.
(** Level 1: skill metadata for the system prompt *)
Record t : Type := mk {
  name : string;
  description : string;
  path : string;
  category : string;
  priority : Z;
  tokens_estimate : Z;
  references : list string
}.
End SkillMetadata.

Module LoadedSkill.
(** Level 2: full skill content *)
Record t : Type := mk {
  name : string;
  content : string;
  front_matter : strdict pyobj
}.
End LoadedSkill.

Module SkillReference.
(** Level 3: reference document *)
Record t : Type := mk {
  name : string;
  skill_name : string;
  content : string
}.
End SkillReference.

Module SkillsManifest.
Record t : Type := mk {
  version : string;
  updated : string;
  total_skills : Z;
  skills : list SkillMetadata.t
}.
End SkillsManifest.

(** [@dataclass class AgentDependencies]: the per-agent cache. *)
Module AgentDependencies.
Record t : Type := mk {
  skills_path : Path.t;
  manifest : option SkillsManifest.t;
  loaded_skills : gmap string LoadedSkill.t;
  loaded_references : gmap string SkillReference.t
}.

(** [AgentDependencies(skills_path=p)]: no manifest, empty caches. *)
Definition new (p : Path.t) : t :=
  {| skills_path := p; manifest := None; loaded_skills := ∅; loaded_references := ∅ |}.

Definition set_manifest (m : SkillsManifest.t) (d : t) : t :=
  {| skills_path := skills_path d; manifest := Some m;
     loaded_skills := loaded_skills d; loaded_references := loaded_references d |}.

Definition cache_skill (k : string) (v : LoadedSkill.t) (d : t) : t :=
  {| skills_path := skills_path d; manifest := manifest d;
     loaded_skills := <[k := v]> (loaded_skills d);
     loaded_references := loaded_references d |}.

Definition cache_reference (k : string) (v : SkillReference.t) (d : t) : t :=
  {| skills_path := skills_path d; manifest := manifest d;
     loaded_skills := loaded_skills d;
     loaded_references := <[k := v]> (loaded_references d) |}.
End AgentDependencies.

(** The default [skills_path], [Path("./zonewise/skills")]. *)
Definition default_skills_path : Path.t := Path.of_str "./zonewise/skills".

(** ** The environment of a run *)

(** Everything the code takes from outside itself: the files under the
    working directory, the YAML parser, pydantic's validation of the
    manifest and of a front-matter dictionary, and the digits Python
    prints for a number. *)
Record Env : Type := mkEnv {
  files : gmap string string;
  (** [yaml.safe_load]; whatever it raises is in the result *)
  yaml_safe_load : string -> result pyobj;
  (** the [SkillsManifest] constructor applied to the loaded data *)
  validate_manifest : pyobj -> result SkillsManifest.t;
  (** pydantic's check of the [front_matter: dict[str, Any]] field *)
  validate_front_matter : pyobj -> result (strdict pyobj);
  (** the text of [format(x, ",.0f")] when the formatting succeeds *)
  comma_0f_text : number -> string;
  (** the text of [str(x)] when the conversion succeeds *)
  number_str : number -> string
}.

(** ** Formatting numbers *)

(** [format(x, ",.0f")] converts an int to a float first, and the
    conversion raises [OverflowError] when the int, rounded to the nearest
    double, is beyond the largest finite one: from [2**1024 - 2**970] on.
    A float is formatted as it is (also [inf] and [nan]). *)
Definition float_overflow_bound : Z := 2 ^ 1024 - 2 ^ 970.

Definition int_fits_float (z : Z) : bool := Z.abs z <? float_overflow_bound.
Arguments int_fits_float : simpl never.

Definition format_comma_0f (E : Env) (x : number) : result string :=
  match x with
  | NInt z =>
      if int_fits_float z then Returned (comma_0f_text E x)
      else Raised (OverflowError "int too large to convert to float")
  | NFloat _ => Returned (comma_0f_text E x)
  end.

(** [str(x)] of an int, also inside an f-string: CPython refuses the
    conversion of an int of more than 4300 decimal digits, the default of
    [sys.get_int_max_str_digits()], with a [ValueError]. *)
Definition int_max_str_digits : Z := 4300.

Definition int_fits_str (z : Z) : bool := Z.abs z <? 10 ^ int_max_str_digits.
Arguments int_fits_str : simpl never.

Definition int_str_refused : exn :=
  ValueError "Exceeds the limit (4300 digits) for integer string conversion; use sys.set_int_max_str_digits() to increase the limit".

Definition py_str_int (z : Z) : result string :=
  if int_fits_str z then Returned (pretty z) else Raised int_str_refused.

Definition py_str_number (E : Env) (x : number) : result string :=
  match x with
  | NInt z => if int_fits_str z then Returned (number_str E x) else Raised int_str_refused
  | NFloat _ => Returned (number_str E x)
  end.

(** [p.exists()] *)
Definition path_exists (E : Env) (p : Path.t) : stx io_log bool :=
  fun log => (Returned (bool_decide (is_Some (files E !! Path.str p))),
              (log ++ [FsExists (Path.str p)])%list).

(** [p.read_text()], also [open(p)] followed by reading the file. *)
Definition read_text (E : Env) (p : Path.t) : stx io_log string :=
  fun log =>
    match files E !! Path.str p with
    | Some text => (Returned text, (log ++ [FsRead (Path.str p)])%list)
    | None => (Raised (FileNotFoundError
                 ("[Errno 2] No such file or directory: '" +:+ Path.str p +:+ "'")),
               (log ++ [FsRead (Path.str p)])%list)
    end.

(** Run a computation that uses a local object [init] next to the store;
    the object is dropped when the computation ends. *)
Definition with_local {S T A} (init : S) (m : stx (S * T) A) : stx T A :=
  fun t => let '(r, st) := m (init, t) in (r, snd st).

(** The newline character. *)
Definition nl : string := String (Ascii.ascii_of_nat 10) EmptyString.

(** ** Skill loader functions (zonewise_agent.py) *)

(** [load_manifest]: load the skills manifest from its YAML file. *)
Definition load_manifest (E : Env) (skills_path : Path.t) : stx io_log SkillsManifest.t :=
  let manifest_path := Path.div skills_path "skills-manifest.yaml" in
  (present <- path_exists E manifest_path ;;
   if negb present then
     stx_raise (FileNotFoundError ("Skills manifest not found: " +:+ Path.str manifest_path))
   else
     text <- read_text E manifest_path ;;
     data <- stx_lift (yaml_safe_load E text) ;;
     stx_lift (validate_manifest E data))%stx.

(** The lines one turn of the loop of [get_skill_descriptions] appends;
    printing the priority, an int, is where it can raise. *)
Definition skill_description_lines (skill : SkillMetadata.t) : result (list string) :=
  result_bind (py_str_int (SkillMetadata.priority skill)) (fun priority =>
  Returned
    [ "## " +:+ SkillMetadata.name skill;
      PyStr.strip (SkillMetadata.description skill);
      "Category: " +:+ SkillMetadata.category skill +:+ " | Priority: " +:+ priority;
      "" ]).

(** [for skill in manifest.skills: ...] *)
Fixpoint skills_description_lines (skills : list SkillMetadata.t) : result (list string) :=
  match skills with
  | [] => Returned []
  | skill :: rest =>
      result_bind (skill_description_lines skill) (fun lines =>
      result_bind (skills_description_lines rest) (fun more =>
      Returned (lines ++ more)%list))
  end.

(** [get_skill_descriptions]: the Level 1 descriptions for the system prompt. *)
Definition get_skill_descriptions (manifest : SkillsManifest.t) : result string :=
  result_bind (skills_description_lines (SkillsManifest.skills manifest)) (fun lines =>
  Returned
    (PyStr.join nl
       ([ "# Available Skills";
          "";
          "You have access to the following skills. Use load_skill when needed:";
          "" ] ++ lines)%list)).

(** [parse_front_matter]: split a leading YAML front matter off a document.
    Only a [YAMLError] of the parser is swallowed. *)
Definition parse_front_matter (E : Env) (content : string) : result (pyobj * string) :=
  if PyStr.startswith "---" content then
    let parts := PyStr.split "---" 2 content in
    if (3 <=? length parts)%nat then
      match yaml_safe_load E (nth 1 parts "") with
      | Returned metadata =>
          let body := PyStr.strip (nth 2 parts "") in
          Returned (if truthy metadata then metadata else PyDict [], body)
      | Raised e =>
          if is_YAMLError e then Returned (PyDict [], content) else Raised e
      end
    else Returned (PyDict [], content)
  else Returned (PyDict [], content).

(** [next((s for s in manifest.skills if s.name == skill_name), None)] *)
Definition find_skill (manifest : SkillsManifest.t) (skill_name : string)
    : option SkillMetadata.t :=
  List.find (fun s => String.eqb (SkillMetadata.name s) skill_name)
            (SkillsManifest.skills manifest).

(** [load_skill_content]: Level 2, the full skill document. *)
Definition load_skill_content (E : Env) (skills_path : Path.t) (skill_name : string)
    (manifest : SkillsManifest.t) : stx io_log LoadedSkill.t :=
  match find_skill manifest skill_name with
  | None => stx_raise (ValueError ("Skill not found: " +:+ skill_name))
  | Some skill_meta =>
      let skill_path := Path.div (Path.parent skills_path) (SkillMetadata.path skill_meta) in
      (present <- path_exists E skill_path ;;
       if negb present then
         stx_raise (FileNotFoundError ("Skill file not found: " +:+ Path.str skill_path))
       else
         content <- read_text E skill_path ;;
         parsed <- stx_lift (parse_front_matter E content) ;;
         front_matter <- stx_lift (validate_front_matter E (fst parsed)) ;;
         stx_ret (LoadedSkill.mk skill_name (snd parsed) front_matter))%stx
  end.

(** [load_reference_content]: Level 3, a reference document. *)
Definition load_reference_content (E : Env) (skills_path : Path.t)
    (skill_name reference_name : string) (manifest : SkillsManifest.t)
    : stx io_log SkillReference.t :=
  match find_skill manifest skill_name with
  | None => stx_raise (ValueError ("Skill not found: " +:+ skill_name))
  | Some skill_meta =>
      let skill_dir :=
        Path.div (Path.parent skills_path)
                 (PyStr.replace "/SKILL.md" "" (SkillMetadata.path skill_meta)) in
      let ref_path := Path.div (Path.div skill_dir "references") reference_name in
      (present <- path_exists E ref_path ;;
       if negb present then
         stx_raise (FileNotFoundError ("Reference not found: " +:+ Path.str ref_path))
       else
         content <- read_text E ref_path ;;
         stx_ret (SkillReference.mk reference_name skill_name content))%stx
  end.

(** ** Tool definitions (zonewise_agent.py) *)

(** The store of a tool call: the agent's dependencies and the storage log. *)
Definition tool_store : Type := AgentDependencies.t * io_log.

(** [if deps.manifest is None: deps.manifest = load_manifest(deps.skills_path)],
    followed by reading [deps.manifest]. *)
Definition manifest_of_deps (E : Env) : stx tool_store SkillsManifest.t :=
  (st <- stx_get ;;
   match AgentDependencies.manifest (fst st) with
   | Some m => stx_ret m
   | None =>
       m <- on_snd (load_manifest E (AgentDependencies.skills_path (fst st))) ;;
       stx_modify (fun st => (AgentDependencies.set_manifest m (fst st), snd st)) ;;;
       stx_ret m
   end)%stx.

(** [load_skill_tool]: the full instructions of a skill, cached by name. *)
Definition load_skill_tool (E : Env) (skill_name : string) : stx tool_store string :=
  (st <- stx_get ;;
   let deps := fst st in
   match AgentDependencies.loaded_skills deps !! skill_name with
   | Some cached =>
       stx_ret ("[Skill '" +:+ skill_name +:+ "' already loaded]" +:+ nl +:+ nl
                +:+ LoadedSkill.content cached)
   | None =>
       manifest <- manifest_of_deps E ;;
       try_except
         (skill <- on_snd (load_skill_content E (AgentDependencies.skills_path deps)
                             skill_name manifest) ;;
          stx_modify (fun st => (AgentDependencies.cache_skill skill_name skill (fst st), snd st)) ;;;
          stx_ret ("# " +:+ skill_name +:+ " Skill" +:+ nl +:+ nl +:+ LoadedSkill.content skill))
         is_FileNotFound_or_ValueError
         (fun e => stx_ret ("Error loading skill: " +:+ exn_str e))
   end)%stx.

(** The cache key of a reference: [f"{skill_name}:{reference_name}"]. *)
Definition cache_key (skill_name reference_name : string) : string :=
  skill_name +:+ ":" +:+ reference_name.

(** [read_reference_tool]: a reference document, cached by [cache_key]. *)
Definition read_reference_tool (E : Env) (skill_name reference_name : string)
    : stx tool_store string :=
  (st <- stx_get ;;
   let deps := fst st in
   let cache_key := cache_key skill_name reference_name in
   match AgentDependencies.loaded_references deps !! cache_key with
   | Some cached =>
       stx_ret ("[Reference already loaded]" +:+ nl +:+ nl +:+ SkillReference.content cached)
   | None =>
       manifest <- manifest_of_deps E ;;
       try_except
         (ref <- on_snd (load_reference_content E (AgentDependencies.skills_path deps)
                           skill_name reference_name manifest) ;;
          stx_modify (fun st => (AgentDependencies.cache_reference cache_key ref (fst st), snd st)) ;;;
          stx_ret ("# Reference: " +:+ reference_name +:+ nl +:+ nl +:+ SkillReference.content ref))
         is_FileNotFound_or_ValueError
         (fun e => stx_ret ("Error loading reference: " +:+ exn_str e))
   end)%stx.

(** ** Agent factory (zonewise_agent.py) *)

(** [SYSTEM_PROMPT.format(skill_descriptions=...)] *)
Definition SYSTEM_PROMPT (skill_descriptions : string) : string :=
  "
You are ZoneWise.AI, an expert assistant for zoning analysis and 3D building
envelope visualization in Brevard County, Florida.

## Your Capabilities

You can help users with:
- Analyzing zoning codes and regulations
- Calculating development intensity metrics (DIMS)
- Generating 3D building envelopes
- Sun/shadow analysis for properties
- Property data from BCPAO

## Progressive Disclosure

You have access to specialized skills. When you need detailed instructions:
1. Use `load_skill` to load the full skill content
2. If the skill references a document, use `read_reference` to load it
3. Only load what you actually need

" +:+ skill_descriptions +:+ "

## Important Guidelines

- Always verify zoning codes against municipal sources
- Use Malabar Land Development Code for Malabar properties
- Calculations should use proper setbacks, FAR, and height limits
- For sun analysis, default location is Malabar, FL (28.004, -80.5687)
".

Module Agent.
(** What [create_agent] configures: the model name, the system prompt and
    the names of the registered tools. *)
Record t : Type := mk {
  model : string;
  system_prompt : string;
  tools : list string
}.
End Agent.

Definition default_model : string := "anthropic:claude-sonnet-4-20250514".

(** [create_agent(model, skills_path)]: loads the manifest for the system
    prompt, then builds the agent and registers the two tools. *)
Definition create_agent (E : Env) (model : string) (skills_path : string)
    : stx io_log Agent.t :=
  let skills_path := Path.of_str skills_path in
  (manifest <- load_manifest E skills_path ;;
   skill_descriptions <- stx_lift (get_skill_descriptions manifest) ;;
   let system_prompt := SYSTEM_PROMPT skill_descriptions in
   stx_ret (Agent.mk model system_prompt ["load_skill_tool"; "read_reference_tool"]))%stx.

(** ** The model behind [agent.run] *)

(** A tool call the language model decides to make. *)
Inductive tool_call : Type :=
| CallLoadSkill (skill_name : string)
| CallReadReference (skill_name reference_name : string).

(** One invocation of the reasoning capability as seen from the code: the
    tool calls it makes, in order, and then its answer or its failure. *)
Record behaviour : Type := mkBehaviour {
  tool_calls : list tool_call;
  answer : result string
}.

Definition run_tool (E : Env) (c : tool_call) : stx tool_store string :=
  match c with
  | CallLoadSkill skill_name => load_skill_tool E skill_name
  | CallReadReference skill_name reference_name =>
      read_reference_tool E skill_name reference_name
  end.

Fixpoint run_tools (E : Env) (calls : list tool_call) : stx tool_store unit :=
  match calls with
  | [] => stx_ret tt
  | c :: rest => (_ <- run_tool E c ;; run_tools E rest)%stx
  end.

(** [await agent.run(query, deps=deps)]: the tools run against [deps]; an
    exception that escapes a tool escapes the run. *)
Definition agent_run (E : Env) (beh : behaviour) (agent : Agent.t) (query : string)
    : stx tool_store string :=
  (run_tools E (tool_calls beh) ;;; stx_lift (answer beh))%stx.

(** ** State models (langgraph_workflow.py) *)

(** [class PropertyData(BaseModel)] *)
Record PropertyData : Type := mkPropertyData {
  parcel_id : string;
  address : option string;
  (* Zoning data *)
  zoning_district : option string;
  zoning_dims : option (strdict number);
  permitted_uses : list string;
  (* Valuation data *)
  arv : option number;
  assessed_value : option number;
  comparable_sales : list (strdict pyobj);
  max_bid : option number;
  (* Permit data *)
  permit_history : list (strdict pyobj);
  open_violations : list (strdict pyobj);
  permit_risk_score : Z;
  (* Envelope data *)
  max_buildable_sqft : option number;
  max_height : option number;
  envelope_generated : bool;
  (* Sun analysis *)
  avg_sun_hours : option number;
  shadow_impact : option string
}.

(** [PropertyData(parcel_id=parcel_id)]: every other field at its default. *)
Definition PropertyData_new (pid : string) : PropertyData :=
  {| parcel_id := pid; address := None;
     zoning_district := None; zoning_dims := None; permitted_uses := [];
     arv := None; assessed_value := None; comparable_sales := []; max_bid := None;
     permit_history := []; open_violations := []; permit_risk_score := 0;
     max_buildable_sqft := None; max_height := None; envelope_generated := false;
     avg_sun_hours := None; shadow_impact := None |}.

(** The four recommendation texts of [synthesizer_node]. *)
Definition rec_BID : string :=
  "✅ **BID** - Low risk property with good fundamentals".
Definition rec_REVIEW : string :=
  "⚠️ **REVIEW** - Moderate risk, investigate further".
Definition rec_SKIP : string :=
  "❌ **SKIP** - High risk or insufficient data".
Definition rec_INCOMPLETE : string :=
  "⚠️ **INCOMPLETE** - Insufficient data for recommendation".

(** The [if]/[elif]/[else] cascade of [synthesizer_node] that computes
    [recommendation]. *)
Definition recommendation (property_data : PropertyData) : string :=
  if opt_number_truthy (arv property_data) && opt_number_truthy (max_bid property_data) then
    if (permit_risk_score property_data <? 30)
       && negb (match open_violations property_data with [] => false | _ => true end)
    then rec_BID
    else if permit_risk_score property_data <? 50 then rec_REVIEW
    else rec_SKIP
  else rec_INCOMPLETE.

(** The label a recommendation text carries between its double asterisks. *)
Inductive label : Type := BID | REVIEW | SKIP | INCOMPLETE.

Definition label_of (text : string) : option label :=
  if PyStr.contains "**BID**" text then Some BID
  else if PyStr.contains "**REVIEW**" text then Some REVIEW
  else if PyStr.contains "**SKIP**" text then Some SKIP
  else if PyStr.contains "**INCOMPLETE**" text then Some INCOMPLETE
  else None.

(** ** The workflow state *)

Inductive message : Type :=
| HumanMessage (content : string)
| AIMessage (content : string) (name : string).

(** [class AnalysisState(TypedDict)] *)
Module AnalysisState.
Record t : Type := mk {
  messages : list message;
  parcel_id : string;
  property_data : PropertyData;
  current_agent : string;
  completed_agents : list string;
  errors : list string;
  final_report : option string;
  timestamp : string
}.

(** The record is mutated through these updates. *)
Definition set_property_data (pd : PropertyData) (s : t) : t :=
  mk (messages s) (parcel_id s) pd (current_agent s) (completed_agents s)
     (errors s) (final_report s) (timestamp s).

(** [state["messages"].append(m)] *)
Definition append_message (m : message) (s : t) : t :=
  mk (messages s ++ [m])%list (parcel_id s) (property_data s) (current_agent s)
     (completed_agents s) (errors s) (final_report s) (timestamp s).

(** [state["completed_agents"].append(a)] *)
Definition append_completed (a : string) (s : t) : t :=
  mk (messages s) (parcel_id s) (property_data s) (current_agent s)
     (completed_agents s ++ [a])%list (errors s) (final_report s) (timestamp s).

(** [state["errors"].append(e)] *)
Definition append_error (e : string) (s : t) : t :=
  mk (messages s) (parcel_id s) (property_data s) (current_agent s)
     (completed_agents s) (errors s ++ [e])%list (final_report s) (timestamp s).

(** [state["final_report"] = r] *)
Definition set_final_report (r : string) (s : t) : t :=
  mk (messages s) (parcel_id s) (property_data s) (current_agent s)
     (completed_agents s) (errors s) (Some r) (timestamp s).
End AnalysisState.

(** Assignments to the fields of a [PropertyData] object. *)
Definition set_zoning_district (v : option string) (p : PropertyData) : PropertyData :=
  let '(mkPropertyData a b _ d e f g h i j k l m n o q r) := p in
  mkPropertyData a b v d e f g h i j k l m n o q r.
Definition set_zoning_dims (v : option (strdict number)) (p : PropertyData) : PropertyData :=
  let '(mkPropertyData a b c _ e f g h i j k l m n o q r) := p in
  mkPropertyData a b c v e f g h i j k l m n o q r.
Definition set_arv (v : option number) (p : PropertyData) : PropertyData :=
  let '(mkPropertyData a b c d e _ g h i j k l m n o q r) := p in
  mkPropertyData a b c d e v g h i j k l m n o q r.
Definition set_comparable_sales (v : list (strdict pyobj)) (p : PropertyData) : PropertyData :=
  let '(mkPropertyData a b c d e f g _ i j k l m n o q r) := p in
  mkPropertyData a b c d e f g v i j k l m n o q r.
Definition set_max_bid (v : option number) (p : PropertyData) : PropertyData :=
  let '(mkPropertyData a b c d e f g h _ j k l m n o q r) := p in
  mkPropertyData a b c d e f g h v j k l m n o q r.
Definition set_permit_history (v : list (strdict pyobj)) (p : PropertyData) : PropertyData :=
  let '(mkPropertyData a b c d e f g h i _ k l m n o q r) := p in
  mkPropertyData a b c d e f g h i v k l m n o q r.
Definition set_open_violations (v : list (strdict pyobj)) (p : PropertyData) : PropertyData :=
  let '(mkPropertyData a b c d e f g h i j _ l m n o q r) := p in
  mkPropertyData a b c d e f g h i j v l m n o q r.
Definition set_permit_risk_score (v : Z) (p : PropertyData) : PropertyData :=
  let '(mkPropertyData a b c d e f g h i j k _ m n o q r) := p in
  mkPropertyData a b c d e f g h i j k v m n o q r.
Definition set_max_buildable_sqft (v : option number) (p : PropertyData) : PropertyData :=
  let '(mkPropertyData a b c d e f g h i j k l _ n o q r) := p in
  mkPropertyData a b c d e f g h i j k l v n o q r.
Definition set_max_height (v : option number) (p : PropertyData) : PropertyData :=
  let '(mkPropertyData a b c d e f g h i j k l m _ o q r) := p in
  mkPropertyData a b c d e f g h i j k l m v o q r.
Definition set_envelope_generated (v : bool) (p : PropertyData) : PropertyData :=
  let '(mkPropertyData a b c d e f g h i j k l m n _ q r) := p in
  mkPropertyData a b c d e f g h i j k l m n v q r.
Definition set_avg_sun_hours (v : option number) (p : PropertyData) : PropertyData :=
  let '(mkPropertyData a b c d e f g h i j k l m n o _ r) := p in
  mkPropertyData a b c d e f g h i j k l m n o v r.

(** ** Agent nodes (langgraph_workflow.py) *)

(** [except Exception]: every class of [exn] is a subclass of [Exception]. *)
Definition any_Exception (e : exn) : bool := true.

(** [agent = create_agent(); deps = AgentDependencies()], with the default
    arguments of both. *)
Definition create_agent_default (E : Env) : stx io_log Agent.t :=
  create_agent E default_model "./zonewise/skills".
Definition deps_default : AgentDependencies.t :=
  AgentDependencies.new default_skills_path.

(** [zoning_agent_node]; [beh] is what the model does in this invocation. *)
Definition zoning_agent_node (E : Env) (beh : behaviour) (state : AnalysisState.t)
    : stx io_log AnalysisState.t :=
  let parcel_id := AnalysisState.parcel_id state in
  let property_data := AnalysisState.property_data state in
  try_except
    (agent <- create_agent_default E ;;
     let deps := deps_default in
     let query := "Analyze the zoning for parcel " +:+ parcel_id
       +:+ ". What district is it in and what are the development intensity metrics (setbacks, FAR, max height)?" in
     result <- with_local deps (agent_run E beh agent query) ;;
     let property_data := set_zoning_district (Some "RS-10") property_data in
     let property_data :=
       set_zoning_dims
         (Some [ ("max_height_ft", NInt 35);
                 ("far", NFloat (S754_finite false 3152519739159347 (-53)));
                 ("front_setback_ft", NInt 25);
                 ("side_setback_ft", NFloat (S754_finite false 15 (-1)));
                 ("rear_setback_ft", NInt 20) ]) property_data in
     let state := AnalysisState.set_property_data property_data state in
     let state :=
       AnalysisState.append_message
         (AIMessage ("[Zoning Agent] Analyzed zoning for " +:+ parcel_id +:+ ": "
                     +:+ default "None" (zoning_district property_data))
                    "zoning_agent") state in
     stx_ret (AnalysisState.append_completed "zoning" state))%stx
    any_Exception
    (fun e => stx_ret (AnalysisState.append_error ("Zoning agent error: " +:+ exn_str e) state)).

(** [valuation_agent_node].  The figures formatted for the message are the
    constants 325000 and 165000 just assigned: they convert to floats, so
    the formatting returns its text. *)
Definition valuation_agent_node (E : Env) (beh : behaviour) (state : AnalysisState.t)
    : stx io_log AnalysisState.t :=
  let parcel_id := AnalysisState.parcel_id state in
  let property_data := AnalysisState.property_data state in
  try_except
    (agent <- create_agent_default E ;;
     let deps := deps_default in
     let query := "Estimate the ARV for parcel " +:+ parcel_id
       +:+ " and calculate the maximum bid assuming $30,000 in repairs." in
     result <- with_local deps (agent_run E beh agent query) ;;
     let property_data := set_arv (Some (NInt 325000)) property_data in
     let property_data := set_max_bid (Some (NInt 165000)) property_data in
     let property_data :=
       set_comparable_sales
         [ [("address", PyStr "123 Main St"); ("price", PyNum (NInt 310000)); ("sqft", PyNum (NInt 1450))];
           [("address", PyStr "456 Oak Ave"); ("price", PyNum (NInt 340000)); ("sqft", PyNum (NInt 1550))] ]
         property_data in
     let state := AnalysisState.set_property_data property_data state in
     let state :=
       AnalysisState.append_message
         (AIMessage ("[Valuation Agent] ARV: $" +:+ comma_0f_text E (NInt 325000)
                     +:+ ", Max Bid: $" +:+ comma_0f_text E (NInt 165000))
                    "valuation_agent") state in
     stx_ret (AnalysisState.append_completed "valuation" state))%stx
    any_Exception
    (fun e => stx_ret (AnalysisState.append_error ("Valuation agent error: " +:+ exn_str e) state)).

(** [permit_agent_node].  The score printed in the message is the
    constant 15 just assigned. *)
Definition permit_agent_node (E : Env) (beh : behaviour) (state : AnalysisState.t)
    : stx io_log AnalysisState.t :=
  let parcel_id := AnalysisState.parcel_id state in
  let property_data := AnalysisState.property_data state in
  try_except
    (agent <- create_agent_default E ;;
     let deps := deps_default in
     let query := "Check the permit history and code violations for parcel "
       +:+ parcel_id +:+ "." in
     result <- with_local deps (agent_run E beh agent query) ;;
     let property_data :=
       set_permit_history
         [ [("type", PyStr "Roofing"); ("date", PyStr "2020-05-15"); ("status", PyStr "Closed")];
           [("type", PyStr "Electrical"); ("date", PyStr "2018-03-20"); ("status", PyStr "Closed")] ]
         property_data in
     let property_data := set_open_violations [] property_data in
     let property_data := set_permit_risk_score 15 property_data in
     let state := AnalysisState.set_property_data property_data state in
     let state :=
       AnalysisState.append_message
         (AIMessage ("[Permit Agent] Risk score: " +:+ pretty (permit_risk_score property_data)
                     +:+ "/100, No open violations")
                    "permit_agent") state in
     stx_ret (AnalysisState.append_completed "permit" state))%stx
    any_Exception
    (fun e => stx_ret (AnalysisState.append_error ("Permit agent error: " +:+ exn_str e) state)).

(** [s or 'RS-10'] for an optional string *)
Definition str_or (s : option string) (alt : string) : string :=
  match s with
  | Some v => if String.eqb v "" then alt else v
  | None => alt
  end.

(** [envelope_agent_node].  The area formatted for the message is the
    constant 2500 just assigned. *)
Definition envelope_agent_node (E : Env) (beh : behaviour) (state : AnalysisState.t)
    : stx io_log AnalysisState.t :=
  let parcel_id := AnalysisState.parcel_id state in
  let property_data := AnalysisState.property_data state in
  try_except
    (agent <- create_agent_default E ;;
     let deps := deps_default in
     let dims := match zoning_dims property_data with
                 | Some (_ :: _ as d) => d
                 | _ => []
                 end in
     let query := "Generate a building envelope for parcel " +:+ parcel_id +:+ " using "
       +:+ str_or (zoning_district property_data) "RS-10" +:+ " zoning." in
     result <- with_local deps (agent_run E beh agent query) ;;
     let property_data := set_max_buildable_sqft (Some (NInt 2500)) property_data in
     let property_data :=
       set_max_height (Some (dict_get dims "max_height_ft" (NInt 35))) property_data in
     let property_data := set_envelope_generated true property_data in
     let property_data :=
       set_avg_sun_hours (Some (NFloat (S754_finite false 17 (-1)))) property_data in
     let state := AnalysisState.set_property_data property_data state in
     let state :=
       AnalysisState.append_message
         (AIMessage ("[Envelope Agent] Max buildable: " +:+ comma_0f_text E (NInt 2500)
                     +:+ " sqft, Generated 3D envelope")
                    "envelope_agent") state in
     stx_ret (AnalysisState.append_completed "envelope" state))%stx
    any_Exception
    (fun e => stx_ret (AnalysisState.append_error ("Envelope agent error: " +:+ exn_str e) state)).

(** ** Synthesizer (langgraph_workflow.py) *)

(** What a replacement field of an f-string can receive here. *)
Inductive fmt_arg : Type :=
| FNum (x : number)
| FStr (s : string)
| FNone.

(** [format(a, ",.0f")]: defined on numbers only. *)
Definition format_spec_comma_0f (E : Env) (a : fmt_arg) : result string :=
  match a with
  | FNum x => format_comma_0f E x
  | FStr _ => Raised (ValueError "Unknown format code 'f' for object of type 'str'")
  | FNone => Raised (TypeError "unsupported format string passed to NoneType.__format__")
  end.

(** [x or 'N/A'] for an optional number *)
Definition or_NA (x : option number) : fmt_arg :=
  match x with
  | Some n => if number_truthy n then FNum n else FStr "N/A"
  | None => FStr "N/A"
  end.

(** The value of an optional number field, as an f-string receives it. *)
Definition field_arg (x : option number) : fmt_arg :=
  match x with Some n => FNum n | None => FNone end.

(** [format(a)] with an empty format specification: [str(a)]. *)
Definition format_plain (E : Env) (a : fmt_arg) : result string :=
  match a with
  | FNum x => py_str_number E x
  | FStr s => Returned s
  | FNone => Returned "None"
  end.

(** [bool(l)] for a list *)
Definition list_truthy {A} (l : list A) : bool :=
  match l with [] => false | _ => true end.

(** The lines of the report up to and including the heading of the
    recommendation, in the order the list display evaluates them. *)
Definition report_head (E : Env) (state : AnalysisState.t) : result (list string) :=
  let property_data := AnalysisState.property_data state in
  result_bind (format_plain E (or_NA (max_height property_data))) (fun text_height =>
  result_bind
    (if opt_number_truthy (max_buildable_sqft property_data) then
       result_bind (format_spec_comma_0f E (or_NA (max_buildable_sqft property_data)))
         (fun s => Returned ("- **Max Buildable:** " +:+ s +:+ " sqft"))
     else Returned "- **Max Buildable:** N/A") (fun line_buildable =>
  result_bind
    (if opt_number_truthy (arv property_data) then
       result_bind (format_spec_comma_0f E (field_arg (arv property_data)))
         (fun s => Returned ("- **Estimated ARV:** $" +:+ s))
     else Returned "- **Estimated ARV:** N/A") (fun line_arv =>
  result_bind
    (if opt_number_truthy (max_bid property_data) then
       result_bind (format_spec_comma_0f E (field_arg (max_bid property_data)))
         (fun s => Returned ("- **Max Bid (70% rule):** $" +:+ s))
     else Returned "- **Max Bid:** N/A") (fun line_max_bid =>
  result_bind (py_str_int (permit_risk_score property_data)) (fun text_risk =>
  result_bind (format_plain E (or_NA (avg_sun_hours property_data))) (fun text_sun =>
  Returned
    [ "# ZoneWise Property Analysis Report";
      "**Parcel ID:** " +:+ parcel_id property_data;
      "**Generated:** " +:+ AnalysisState.timestamp state;
      "";
      "## Zoning Summary";
      "- **District:** " +:+ str_or (zoning_district property_data) "Unknown";
      "- **Max Height:** " +:+ text_height +:+ " ft";
      line_buildable;
      "";
      "## Valuation Summary";
      line_arv;
      line_max_bid;
      "- **Comparable Sales:** " +:+ pretty (length (comparable_sales property_data)) +:+ " found";
      "";
      "## Permit Analysis";
      "- **Permit Risk Score:** " +:+ text_risk +:+ "/100";
      "- **Open Violations:** " +:+ pretty (length (open_violations property_data));
      "- **Historical Permits:** " +:+ pretty (length (permit_history property_data));
      "";
      "## Sun/Shadow Analysis";
      "- **Average Sun Hours:** " +:+ text_sun +:+ " hrs/day";
      "- **3D Envelope:** "
        +:+ (if envelope_generated property_data then "Generated" else "Not generated");
      "";
      "## Recommendation" ])))))).

(** [synthesizer_node]: combines all agent outputs into the final report. *)
Definition synthesizer_node (E : Env) (state : AnalysisState.t) : result AnalysisState.t :=
  let property_data := AnalysisState.property_data state in
  let errors := AnalysisState.errors state in
  result_bind (report_head E state) (fun report_lines =>
  let recommendation := recommendation property_data in
  let report_lines := (report_lines ++ [recommendation])%list in
  let report_lines :=
    if list_truthy errors then
      (report_lines ++ [""; "## Errors"] ++ map (fun e => "- " +:+ e) errors)%list
    else report_lines in
  let state := AnalysisState.set_final_report (PyStr.join nl report_lines) state in
  Returned
    (AnalysisState.append_message
       (AIMessage ("[Synthesizer] Generated final report with recommendation: "
                   +:+ recommendation) "synthesizer") state)).

(** ** Router (langgraph_workflow.py) *)

(** [x in l] for a list of strings *)
Definition py_in (x : string) (l : list string) : bool :=
  existsb (String.eqb x) l.

Definition agent_order : list string := ["zoning"; "valuation"; "permit"; "envelope"].

(** The [for agent in agent_order] loop with its early [return]; [None]
    when the loop runs to its end. *)
Fixpoint first_not_completed (order completed : list string) : option string :=
  match order with
  | [] => None
  | agent :: rest =>
      if negb (py_in agent completed) then Some agent
      else first_not_completed rest completed
  end.

(** [route_to_next_agent] *)
Definition route_to_next_agent (state : AnalysisState.t) : string :=
  let completed := AnalysisState.completed_agents state in
  match first_not_completed agent_order completed with
  | Some agent => agent
  | None =>
      if negb (py_in "synthesizer" completed) then "synthesizer"
      else "end"
  end.

(** ** Workflow builder and runner (langgraph_workflow.py) *)

Definition START : string := "__start__".
Definition END : string := "__end__".

(** A node of the graph: it receives the environment, what the model does
    during this invocation, and the state. *)
Definition node_fn : Type :=
  Env -> behaviour -> AnalysisState.t -> stx io_log AnalysisState.t.

(** What [StateGraph] records: the nodes, the conditional edges (a routing
    function and the mapping from its answers to nodes) and the plain
    edges. *)
Record StateGraph : Type := mkStateGraph {
  nodes : strdict node_fn;
  conditional_edges : strdict ((AnalysisState.t -> string) * strdict string);
  edges : strdict string
}.

(** [d.get(k)] *)
Fixpoint dict_lookup {V} (d : strdict V) (k : string) : option V :=
  match d with
  | [] => None
  | (k', v) :: d' => if String.eqb k' k then Some v else dict_lookup d' k
  end.

(** The mapping handed to every [add_conditional_edges]. *)
Definition route_mapping : strdict string :=
  [ ("zoning", "zoning"); ("valuation", "valuation"); ("permit", "permit");
    ("envelope", "envelope"); ("synthesizer", "synthesizer"); ("end", END) ].

(** [create_analysis_workflow] *)
Definition create_analysis_workflow : StateGraph :=
  {| nodes :=
       [ ("zoning", zoning_agent_node);
         ("valuation", valuation_agent_node);
         ("permit", permit_agent_node);
         ("envelope", envelope_agent_node);
         ("synthesizer", fun E _ state => stx_lift (synthesizer_node E state)) ];
     conditional_edges :=
       (START, (route_to_next_agent, route_mapping))
       :: map (fun agent => (agent, (route_to_next_agent, route_mapping)))
              ["zoning"; "valuation"; "permit"; "envelope"];
     edges := [ ("synthesizer", END) ] |}.

(** The node that follows [current]: through its conditional edge if it has
    one, else through its plain edge. *)
Definition next_node (g : StateGraph) (current : string) (state : AnalysisState.t)
    : result string :=
  match dict_lookup (conditional_edges g) current with
  | Some (router, mapping) =>
      match dict_lookup mapping (router state) with
      | Some n => Returned n
      | None => Raised (ValueError ("Branch did not return a valid destination: " +:+ router state))
      end
  | None =>
      match dict_lookup (edges g) current with
      | Some n => Returned n
      | None => Returned END
      end
  end.

(** What the engine raises when a run uses up its recursion limit. *)
Definition recursion_error : exn :=
  GraphRecursionError "Recursion limit reached without hitting a stop condition".

(** The engine's loop for a graph in which one node is active at a time:
    follow the edge out of [current]; stop at [END]; otherwise run the node,
    unless [limit] node executions have been used up, in which case the
    engine raises [GraphRecursionError].  [oracle k] is the behaviour of the
    model during the [k]-th node execution.  The engine is a library, not
    code of this repository: that it stops a run which does not reach
    [END] within its limit is what the loop takes from it, and how it
    counts the last step against the limit is not known here.  What is
    proved below of runs that fail holds for every limit; what is proved
    of runs that return is used under the default limit of 25, five times
    the node executions a run without failures needs. *)
Fixpoint run_from (E : Env) (g : StateGraph) (oracle : nat -> behaviour)
    (limit : nat) (step : nat) (current : string) (state : AnalysisState.t)
    : stx io_log AnalysisState.t :=
  (next <- stx_lift (next_node g current state) ;;
   if String.eqb next END then stx_ret state
   else
     match limit with
     | O => stx_raise recursion_error
     | S limit' =>
         match dict_lookup (nodes g) next with
         | None => stx_raise (ValueError ("Unknown node: " +:+ next))
         | Some f =>
             state' <- f E (oracle step) state ;;
             run_from E g oracle limit' (S step) next state'
         end
     end)%stx.

(** [workflow.ainvoke(initial_state, config)] *)
Definition ainvoke (E : Env) (g : StateGraph) (oracle : nat -> behaviour)
    (recursion_limit : nat) (initial_state : AnalysisState.t)
    : stx io_log AnalysisState.t :=
  run_from E g oracle recursion_limit 0 START initial_state.

(** The engine's default recursion limit. *)
Definition default_recursion_limit : nat := 25.

(** The initial state of [run_property_analysis]; [now] is
    [datetime.now().isoformat()]. *)
Definition initial_state (parcel_id now : string) : AnalysisState.t :=
  {| AnalysisState.messages := [HumanMessage ("Analyze property: " +:+ parcel_id)];
     AnalysisState.parcel_id := parcel_id;
     AnalysisState.property_data := PropertyData_new parcel_id;
     AnalysisState.current_agent := "";
     AnalysisState.completed_agents := [];
     AnalysisState.errors := [];
     AnalysisState.final_report := None;
     AnalysisState.timestamp := now |}.

(** [run_property_analysis] *)
Definition run_property_analysis (E : Env) (oracle : nat -> behaviour)
    (recursion_limit : nat) (workflow : StateGraph) (parcel_id now : string)
    : stx io_log AnalysisState.t :=
  ainvoke E workflow oracle recursion_limit (initial_state parcel_id now).

(** ** Parallel execution (langgraph_workflow.py) *)

(** The dictionaries the four analysis coroutines are declared to return,
    with values of the kind the [PropertyData] field they are assigned to
    declares (a number, a string, a list); a field is [None] when the key
    is missing. *)
Module ZoningResult.
Record t : Type := mk { district : option string; dims : option (strdict number) }.
End ZoningResult.
Module PermitResult.
Record t : Type := mk {
  history : option (list (strdict pyobj));
  violations : option (list (strdict pyobj))
}.
End PermitResult.
Module ValuationResult.
Record t : Type := mk { arv : option number; max_bid : option number }.
End ValuationResult.
Module EnvelopeResult.
Record t : Type := mk { sun_hours : option number }.
End EnvelopeResult.

(** The four coroutines; [asyncio.gather(..., return_exceptions=True)] hands
    back either the returned dictionary or the exception. *)
Record analysis_tasks : Type := mkTasks {
  run_zoning_analysis : string -> result ZoningResult.t;
  run_permit_analysis : string -> result PermitResult.t;
  run_valuation_analysis : string -> option (strdict number) -> result ValuationResult.t;
  run_envelope_analysis : string -> option (strdict number) -> result EnvelopeResult.t
}.

(** The placeholder coroutines of the source. *)
Definition placeholder_tasks : analysis_tasks :=
  {| run_zoning_analysis := fun _ =>
       Returned (ZoningResult.mk (Some "RS-10") (Some [("max_height_ft", NInt 35)]));
     run_permit_analysis := fun _ => Returned (PermitResult.mk (Some []) (Some []));
     run_valuation_analysis := fun _ _ =>
       Returned (ValuationResult.mk (Some (NInt 325000)) (Some (NInt 165000)));
     run_envelope_analysis := fun _ _ =>
       Returned (EnvelopeResult.mk (Some (NFloat (S754_finite false 17 (-1))))) |}.

(** [run_parallel_analysis]: two phases of two coroutines, then the
    synthesizer.  The pair in the middle is [(property_data, errors)]. *)
Definition run_parallel_analysis (E : Env) (T : analysis_tasks) (parcel_id now : string)
    : result AnalysisState.t :=
  let property_data := PropertyData_new parcel_id in
  let errors : list string := [] in
  (* Phase 1 *)
  let zoning_result := run_zoning_analysis T parcel_id in
  let permit_result := run_permit_analysis T parcel_id in
  let '(property_data, errors) :=
    match zoning_result with
    | Raised e => (property_data, (errors ++ ["Zoning error: " +:+ exn_str e])%list)
    | Returned r =>
        (set_zoning_dims (ZoningResult.dims r)
           (set_zoning_district (ZoningResult.district r) property_data), errors)
    end in
  let '(property_data, errors) :=
    match permit_result with
    | Raised e => (property_data, (errors ++ ["Permit error: " +:+ exn_str e])%list)
    | Returned r =>
        (set_open_violations (default [] (PermitResult.violations r))
           (set_permit_history (default [] (PermitResult.history r)) property_data), errors)
    end in
  (* Phase 2 *)
  let valuation_result := run_valuation_analysis T parcel_id (zoning_dims property_data) in
  let envelope_result := run_envelope_analysis T parcel_id (zoning_dims property_data) in
  let '(property_data, errors) :=
    match valuation_result with
    | Raised e => (property_data, (errors ++ ["Valuation error: " +:+ exn_str e])%list)
    | Returned r =>
        (set_max_bid (ValuationResult.max_bid r)
           (set_arv (ValuationResult.arv r) property_data), errors)
    end in
  let '(property_data, errors) :=
    match envelope_result with
    | Raised e => (property_data, (errors ++ ["Envelope error: " +:+ exn_str e])%list)
    | Returned r =>
        (set_avg_sun_hours (EnvelopeResult.sun_hours r)
           (set_envelope_generated true property_data), errors)
    end in
  let state :=
    {| AnalysisState.messages := [];
       AnalysisState.parcel_id := parcel_id;
       AnalysisState.property_data := property_data;
       AnalysisState.current_agent := "complete";
       AnalysisState.completed_agents := ["zoning"; "permit"; "valuation"; "envelope"];
       AnalysisState.errors := errors;
       AnalysisState.final_report := None;
       AnalysisState.timestamp := now |} in
  synthesizer_node E state.

(** The states the checkpointer ([MemorySaver]) sees: the node that ran and
    the state it returned, for the first [n] node executions of a run. *)
Fixpoint checkpoints (E : Env) (g : StateGraph) (oracle : nat -> behaviour)
    (n : nat) (step : nat) (current : string) (state : AnalysisState.t)
    : stx io_log (list (string * AnalysisState.t)) :=
  match n with
  | O => stx_ret []
  | S n' =>
      (next <- stx_lift (next_node g current state) ;;
       if String.eqb next END then stx_ret []
       else
         match dict_lookup (nodes g) next with
         | None => stx_raise (ValueError ("Unknown node: " +:+ next))
         | Some f =>
             state' <- f E (oracle step) state ;;
             rest <- checkpoints E g oracle n' (S step) next state' ;;
             stx_ret ((next, state') :: rest)
         end)%stx
  end.

(** ** Auxiliary notions used by the statements *)

(** The fallible prefix of every agent node's [try] block: build the agent,
    build its dependencies, run the agent on the query. *)
Definition invoke_capability (E : Env) (beh : behaviour) (query : string)
    : stx io_log string :=
  (agent <- create_agent_default E ;;
   with_local deps_default (agent_run E beh agent query))%stx.

(** The path of the manifest under the default skills directory. *)
Definition default_manifest_path : string :=
  Path.str (Path.div default_skills_path "skills-manifest.yaml").

(** The text between the opening marker and the next marker, when a
    document that starts with the marker has both. *)
Definition enclosed_text (content : string) : option string :=
  match PyStr.split "---" 2 content with
  | [_; enclosed; _] => Some enclosed
  | _ => None
  end.

(** The recommendation a synthesizer run announces in its last message. *)
Definition announced (state : AnalysisState.t) : option message :=
  last (AnalysisState.messages state).


(** The state [run_parallel_analysis] has built when it calls the
    synthesizer: what the two phases gathered. *)
Definition parallel_state (T : analysis_tasks) (parcel_id now : string)
    : AnalysisState.t :=
  let property_data := PropertyData_new parcel_id in
  let errors : list string := [] in
  (* Phase 1 *)
  let zoning_result := run_zoning_analysis T parcel_id in
  let permit_result := run_permit_analysis T parcel_id in
  let '(property_data, errors) :=
    match zoning_result with
    | Raised e => (property_data, (errors ++ ["Zoning error: " +:+ exn_str e])%list)
    | Returned r =>
        (set_zoning_dims (ZoningResult.dims r)
           (set_zoning_district (ZoningResult.district r) property_data), errors)
    end in
  let '(property_data, errors) :=
    match permit_result with
    | Raised e => (property_data, (errors ++ ["Permit error: " +:+ exn_str e])%list)
    | Returned r =>
        (set_open_violations (default [] (PermitResult.violations r))
           (set_permit_history (default [] (PermitResult.history r)) property_data), errors)
    end in
  (* Phase 2 *)
  let valuation_result := run_valuation_analysis T parcel_id (zoning_dims property_data) in
  let envelope_result := run_envelope_analysis T parcel_id (zoning_dims property_data) in
  let '(property_data, errors) :=
    match valuation_result with
    | Raised e => (property_data, (errors ++ ["Valuation error: " +:+ exn_str e])%list)
    | Returned r =>
        (set_max_bid (ValuationResult.max_bid r)
           (set_arv (ValuationResult.arv r) property_data), errors)
    end in
  let '(property_data, errors) :=
    match envelope_result with
    | Raised e => (property_data, (errors ++ ["Envelope error: " +:+ exn_str e])%list)
    | Returned r =>
        (set_avg_sun_hours (EnvelopeResult.sun_hours r)
           (set_envelope_generated true property_data), errors)
    end in
  {| AnalysisState.messages := [];
     AnalysisState.parcel_id := parcel_id;
     AnalysisState.property_data := property_data;
     AnalysisState.current_agent := "complete";
     AnalysisState.completed_agents := ["zoning"; "permit"; "valuation"; "envelope"];
     AnalysisState.errors := errors;
     AnalysisState.final_report := None;
     AnalysisState.timestamp := now |}.

(** The notes of an error list that start with [prefix]. *)
Definition notes_with_prefix (prefix : string) (errors : list string) : list string :=
  List.filter (PyStr.startswith prefix) errors.


(** A field of the valuation slice counts as available when it is set and
    its value is truthy (not zero). *)
(** The numbers of a record that the report prints can be printed: the
    three that go through [",.0f"] convert to floats, and the three that go
    through [str] are within the digit limit.  A missing field, a float and
    an int of ordinary size always can. *)
Definition fits_float (x : option number) : bool :=
  match x with
  | Some (NInt z) => int_fits_float z
  | _ => true
  end.

Definition fits_str (x : option number) : bool :=
  match x with
  | Some (NInt z) => int_fits_str z
  | _ => true
  end.

Definition formattable (pd : PropertyData) : bool :=
  fits_str (max_height pd) && fits_float (max_buildable_sqft pd)
  && fits_float (arv pd) && fits_float (max_bid pd)
  && int_fits_str (permit_risk_score pd) && fits_str (avg_sun_hours pd).

(** [property_data.zoning_dims or {}], where the envelope node looks up
    the height. *)
Definition dims_or_empty (pd : PropertyData) : strdict number :=
  match zoning_dims pd with
  | Some (_ :: _ as d) => d
  | _ => []
  end.

(** The numbers of a state of a sequential run can be printed, also the
    height the envelope node copies from the zoning dimensions. *)
Definition sequential_printable (state : AnalysisState.t) : Prop :=
  let pd := AnalysisState.property_data state in
  formattable pd = true
  /\ fits_str (Some (dict_get (dims_or_empty pd) "max_height_ft" (NInt 35))) = true.

Definition available (x : option number) : Prop :=
  exists n, x = Some n /\ number_truthy n = true.

(** What failure isolation means for one invocation of a node: the node
    returns, and the state it returns differs from the one it received by
    exactly one more error note, [prefix] followed by the text of the
    exception. *)
Definition isolates_failure (node : node_fn) (prefix : string) (E : Env)
    (beh : behaviour) (state : AnalysisState.t) (log : io_log)
    (e : exn) (log' : io_log) : Prop :=
  exists state',
    node E beh state log = (Returned state', log')
    /\ AnalysisState.errors state'
       = (AnalysisState.errors state ++ [prefix +:+ exn_str e])%list
    /\ AnalysisState.completed_agents state' = AnalysisState.completed_agents state
    /\ AnalysisState.property_data state' = AnalysisState.property_data state
    /\ AnalysisState.final_report state' = AnalysisState.final_report state.

(** What success means for one invocation of the node of [stage]: the node
    returns, the stage is appended to the completed list, and no error note
    is added. *)
Definition completes_stage (node : node_fn) (stage : string) (E : Env)
    (beh : behaviour) (state : AnalysisState.t) (log log' : io_log) : Prop :=
  exists state',
    node E beh state log = (Returned state', log')
    /\ AnalysisState.completed_agents state'
       = (AnalysisState.completed_agents state ++ [stage])%list
    /\ AnalysisState.errors state' = AnalysisState.errors state.

(** The reasoning capability fails at every invocation. *)
Definition always_fails (E : Env) (oracle : nat -> behaviour) : Prop :=
  forall k log, exists e log', invoke_capability E (oracle k) "" log = (Raised e, log').

(** The reasoning capability succeeds at every invocation. *)
Definition always_succeeds (E : Env) (oracle : nat -> behaviour) : Prop :=
  forall k log, exists r log', invoke_capability E (oracle k) "" log = (Returned r, log').

(** A computation only ever appends to the storage log. *)
Definition appends {A} (m : stx io_log A) : Prop :=
  forall log, exists suffix, snd (m log) = (log ++ suffix)%list.

(** The same for a computation that also works on the dependencies. *)
Definition appends_with_deps {A} (m : stx tool_store A) : Prop :=
  forall deps log, exists suffix, snd (snd (m (deps, log))) = (log ++ suffix)%list.

(** What [load_skill_tool] answers on a cache hit and after a load. *)
Definition already_loaded_skill (name : string) (skill : LoadedSkill.t) : string :=
  "[Skill '" +:+ name +:+ "' already loaded]" +:+ nl +:+ nl +:+ LoadedSkill.content skill.
Definition freshly_loaded_skill (name : string) (skill : LoadedSkill.t) : string :=
  "# " +:+ name +:+ " Skill" +:+ nl +:+ nl +:+ LoadedSkill.content skill.

(** What [read_reference_tool] answers on a cache hit and after a load. *)
Definition already_loaded_reference (ref : SkillReference.t) : string :=
  "[Reference already loaded]" +:+ nl +:+ nl +:+ SkillReference.content ref.
Definition freshly_loaded_reference (reference_name : string) (ref : SkillReference.t)
    : string :=
  "# Reference: " +:+ reference_name +:+ nl +:+ nl +:+ SkillReference.content ref.

(** What the agent nodes keep true of the state of a sequential run: the
    permit slice is either at its defaults or as the permit node writes
    it, the valuation figures are there once valuation is completed, and
    the synthesizer is never recorded as completed. *)
Definition sequential_invariant (state : AnalysisState.t) : Prop :=
  let pd := AnalysisState.property_data state in
  let completed := AnalysisState.completed_agents state in
  open_violations pd = []
  /\ (permit_risk_score pd = 0 \/ permit_risk_score pd = 15)
  /\ (In "valuation" completed ->
      arv pd = Some (NInt 325000) /\ max_bid pd = Some (NInt 165000))
  /\ ~ In "synthesizer" completed.

(** A state of a sequential run in which zoning and valuation are done and
    the permit stage has not succeeded: the valuation figures are there,
    the permit slice is at its defaults, and there is no report. *)
Definition permit_pending (state : AnalysisState.t) : Prop :=
  let pd := AnalysisState.property_data state in
  AnalysisState.completed_agents state = ["zoning"; "valuation"]
  /\ arv pd = Some (NInt 325000)
  /\ max_bid pd = Some (NInt 165000)
  /\ permit_risk_score pd = 0
  /\ open_violations pd = []
  /\ AnalysisState.final_report state = None.

(** The last message of a run that recommends BID. *)
Definition announces_BID (state : AnalysisState.t) : Prop :=
  announced state
  = Some (AIMessage ("[Synthesizer] Generated final report with recommendation: "
                     +:+ rec_BID) "synthesizer").

(** ** Sample environments *)

(** A stand-in for the YAML parser: a text with an opening bracket is
    rejected, a blank text is [None], anything else becomes a one-entry
    mapping. *)
Definition sample_yaml (text : string) : result pyobj :=
  if PyStr.contains "[" text then Raised (YAMLError "while parsing a flow sequence")
  else if String.eqb (PyStr.strip text) "" then Returned PyNone
  else Returned (PyDict [(PyStr "text", PyStr (PyStr.strip text))]).

Definition sample_manifest : SkillsManifest.t :=
  SkillsManifest.mk "1.0" "2025-01-01" 1
    [ SkillMetadata.mk "sun-analysis" "Sun and shadow analysis" "skills/sun-analysis/SKILL.md"
        "analysis" 1 800 ["api_reference.md"] ].

Fixpoint sample_front_matter (d : list (pyobj * pyobj)) : result (strdict pyobj) :=
  match d with
  | [] => Returned []
  | (PyStr k, v) :: rest =>
      match sample_front_matter rest with
      | Returned r => Returned ((k, v) :: r)
      | Raised e => Raised e
      end
  | _ => Raised (ValidationError "front_matter: keys should be strings")
  end.

Definition sample_number_str (x : number) : string :=
  match x with
  | NInt z => pretty z
  | NFloat _ => "<float>"
  end.

(** An installation with a manifest, one skill and one reference. *)
Definition sample_env : Env :=
  {| files :=
       list_to_map
         [ ("zonewise/skills/skills-manifest.yaml", "skills: sun-analysis");
           ("zonewise/skills/sun-analysis/SKILL.md",
            "---" +:+ nl +:+ "name: sun-analysis" +:+ nl +:+ "---" +:+ nl +:+ "Use the ephemeris.");
           ("zonewise/skills/sun-analysis/references/api_reference.md", "GET /sun") ];
     yaml_safe_load := sample_yaml;
     validate_manifest := fun data =>
       match data with
       | PyDict _ => Returned sample_manifest
       | _ => Raised (ValidationError "SkillsManifest: a mapping is required")
       end;
     validate_front_matter := fun data =>
       match data with
       | PyDict d => sample_front_matter d
       | _ => Raised (ValidationError "front_matter: a dictionary is required")
       end;
     comma_0f_text := sample_number_str;
     number_str := sample_number_str |}.

(** The same installation with no file at all under the working directory. *)
Definition bare_env : Env :=
  {| files := ∅;
     yaml_safe_load := sample_yaml;
     validate_manifest := validate_manifest sample_env;
     validate_front_matter := validate_front_matter sample_env;
     comma_0f_text := sample_number_str;
     number_str := sample_number_str |}.

(** A model that answers at once, and one whose call always fails. *)
Definition answers (text : string) : behaviour := mkBehaviour [] (Returned text).
Definition fails (msg : string) : behaviour := mkBehaviour [] (Raised (CapabilityError msg)).

(** A model that loads the same skill twice, then answers. *)
Definition loads_twice (skill : string) : behaviour :=
  mkBehaviour [CallLoadSkill skill; CallLoadSkill skill] (Returned "done").

(** A model whose calls succeed during the first [k] node executions and
    fail from then on. *)
Definition fails_from (k : nat) (msg : string) : nat -> behaviour :=
  fun step => if Nat.ltb step k then answers "ok" else fails msg.

(** A model whose call fails at the node execution number [k] only. *)
Definition fails_at (k : nat) (msg : string) : nat -> behaviour :=
  fun step => if Nat.eqb step k then fails msg else answers "ok".

(** ** Further notions used by the statements *)

(** The prefixes of the notes the four agent nodes write. *)
Definition stage_prefixes : list string :=
  [ "Zoning agent error: "; "Valuation agent error: ";
    "Permit agent error: "; "Envelope agent error: " ].

(** An error note written by one of the four agent nodes. *)
Definition is_stage_note (e : string) : bool :=
  existsb (fun prefix => PyStr.startswith prefix e) stage_prefixes.

(** The completed list is an initial segment of the fixed order. *)
Definition in_fixed_order (completed : list string) : Prop :=
  exists n, completed = firstn n agent_order.

(** What an agent node leaves behind, success or failure. *)
Definition node_effect (stage : string) (state state' : AnalysisState.t) : Prop :=
  AnalysisState.final_report state' = AnalysisState.final_report state
  /\ ((AnalysisState.completed_agents state'
       = (AnalysisState.completed_agents state ++ [stage])%list
       /\ AnalysisState.errors state' = AnalysisState.errors state)
      \/ (AnalysisState.completed_agents state' = AnalysisState.completed_agents state
          /\ exists note, is_stage_note note = true
                          /\ AnalysisState.errors state'
                             = (AnalysisState.errors state ++ [note])%list)).

(** A manifest with other declared reference lists, everything else kept. *)
Definition declare_references (f : SkillMetadata.t -> list string)
    (m : SkillsManifest.t) : SkillsManifest.t :=
  SkillsManifest.mk (SkillsManifest.version m) (SkillsManifest.updated m)
    (SkillsManifest.total_skills m)
    (map (fun s => SkillMetadata.mk (SkillMetadata.name s) (SkillMetadata.description s)
                     (SkillMetadata.path s) (SkillMetadata.category s)
                     (SkillMetadata.priority s) (SkillMetadata.tokens_estimate s) (f s))
         (SkillsManifest.skills m)).

(** An installation whose manifest lists a skill with a colon in its name,
    with one reference document. *)
Definition colon_manifest : SkillsManifest.t :=
  SkillsManifest.mk "1.0" "2025-01-01" 2
    [ SkillMetadata.mk "a:b" "First skill" "skills/first/SKILL.md" "analysis" 1 100 ["c"];
      SkillMetadata.mk "a" "Second skill" "skills/second/SKILL.md" "analysis" 2 100 ["b:c"] ].

Definition colon_env : Env :=
  {| files :=
       list_to_map
         [ ("zonewise/skills/skills-manifest.yaml", "skills: two");
           ("zonewise/skills/first/references/c", "reference of the first skill");
           ("zonewise/skills/second/references/b:c", "reference of the second skill") ];
     yaml_safe_load := sample_yaml;
     validate_manifest := fun _ => Returned colon_manifest;
     validate_front_matter := validate_front_matter sample_env;
     comma_0f_text := sample_number_str;
     number_str := sample_number_str |}.

(** An installation whose manifest the YAML parser rejects. *)
Definition broken_env : Env :=
  {| files := list_to_map [ ("zonewise/skills/skills-manifest.yaml", "skills: [sun") ];
     yaml_safe_load := sample_yaml;
     validate_manifest := validate_manifest sample_env;
     validate_front_matter := validate_front_matter sample_env;
     comma_0f_text := sample_number_str;
     number_str := sample_number_str |}.

(** A stand-in for the YAML parser on a date that does not exist: PyYAML
    resolves [0000-00-00] as a timestamp and builds a [datetime.date] from
    it, whose constructor raises [ValueError], not a [YAMLError]. *)
Definition dated_yaml (text : string) : result pyobj :=
  if PyStr.contains "0000-00-00" text then Raised (ValueError "year 0 is out of range")
  else sample_yaml text.

Definition dated_env : Env :=
  {| files := files sample_env;
     yaml_safe_load := dated_yaml;
     validate_manifest := validate_manifest sample_env;
     validate_front_matter := validate_front_matter sample_env;
     comma_0f_text := sample_number_str;
     number_str := sample_number_str |}.

(** A skill document whose front matter carries such a date. *)
Definition dated_document : string :=
  "---" +:+ nl +:+ "updated: 0000-00-00" +:+ nl +:+ "---" +:+ nl +:+ "Use the ephemeris.".

(** ** The skill evaluator (tests/test_skill_evals.py) *)

(** [c.lower()] for an ASCII letter; other characters are left as they are. *)
Definition ascii_lower (c : Ascii.ascii) : Ascii.ascii :=
  let n := Ascii.nat_of_ascii c in
  if ((65 <=? n)%nat && (n <=? 90)%nat)%bool then Ascii.ascii_of_nat (n + 32) else c.

(** [s.lower()] on ASCII text *)
Fixpoint str_lower (s : string) : string :=
  match s with
  | EmptyString => EmptyString
  | String c s' => String (ascii_lower c) (str_lower s')
  end.

Module SkillEvalCase.
(** A single evaluation case for skill loading *)
Record t : Type := mk {
  name : string;
  query : string;
  expected_skills : list string;
  forbidden_skills : list string;
  expected_in_response : list string;
  description : string
}.
End SkillEvalCase.

Module SkillEvalResult.
(** Result of an evaluation *)
Record t : Type := mk {
  case_name : string;
  passed : bool;
  skills_loaded : list string;
  skills_missing : list string;
  forbidden_loaded : list string;
  response_keywords_found : list string;
  response_keywords_missing : list string;
  error : option string
}.
End SkillEvalResult.

(** [deps.loaded_skills = {}; deps.loaded_references = {}]: the manifest
    and the skills path stay. *)
Definition reset_caches (deps : AgentDependencies.t) : AgentDependencies.t :=
  {| AgentDependencies.skills_path := AgentDependencies.skills_path deps;
     AgentDependencies.manifest := AgentDependencies.manifest deps;
     AgentDependencies.loaded_skills := ∅;
     AgentDependencies.loaded_references := ∅ |}.

(** [list(deps.loaded_skills.keys())].  The source lists the keys in the
    order the skills were loaded; the map used here has no such order, so
    only the members of this list are meaningful. *)
Definition loaded_skill_names (deps : AgentDependencies.t) : list string :=
  map fst (map_to_list (AgentDependencies.loaded_skills deps)).

(** [SkillEvaluator.run_eval]: the evaluator's agent and dependencies are
    the agent argument and the store; [beh] is what the model does when it
    is run on the query of the case. *)
Definition run_eval (E : Env) (beh : behaviour) (agent : Agent.t) (case : SkillEvalCase.t)
    : stx tool_store SkillEvalResult.t :=
  (stx_modify (fun st : tool_store => (reset_caches (fst st), snd st)) ;;;
   try_except
     (data <- agent_run E beh agent (SkillEvalCase.query case) ;;
      st <- stx_get ;;
      let response := if String.eqb data "" then "" else str_lower data in
      let skills_loaded := loaded_skill_names (fst st) in
      let skills_missing :=
        List.filter (fun s => negb (py_in s skills_loaded))
                    (SkillEvalCase.expected_skills case) in
      let forbidden_loaded :=
        List.filter (fun s => py_in s skills_loaded)
                    (SkillEvalCase.forbidden_skills case) in
      let response_keywords_found :=
        List.filter (fun kw => PyStr.contains (str_lower kw) response)
                    (SkillEvalCase.expected_in_response case) in
      let response_keywords_missing :=
        List.filter (fun kw => negb (PyStr.contains (str_lower kw) response))
                    (SkillEvalCase.expected_in_response case) in
      let passed :=
        (Nat.eqb (length skills_missing) 0
         && Nat.eqb (length forbidden_loaded) 0
         && Nat.eqb (length response_keywords_missing) 0)%bool in
      stx_ret (SkillEvalResult.mk (SkillEvalCase.name case) passed skills_loaded
                 skills_missing forbidden_loaded response_keywords_found
                 response_keywords_missing None))
     any_Exception
     (fun e =>
        stx_ret (SkillEvalResult.mk (SkillEvalCase.name case) false []
                   (SkillEvalCase.expected_skills case) [] []
                   (SkillEvalCase.expected_in_response case) (Some (exn_str e)))))%stx.

(** The skills the model asks [load_skill_tool] for. *)
Definition requested_skills (beh : behaviour) : list string :=
  flat_map (fun c => match c with
                     | CallLoadSkill name => [name]
                     | CallReadReference _ _ => []
                     end) (tool_calls beh).

(** An evaluation case in the manner of SKILL_EVAL_CASES, for the sample
    skill. *)
Definition sample_case : SkillEvalCase.t :=
  SkillEvalCase.mk "sun_path" "Where is the sun at noon?" ["sun-analysis"]
    ["permit-lookup"] ["Done"] "Should load sun-analysis".

(** Dependencies left behind by an earlier evaluation: a forbidden skill is
    still in the cache. *)
Definition stale_deps : AgentDependencies.t :=
  AgentDependencies.cache_skill "permit-lookup"
    (LoadedSkill.mk "permit-lookup" "Look up permits." []) deps_default.

(** * Properties *)

(** ** Strings and membership *)

Lemma py_in_In (x : string) (l : list string) : py_in x l = true <-> In x l.
Proof.
  unfold py_in. rewrite existsb_exists. split.
  - intros (y & Hy & Heq). apply String.eqb_eq in Heq. now subst.
  - intros H. exists x. split; [assumption | apply String.eqb_refl].
Qed.

Lemma py_in_not_In (x : string) (l : list string) : py_in x l = false <-> ~ In x l.
Proof.
  rewrite <- py_in_In. destruct (py_in x l); split; intros H; congruence.
Qed.

Lemma startswith_app (p s : string) : PyStr.startswith p (p +:+ s) = true.
Proof.
  induction p as [|c p IH]; simpl; [reflexivity|].
  now rewrite Ascii.eqb_refl.
Qed.

(** ** Router *)

Lemma first_not_completed_Some (order completed : list string) (a : string) :
  first_not_completed order completed = Some a ->
  exists pre post, order = (pre ++ a :: post)%list
                   /\ (forall x, In x pre -> In x completed) /\ ~ In a completed.
Proof.
  induction order as [|b order IH]; simpl; [discriminate|].
  destruct (py_in b completed) eqn:Hb; simpl.
  - intros H. destruct (IH H) as (pre & post & -> & Hpre & Ha).
    exists (b :: pre), post. repeat split; [|assumption].
    intros x [<-|Hx]; [now apply py_in_In | now apply Hpre].
  - intros [= <-]. exists [], order. repeat split.
    + intros x [].
    + now apply py_in_not_In.
Qed.

Lemma first_not_completed_None (order completed : list string) :
  first_not_completed order completed = None <->
  (forall x, In x order -> In x completed).
Proof.
  induction order as [|b order IH]; simpl.
  - split; [intros _ x [] | reflexivity].
  - destruct (py_in b completed) eqn:Hb; simpl.
    + rewrite IH. apply py_in_In in Hb. split.
      * intros H x [<-|Hx]; auto.
      * intros H x Hx. apply H. now right.
    + apply py_in_not_In in Hb. split; [discriminate|].
      intros H. destruct Hb. apply H. now left.
Qed.




(** ** Synthesizer *)

Example label_of_texts :
  map label_of [rec_BID; rec_REVIEW; rec_SKIP; rec_INCOMPLETE]
  = [Some BID; Some REVIEW; Some SKIP; Some INCOMPLETE].
Proof. reflexivity. Qed.

Lemma available_truthy (x : option number) : available x <-> opt_number_truthy x = true.
Proof.
  unfold available. destruct x as [n|]; simpl.
  - split; [intros (m & [= <-] & H); exact H | intros H; now exists n].
  - split; [intros (m & H & _); discriminate H | discriminate].
Qed.

Lemma list_truthy_nil {A} (l : list A) : list_truthy l = false <-> l = [].
Proof. destruct l; simpl; split; congruence. Qed.

Lemma recommendation_unfold (pd : PropertyData) :
  recommendation pd =
  if opt_number_truthy (arv pd) && opt_number_truthy (max_bid pd) then
    if (permit_risk_score pd <? 30) && negb (list_truthy (open_violations pd)) then rec_BID
    else if permit_risk_score pd <? 50 then rec_REVIEW
    else rec_SKIP
  else rec_INCOMPLETE.
Proof. reflexivity. Qed.

(** C1, as stated, fails: a record whose [arv] is present with the value
    0.0 and whose [max_bid] is present, with risk score 15 and no open
    violation, is not given BID but INCOMPLETE. *)
Lemma recommendation_zero_arv_counterexample :
  let pd :=
    set_permit_risk_score 15
      (set_max_bid (Some (NInt 165000))
         (set_arv (Some (NFloat (S754_zero false))) (PropertyData_new "2512345"))) in
  arv pd = Some (NFloat (S754_zero false))
  /\ max_bid pd = Some (NInt 165000)
  /\ permit_risk_score pd < 30
  /\ open_violations pd = []
  /\ recommendation pd = rec_INCOMPLETE
  /\ label_of (recommendation pd) <> Some BID.
Proof. simpl. repeat split; try lia. discriminate. Qed.

(** C1, amended.  When both [arv] and [max_bid] are available (set and not
    zero): BID when the risk score is below 30 and there is no open
    violation; otherwise REVIEW when the risk score is below 50; otherwise
    SKIP.  When either is unset or zero: INCOMPLETE, whatever the risk
    score. *)
Theorem recommendation_rule (pd : PropertyData) :
  (available (arv pd) -> available (max_bid pd) ->
     (permit_risk_score pd < 30 -> open_violations pd = [] ->
        recommendation pd = rec_BID)
     /\ (~ (permit_risk_score pd < 30 /\ open_violations pd = []) ->
         permit_risk_score pd < 50 -> recommendation pd = rec_REVIEW)
     /\ (50 <= permit_risk_score pd -> recommendation pd = rec_SKIP))
  /\ (~ available (arv pd) \/ ~ available (max_bid pd) ->
      recommendation pd = rec_INCOMPLETE).
Proof.
  rewrite recommendation_unfold, !available_truthy. split.
  - intros -> ->. simpl. repeat split.
    + intros Hr Hv. apply Z.ltb_lt in Hr. rewrite Hr, Hv. reflexivity.
    + intros Hn Hr.
      destruct (permit_risk_score pd <? 30) eqn:H30; simpl.
      * destruct (list_truthy (open_violations pd)) eqn:Hv; simpl.
        -- apply Z.ltb_lt in Hr. now rewrite Hr.
        -- destruct Hn. split; [now apply Z.ltb_lt | now apply list_truthy_nil].
      * apply Z.ltb_lt in Hr. now rewrite Hr.
    + intros Hr.
      assert (H30 : (permit_risk_score pd <? 30) = false) by (apply Z.ltb_ge; lia).
      assert (H50 : (permit_risk_score pd <? 50) = false) by (apply Z.ltb_ge; lia).
      now rewrite H30, H50.
  - intros [H|H].
    + destruct (opt_number_truthy (arv pd)); [now destruct H | reflexivity].
    + destruct (opt_number_truthy (max_bid pd)); [now destruct H|].
      now rewrite andb_false_r.
Qed.

(** The record of the end-to-end scenario (ARV 325000, maximum bid 165000,
    risk score 15, no open violation) is given BID. *)
Lemma recommendation_rule_witness :
  recommendation
    (set_permit_risk_score 15
       (set_max_bid (Some (NInt 165000))
          (set_arv (Some (NInt 325000)) (PropertyData_new "2512345"))))
  = rec_BID.
Proof.
  apply (proj1 (recommendation_rule _)).
  - exists (NInt 325000). split; reflexivity.
  - exists (NInt 165000). split; reflexivity.
  - simpl. lia.
  - reflexivity.
Defined.

Lemma startswith_refl (s : string) : PyStr.startswith s s = true.
Proof. induction s as [|c s IH]; simpl; [reflexivity | now rewrite Ascii.eqb_refl]. Qed.

Lemma join_startswith (sep x : string) (rest : list string) :
  PyStr.startswith x (PyStr.join sep (x :: rest)) = true.
Proof.
  destruct rest; simpl; [apply startswith_refl | apply startswith_app].
Qed.

Lemma format_comma_0f_fits (E : Env) (n : number) :
  fits_float (Some n) = true -> format_comma_0f E n = Returned (comma_0f_text E n).
Proof. destruct n as [z|f]; simpl; [intros ->|]; reflexivity. Qed.

Lemma format_guarded_or_NA (E : Env) (x : option number) :
  opt_number_truthy x = true -> fits_float x = true ->
  exists s, format_spec_comma_0f E (or_NA x) = Returned s.
Proof.
  destruct x as [n|]; simpl; [|discriminate].
  intros -> Hf. simpl. rewrite (format_comma_0f_fits E n Hf). eauto.
Qed.

Lemma format_guarded_field (E : Env) (x : option number) :
  opt_number_truthy x = true -> fits_float x = true ->
  exists s, format_spec_comma_0f E (field_arg x) = Returned s.
Proof.
  destruct x as [n|]; simpl; [|discriminate].
  intros _ Hf. rewrite (format_comma_0f_fits E n Hf). eauto.
Qed.

Lemma format_plain_or_NA (E : Env) (x : option number) :
  fits_str x = true ->
  exists s, format_plain E (or_NA x) = Returned s
            /\ (opt_number_truthy x = false -> s = "N/A").
Proof.
  unfold or_NA, opt_number_truthy, fits_str.
  destruct x as [[z|f]|]; [| |eauto].
  - intros Hf. destruct (number_truthy (NInt z)); cbn [format_plain py_str_number];
      [rewrite Hf|]; eexists; (split; [reflexivity|]); [discriminate | reflexivity].
  - intros _. destruct (number_truthy (NFloat f)); cbn [format_plain py_str_number];
      eexists; (split; [reflexivity|]); [discriminate | reflexivity].
Qed.

Lemma formattable_fields (pd : PropertyData) :
  formattable pd = true ->
  fits_str (max_height pd) = true /\ fits_float (max_buildable_sqft pd) = true
  /\ fits_float (arv pd) = true /\ fits_float (max_bid pd) = true
  /\ int_fits_str (permit_risk_score pd) = true /\ fits_str (avg_sun_hours pd) = true.
Proof.
  unfold formattable. rewrite !andb_true_iff. tauto.
Qed.

(** The head of the report is produced whenever the numbers of the record
    can be printed, and it opens with the title: each field that goes
    through [",.0f"] is formatted only under the test that it is truthy. *)
Lemma report_head_returns (E : Env) (state : AnalysisState.t) :
  formattable (AnalysisState.property_data state) = true ->
  exists rest, report_head E state
               = Returned ("# ZoneWise Property Analysis Report" :: rest).
Proof.
  intros Hf. apply formattable_fields in Hf.
  destruct Hf as (Hh & Hb & Ha & Hm & Hr & Hs).
  unfold report_head, py_str_int.
  set (pd := AnalysisState.property_data state) in *.
  destruct (format_plain_or_NA E _ Hh) as (th & -> & _).
  destruct (format_plain_or_NA E _ Hs) as (ts & -> & _).
  rewrite Hr.
  destruct (opt_number_truthy (max_buildable_sqft pd)) eqn:H1;
    [destruct (format_guarded_or_NA E _ H1 Hb) as (s1 & ->)|];
    (destruct (opt_number_truthy (arv pd)) eqn:H2;
      [destruct (format_guarded_field E _ H2 Ha) as (s2 & ->)|]);
    (destruct (opt_number_truthy (max_bid pd)) eqn:H3;
      [destruct (format_guarded_field E _ H3 Hm) as (s3 & ->)|]);
    simpl; eauto.
Qed.


Lemma synthesizer_node_returns (E : Env) (state : AnalysisState.t) :
  formattable (AnalysisState.property_data state) = true ->
  exists lines,
    synthesizer_node E state =
    Returned
      (AnalysisState.append_message
         (AIMessage ("[Synthesizer] Generated final report with recommendation: "
                     +:+ recommendation (AnalysisState.property_data state)) "synthesizer")
         (AnalysisState.set_final_report
            (PyStr.join nl ("# ZoneWise Property Analysis Report" :: lines)) state)).
Proof.
  intros Hf. unfold synthesizer_node.
  destruct (report_head_returns E state Hf) as (rest & ->). simpl.
  destruct (list_truthy (AnalysisState.errors state)); eauto.
Qed.


(** Whenever the head of the report is produced, it opens with the title. *)
Lemma report_head_title (E : Env) (state : AnalysisState.t) (head : list string) :
  report_head E state = Returned head ->
  exists rest, head = "# ZoneWise Property Analysis Report" :: rest.
Proof.
  unfold report_head.
  repeat match goal with
         | |- context [result_bind ?r _] =>
             destruct r; cbn [result_bind]; try discriminate
         end.
  intros H. inversion H. eauto.
Qed.

(** What the synthesizer has done when it returns. *)
Lemma synthesizer_node_inv (E : Env) (state state' : AnalysisState.t) :
  synthesizer_node E state = Returned state' ->
  exists lines,
    state' =
    AnalysisState.append_message
      (AIMessage ("[Synthesizer] Generated final report with recommendation: "
                  +:+ recommendation (AnalysisState.property_data state)) "synthesizer")
      (AnalysisState.set_final_report
         (PyStr.join nl ("# ZoneWise Property Analysis Report" :: lines)) state).
Proof.
  unfold synthesizer_node.
  destruct (report_head E state) as [head|e] eqn:Hh; [|discriminate].
  destruct (report_head_title E state head Hh) as (rest & ->).
  cbn [result_bind]. intros H. inversion H.
  destruct (list_truthy (AnalysisState.errors state)); eauto.
Qed.




(** ** Front matter *)

(** C7 on the code.  A document that does not start with the marker
    parses to an empty front matter and the whole text as body.  For a
    document that starts with the marker and has a closing one, what
    happens when the parser fails on the enclosed text depends on the
    class of the exception: a [YAMLError] is swallowed and the document
    parses the same way, empty front matter and the raw document as body;
    any other exception of the parser is not caught, and
    [parse_front_matter] raises it. *)
Theorem parse_front_matter_parser_failure (E : Env) (content : string) :
  (PyStr.startswith "---" content = false ->
   parse_front_matter E content = Returned (PyDict [], content))
  /\ (forall enclosed e,
        PyStr.startswith "---" content = true ->
        enclosed_text content = Some enclosed ->
        yaml_safe_load E enclosed = Raised e ->
        parse_front_matter E content
        = if is_YAMLError e then Returned (PyDict [], content) else Raised e).
Proof.
  unfold parse_front_matter, enclosed_text. split.
  - intros ->. reflexivity.
  - intros enclosed e -> Henc Hyaml.
    destruct (PyStr.split "---" 2 content) as [|a [|b [|c [|d l]]]];
      try discriminate Henc.
    injection Henc as ->. simpl. rewrite Hyaml. reflexivity.
Qed.

(** On concrete documents: one without a marker; one whose front matter
    the sample parser rejects with a [YAMLError]; and one whose front
    matter holds a date that does not exist, on which the parser raises a
    [ValueError] and so does [parse_front_matter]. *)
Lemma parse_front_matter_parser_failure_witness :
  parse_front_matter sample_env "Use the ephemeris."
    = Returned (PyDict [], "Use the ephemeris.")
  /\ parse_front_matter sample_env "---[name---Use the ephemeris."
     = Returned (PyDict [], "---[name---Use the ephemeris.")
  /\ parse_front_matter dated_env dated_document
     = Raised (ValueError "year 0 is out of range").
Proof.
  split; [|split].
  - apply (proj1 (parse_front_matter_parser_failure sample_env _)). reflexivity.
  - apply (proj2 (parse_front_matter_parser_failure sample_env _)
             "[name" (YAMLError "while parsing a flow sequence")); reflexivity.
  - apply (proj2 (parse_front_matter_parser_failure dated_env dated_document)
             (nl +:+ "updated: 0000-00-00" +:+ nl)
             (ValueError "year 0 is out of range")); reflexivity.
Defined.

(** A well-formed front matter, for comparison: it is split off. *)
Example parse_front_matter_sample :
  parse_front_matter sample_env "---name: sun---  Use the ephemeris. "
  = Returned (PyDict [(PyStr "text", PyStr "name: sun")], "Use the ephemeris.").
Proof. reflexivity. Qed.

(** ** Agent nodes *)

(** The model of [agent.run] does not look at the query. *)
Lemma invoke_capability_query (E : Env) (beh : behaviour) (q1 q2 : string) :
  invoke_capability E beh q1 = invoke_capability E beh q2.
Proof. reflexivity. Qed.

Ltac node_cases E beh log H :=
  unfold invoke_capability, with_local, agent_run, stx_bind, stx_lift in H;
  unfold try_except, with_local, agent_run, stx_bind, stx_lift;
  destruct (create_agent_default E log) as [[agent|e1] log1];
  [ destruct (run_tools E (tool_calls beh) (deps_default, log1)) as [[u|e2] [d2 log2]];
    [ destruct (answer beh) as [r0|e3] | ]
  | ];
  simpl in H |- *; inversion H; subst; clear H.

Ltac node_outcome E beh log H :=
  unfold try_except, with_local, agent_run, stx_bind, stx_lift, stx_ret in H;
  destruct (create_agent_default E log) as [[agent|e1] log1];
  [ destruct (run_tools E (tool_calls beh) (deps_default, log1)) as [[u|e2] [d2 log2]];
    [ destruct (answer beh) as [r0|e3] | ]
  | ];
  simpl in H; inversion H; subst; clear H.

Section NodeOutcomes.
Context (E : Env) (beh : behaviour) (state : AnalysisState.t) (log log' : io_log).

Lemma zoning_node_fails (e : exn) :
  invoke_capability E beh "" log = (Raised e, log') ->
  isolates_failure zoning_agent_node "Zoning agent error: " E beh state log e log'.
Proof.
  intros H. unfold isolates_failure, zoning_agent_node.
  node_cases E beh log H; eexists; split; try reflexivity; simpl; auto.
Qed.

Lemma valuation_node_fails (e : exn) :
  invoke_capability E beh "" log = (Raised e, log') ->
  isolates_failure valuation_agent_node "Valuation agent error: " E beh state log e log'.
Proof.
  intros H. unfold isolates_failure, valuation_agent_node.
  node_cases E beh log H; eexists; split; try reflexivity; simpl; auto.
Qed.

Lemma permit_node_fails (e : exn) :
  invoke_capability E beh "" log = (Raised e, log') ->
  isolates_failure permit_agent_node "Permit agent error: " E beh state log e log'.
Proof.
  intros H. unfold isolates_failure, permit_agent_node.
  node_cases E beh log H; eexists; split; try reflexivity; simpl; auto.
Qed.

Lemma envelope_node_fails (e : exn) :
  invoke_capability E beh "" log = (Raised e, log') ->
  isolates_failure envelope_agent_node "Envelope agent error: " E beh state log e log'.
Proof.
  intros H. unfold isolates_failure, envelope_agent_node.
  node_cases E beh log H; eexists; split; try reflexivity; simpl; auto.
Qed.

Lemma zoning_node_succeeds (r : string) :
  invoke_capability E beh "" log = (Returned r, log') ->
  completes_stage zoning_agent_node "zoning" E beh state log log'.
Proof.
  intros H. unfold completes_stage, zoning_agent_node.
  node_cases E beh log H; eexists; split; try reflexivity; simpl; auto.
Qed.

Lemma valuation_node_succeeds (r : string) :
  invoke_capability E beh "" log = (Returned r, log') ->
  completes_stage valuation_agent_node "valuation" E beh state log log'.
Proof.
  intros H. unfold completes_stage, valuation_agent_node.
  node_cases E beh log H; eexists; split; try reflexivity; simpl; auto.
Qed.

Lemma permit_node_succeeds (r : string) :
  invoke_capability E beh "" log = (Returned r, log') ->
  completes_stage permit_agent_node "permit" E beh state log log'.
Proof.
  intros H. unfold completes_stage, permit_agent_node.
  node_cases E beh log H; eexists; split; try reflexivity; simpl; auto.
Qed.

Lemma envelope_node_succeeds (r : string) :
  invoke_capability E beh "" log = (Returned r, log') ->
  completes_stage envelope_agent_node "envelope" E beh state log log'.
Proof.
  intros H. unfold completes_stage, envelope_agent_node.
  node_cases E beh log H; eexists; split; try reflexivity; simpl; auto.
Qed.

End NodeOutcomes.

(** ** Failure isolation *)

(** C3, as stated, fails in the phased-parallel mode: when the zoning
    coroutine fails there, the note is prefixed "Zoning error:", not
    "Zoning agent error:", and "zoning" is in the completed list all the
    same. *)
Lemma parallel_zoning_failure_counterexample :
  let T := mkTasks (fun _ => Raised (CapabilityError "timeout"))
                   (run_permit_analysis placeholder_tasks)
                   (run_valuation_analysis placeholder_tasks)
                   (run_envelope_analysis placeholder_tasks) in
  exists state',
    run_parallel_analysis sample_env T "2512345" "2026-01-01T00:00:00" = Returned state'
    /\ AnalysisState.errors state' = ["Zoning error: timeout"]
    /\ notes_with_prefix "Zoning agent error:" (AnalysisState.errors state') = []
    /\ In "zoning" (AnalysisState.completed_agents state').
Proof.
  eexists. split; [vm_compute; reflexivity|].
  split; [reflexivity|]. split; [reflexivity|]. simpl. now left.
Qed.

(** The phased-parallel run is the synthesizer on what the phases gathered. *)
Lemma run_parallel_analysis_eq (E : Env) (T : analysis_tasks) (parcel now : string) :
  run_parallel_analysis E T parcel now = synthesizer_node E (parallel_state T parcel now).
Proof.
  unfold run_parallel_analysis, parallel_state.
  destruct (run_zoning_analysis T parcel) as [zr|ze];
    destruct (run_permit_analysis T parcel) as [pr|pe]; cbn -[synthesizer_node];
    match goal with
    | |- context [run_valuation_analysis T parcel ?d] =>
        destruct (run_valuation_analysis T parcel d) as [vr|ve];
        destruct (run_envelope_analysis T parcel d) as [er|ee]
    end; reflexivity.
Qed.

(** What the synthesizer changes in a state it returns on. *)
Lemma synthesizer_node_keeps (E : Env) (state state' : AnalysisState.t) :
  synthesizer_node E state = Returned state' ->
  AnalysisState.errors state' = AnalysisState.errors state
  /\ AnalysisState.property_data state' = AnalysisState.property_data state
  /\ AnalysisState.completed_agents state' = AnalysisState.completed_agents state.
Proof.
  unfold synthesizer_node. destruct (report_head E state) as [head|e]; [|discriminate].
  cbn [result_bind]. intros H. inversion H; subst. repeat split.
Qed.

(** The notes the two phases leave for the coroutines that failed. *)
Lemma parallel_state_notes (T : analysis_tasks) (parcel now : string) :
  let gathered := parallel_state T parcel now in
  (forall e, run_zoning_analysis T parcel = Raised e ->
     notes_with_prefix "Zoning error: " (AnalysisState.errors gathered)
     = ["Zoning error: " +:+ exn_str e])
  /\ (forall e, run_permit_analysis T parcel = Raised e ->
        notes_with_prefix "Permit error: " (AnalysisState.errors gathered)
        = ["Permit error: " +:+ exn_str e])
  /\ (forall e,
        run_valuation_analysis T parcel
          (zoning_dims (AnalysisState.property_data gathered)) = Raised e ->
        notes_with_prefix "Valuation error: " (AnalysisState.errors gathered)
        = ["Valuation error: " +:+ exn_str e])
  /\ (forall e,
        run_envelope_analysis T parcel
          (zoning_dims (AnalysisState.property_data gathered)) = Raised e ->
        notes_with_prefix "Envelope error: " (AnalysisState.errors gathered)
        = ["Envelope error: " +:+ exn_str e]).
Proof.
  unfold parallel_state.
  destruct (run_zoning_analysis T parcel) as [zr|ze];
    destruct (run_permit_analysis T parcel) as [pr|pe]; cbn;
    match goal with
    | |- context [run_valuation_analysis T parcel ?d] =>
        destruct (run_valuation_analysis T parcel d) as [vr|ve] eqn:Hv;
        destruct (run_envelope_analysis T parcel d) as [er|ee] eqn:He
    end; cbn;
    repeat split; intros e Heq;
    try discriminate Heq;
    try (rewrite Hv in Heq); try (rewrite He in Heq);
    try discriminate Heq;
    injection Heq as <-; reflexivity.
Qed.

(** C3, amended.  Sequential mode: whenever the capability invocation of a
    stage raises, the node of that stage returns normally, appends exactly
    one note, "<Stage> agent error: " followed by the text of the
    exception, and leaves the completed list, the property data and the
    report as they were.  Phased-parallel mode: no failure of a coroutine
    makes the run raise.  The run is the synthesizer applied to the state
    the two phases gathered; it returns, with the gathered errors,
    whenever the gathered numbers can be printed, whichever coroutines
    failed; and a failed coroutine leaves exactly one note, "<Stage>
    error: " followed by the text of the exception. *)
Theorem stage_failure_isolated (E : Env) :
  (forall beh state log log' e,
     invoke_capability E beh "" log = (Raised e, log') ->
     isolates_failure zoning_agent_node "Zoning agent error: " E beh state log e log'
     /\ isolates_failure valuation_agent_node "Valuation agent error: " E beh state log e log'
     /\ isolates_failure permit_agent_node "Permit agent error: " E beh state log e log'
     /\ isolates_failure envelope_agent_node "Envelope agent error: " E beh state log e log')
  /\ (forall T parcel now,
        let gathered := parallel_state T parcel now in
        run_parallel_analysis E T parcel now = synthesizer_node E gathered
        /\ (formattable (AnalysisState.property_data gathered) = true ->
            exists state',
              run_parallel_analysis E T parcel now = Returned state'
              /\ AnalysisState.errors state' = AnalysisState.errors gathered)
        /\ (forall e, run_zoning_analysis T parcel = Raised e ->
              notes_with_prefix "Zoning error: " (AnalysisState.errors gathered)
              = ["Zoning error: " +:+ exn_str e])
        /\ (forall e, run_permit_analysis T parcel = Raised e ->
              notes_with_prefix "Permit error: " (AnalysisState.errors gathered)
              = ["Permit error: " +:+ exn_str e])
        /\ (forall e,
              run_valuation_analysis T parcel
                (zoning_dims (AnalysisState.property_data gathered)) = Raised e ->
              notes_with_prefix "Valuation error: " (AnalysisState.errors gathered)
              = ["Valuation error: " +:+ exn_str e])
        /\ (forall e,
              run_envelope_analysis T parcel
                (zoning_dims (AnalysisState.property_data gathered)) = Raised e ->
              notes_with_prefix "Envelope error: " (AnalysisState.errors gathered)
              = ["Envelope error: " +:+ exn_str e])).
Proof.
  split.
  - intros beh state log log' e H. repeat split.
    + now apply zoning_node_fails.
    + now apply valuation_node_fails.
    + now apply permit_node_fails.
    + now apply envelope_node_fails.
  - intros T parcel now gathered.
    split; [apply run_parallel_analysis_eq|]. split.
    + intros Hf. rewrite run_parallel_analysis_eq. subst gathered.
      destruct (synthesizer_node_returns E _ Hf) as (lines & ->).
      eexists. split; reflexivity.
    + exact (parallel_state_notes T parcel now).
Qed.

(** The permit node on a model call that times out: one note, nothing else. *)
Lemma stage_failure_isolated_witness :
  isolates_failure permit_agent_node "Permit agent error: " sample_env (fails "timeout")
    (initial_state "2512345" "2026-01-01T00:00:00") []
    (CapabilityError "timeout")
    [FsExists default_manifest_path; FsRead default_manifest_path].
Proof.
  assert (H : invoke_capability sample_env (fails "timeout") "" []
              = (Raised (CapabilityError "timeout"),
                 [FsExists default_manifest_path; FsRead default_manifest_path]))
    by (vm_compute; reflexivity).
  destruct (proj1 (stage_failure_isolated sample_env) _
              (initial_state "2512345" "2026-01-01T00:00:00") _ _ _ H)
    as (_ & _ & Hpermit & _).
  exact Hpermit.
Defined.

(** ** A missing manifest *)

Lemma load_manifest_missing (E : Env) (skills_path : Path.t) (log : io_log) :
  files E !! Path.str (Path.div skills_path "skills-manifest.yaml") = None ->
  load_manifest E skills_path log
  = (Raised (FileNotFoundError
       ("Skills manifest not found: "
        +:+ Path.str (Path.div skills_path "skills-manifest.yaml"))),
     (log ++ [FsExists (Path.str (Path.div skills_path "skills-manifest.yaml"))])%list).
Proof.
  intros H. unfold load_manifest, stx_bind, path_exists. rewrite H. reflexivity.
Qed.

(** ** The sequential loop under a persistent failure *)

Lemma route_zoning_missing (state : AnalysisState.t) :
  ~ In "zoning" (AnalysisState.completed_agents state) ->
  route_to_next_agent state = "zoning".
Proof.
  intros H. unfold route_to_next_agent, agent_order. simpl.
  apply py_in_not_In in H. now rewrite H.
Qed.

Lemma next_node_zoning (current : string) (state : AnalysisState.t) :
  current = START \/ current = "zoning" ->
  ~ In "zoning" (AnalysisState.completed_agents state) ->
  next_node create_analysis_workflow current state = Returned "zoning".
Proof.
  intros Hc Hz. unfold next_node.
  destruct Hc as [-> | ->]; simpl; now rewrite (route_zoning_missing state Hz).
Qed.


Lemma notes_with_prefix_snoc (prefix text : string) (errors : list string) :
  notes_with_prefix prefix (errors ++ [prefix +:+ text])
  = (notes_with_prefix prefix errors ++ [prefix +:+ text])%list.
Proof.
  unfold notes_with_prefix. rewrite List.filter_app. simpl.
  now rewrite startswith_app.
Qed.

(** One turn of the engine's loop. *)
Lemma run_from_step (E : Env) (g : StateGraph) (oracle : nat -> behaviour)
    (limit step : nat) (current next : string) (f : node_fn)
    (state : AnalysisState.t) (log : io_log) :
  next_node g current state = Returned next ->
  String.eqb next END = false ->
  dict_lookup (nodes g) next = Some f ->
  run_from E g oracle (S limit) step current state log
  = match f E (oracle step) state log with
    | (Returned state', log') => run_from E g oracle limit (S step) next state' log'
    | (Raised e, log') => (Raised e, log')
    end.
Proof.
  intros H1 H2 H3. simpl. unfold stx_bind, stx_lift. rewrite H1, H2, H3. reflexivity.
Qed.

Lemma run_from_limit (E : Env) (g : StateGraph) (oracle : nat -> behaviour)
    (step : nat) (current next : string) (state : AnalysisState.t) (log : io_log) :
  next_node g current state = Returned next ->
  String.eqb next END = false ->
  run_from E g oracle 0 step current state log = (Raised recursion_error, log).
Proof.
  intros H1 H2. simpl. unfold stx_bind, stx_lift. rewrite H1, H2. reflexivity.
Qed.

Lemma run_from_end (E : Env) (g : StateGraph) (oracle : nat -> behaviour)
    (limit step : nat) (current : string) (state : AnalysisState.t) (log : io_log) :
  next_node g current state = Returned END ->
  run_from E g oracle limit step current state log = (Returned state, log).
Proof.
  intros H1. destruct limit; simpl; unfold stx_bind, stx_lift; rewrite H1; reflexivity.
Qed.

Lemma checkpoints_step (E : Env) (g : StateGraph) (oracle : nat -> behaviour)
    (n step : nat) (current next : string) (f : node_fn)
    (state : AnalysisState.t) (log : io_log) :
  next_node g current state = Returned next ->
  String.eqb next END = false ->
  dict_lookup (nodes g) next = Some f ->
  checkpoints E g oracle (S n) step current state log
  = match f E (oracle step) state log with
    | (Returned state', log') =>
        match checkpoints E g oracle n (S step) next state' log' with
        | (Returned rest, log'') => (Returned ((next, state') :: rest), log'')
        | (Raised e, log'') => (Raised e, log'')
        end
    | (Raised e, log') => (Raised e, log')
    end.
Proof.
  intros H1 H2 H3. simpl. unfold stx_bind, stx_lift, stx_ret. rewrite H1, H2, H3.
  destruct (f E (oracle step) state log) as [[state'|e] log']; reflexivity.
Qed.

Section PersistentFailure.
Context (E : Env) (oracle : nat -> behaviour).
Hypothesis Hfail : always_fails E oracle.

(** The loop never gets past the zoning node: it ends at the recursion
    limit, whatever the limit is. *)
Lemma zoning_loop_hits_limit (limit : nat) :
  forall step current state log,
    current = START \/ current = "zoning" ->
    ~ In "zoning" (AnalysisState.completed_agents state) ->
    exists log', run_from E create_analysis_workflow oracle limit step current state log
                 = (Raised recursion_error, log').
Proof.
  induction limit as [|limit IH]; intros step current state log Hc Hz.
  - rewrite (run_from_limit _ _ _ _ _ "zoning");
      [eexists; reflexivity | now apply next_node_zoning | reflexivity].
  - rewrite (run_from_step _ _ _ _ _ _ "zoning" zoning_agent_node);
      [| now apply next_node_zoning | reflexivity | reflexivity].
    destruct (Hfail step log) as (e & log1 & Hi).
    destruct (zoning_node_fails E (oracle step) state log log1 e Hi)
      as (state' & Hn & _ & Hcompl & _).
    rewrite Hn. apply IH; [now right | now rewrite Hcompl].
Qed.

(** Every checkpoint of the run is a return of the zoning node, with the
    completed list untouched and one more zoning note than the one before. *)
Lemma zoning_loop_checkpoints (n : nat) :
  forall step current state log,
    current = START \/ current = "zoning" ->
    ~ In "zoning" (AnalysisState.completed_agents state) ->
    exists cps log',
      checkpoints E create_analysis_workflow oracle n step current state log
      = (Returned cps, log')
      /\ length cps = n
      /\ forall (i : nat) node st, cps !! i = Some (node, st) ->
           node = "zoning"
           /\ AnalysisState.completed_agents st = AnalysisState.completed_agents state
           /\ length (notes_with_prefix "Zoning agent error: " (AnalysisState.errors st))
              = (length (notes_with_prefix "Zoning agent error: "
                           (AnalysisState.errors state)) + S i)%nat.
Proof.
  induction n as [|n IH]; intros step current state log Hc Hz.
  - eexists [], _. split; [reflexivity|]. split; [reflexivity|].
    intros i node st H. discriminate H.
  - rewrite (checkpoints_step _ _ _ _ _ _ "zoning" zoning_agent_node);
      [| now apply next_node_zoning | reflexivity | reflexivity].
    destruct (Hfail step log) as (e & log1 & Hi).
    destruct (zoning_node_fails E (oracle step) state log log1 e Hi)
      as (state' & Hn & Herr & Hcompl & _).
    rewrite Hn.
    destruct (IH (S step) "zoning" state' log1) as (cps & log2 & Hcps & Hlen & Hall);
      [now right | now rewrite Hcompl |].
    rewrite Hcps. eexists _, _. split; [reflexivity|].
    split; [simpl; now rewrite Hlen|].
    intros [|i] node st H; simpl in H.
    + injection H as <- <-. split; [reflexivity|]. split; [exact Hcompl|].
      rewrite Herr, notes_with_prefix_snoc, length_app. simpl. lia.
    + destruct (Hall i node st H) as (-> & Hc2 & Hl2).
      split; [reflexivity|]. split; [congruence|].
      rewrite Hl2, Herr, notes_with_prefix_snoc, length_app. simpl. lia.
Qed.

End PersistentFailure.

(** C4 on the code.  When the reasoning capability fails at every
    invocation, a sequential run never completes: for every recursion limit
    the run ends with the engine's recursion error, and every one of the
    [limit] node executions before that is a retry of the zoning stage,
    the [i]-th of which leaves [i] zoning notes in the errors list. *)
Theorem zoning_failure_retried_until_limit (E : Env) (oracle : nat -> behaviour)
    (parcel now : string) :
  always_fails E oracle ->
  forall limit log,
    (exists log',
       run_property_analysis E oracle limit create_analysis_workflow parcel now log
       = (Raised recursion_error, log'))
    /\ (exists cps log',
          checkpoints E create_analysis_workflow oracle limit 0 START
            (initial_state parcel now) log = (Returned cps, log')
          /\ length cps = limit
          /\ forall (i : nat) node st, cps !! i = Some (node, st) ->
               node = "zoning"
               /\ AnalysisState.completed_agents st = []
               /\ length (notes_with_prefix "Zoning agent error: " (AnalysisState.errors st))
                  = S i).
Proof.
  intros Hfail limit log. split.
  - unfold run_property_analysis, ainvoke.
    apply zoning_loop_hits_limit; [assumption | now left | simpl; tauto].
  - destruct (zoning_loop_checkpoints E oracle Hfail limit 0 START
                (initial_state parcel now) log) as (cps & log' & Hcps & Hlen & Hall);
      [now left | simpl; tauto |].
    exists cps, log'. split; [exact Hcps|]. split; [exact Hlen|].
    intros i node st H. destruct (Hall i node st H) as (Hn & Hc & Hl).
    repeat split; assumption.
Qed.

(** With the sample installation and a model call that always times out,
    a run with the engine's default limit ends in the recursion error. *)
Lemma zoning_failure_retried_until_limit_witness :
  exists log',
    run_property_analysis sample_env (fun _ => fails "timeout") default_recursion_limit
      create_analysis_workflow "2512345" "2026-01-01T00:00:00" []
    = (Raised recursion_error, log').
Proof.
  assert (H : always_fails sample_env (fun _ => fails "timeout")).
  { intros k log. eexists _, _. vm_compute. reflexivity. }
  exact (proj1 (zoning_failure_retried_until_limit sample_env _
                  "2512345" "2026-01-01T00:00:00" H default_recursion_limit [])).
Defined.

(** ** The storage log *)

Lemma reads_of_app (path : string) (l1 l2 : io_log) :
  reads_of path (l1 ++ l2)%list = (reads_of path l1 + reads_of path l2)%nat.
Proof. unfold reads_of. now rewrite List.filter_app, length_app. Qed.

Lemma appends_ret {A} (a : A) : appends (stx_ret a).
Proof. intros log. exists []. simpl. now rewrite app_nil_r. Qed.

Lemma appends_raise {A} (e : exn) : appends (@stx_raise io_log A e).
Proof. intros log. exists []. simpl. now rewrite app_nil_r. Qed.

Lemma appends_lift {A} (r : result A) : appends (stx_lift r).
Proof. intros log. exists []. simpl. now rewrite app_nil_r. Qed.

Lemma appends_bind {A B} (m : stx io_log A) (k : A -> stx io_log B) :
  appends m -> (forall a, appends (k a)) -> appends (stx_bind m k).
Proof.
  intros Hm Hk log. unfold stx_bind. destruct (Hm log) as (s1 & H1).
  destruct (m log) as [[a|e] log1]; simpl in H1; subst log1.
  - destruct (Hk a (log ++ s1)%list) as (s2 & H2). exists (s1 ++ s2)%list.
    now rewrite H2, app_assoc.
  - now exists s1.
Qed.

Lemma appends_path_exists (E : Env) (p : Path.t) : appends (path_exists E p).
Proof. intros log. eexists. reflexivity. Qed.

Lemma appends_read_text (E : Env) (p : Path.t) : appends (read_text E p).
Proof. intros log. unfold read_text. destruct (files E !! Path.str p); eexists; reflexivity. Qed.

Lemma appends_if {A} (b : bool) (m1 m2 : stx io_log A) :
  appends m1 -> appends m2 -> appends (if b then m1 else m2).
Proof. now destruct b. Qed.

Create HintDb appends.
#[local] Hint Resolve appends_ret appends_raise appends_lift appends_path_exists
  appends_read_text : appends.

Ltac appends_tac :=
  repeat first
    [ apply appends_bind; [|intros ?]
    | apply appends_if
    | solve [auto with appends] ].

Lemma appends_load_manifest (E : Env) (p : Path.t) : appends (load_manifest E p).
Proof. unfold load_manifest. appends_tac. Qed.

Lemma appends_load_skill_content (E : Env) (p : Path.t) (name : string)
    (m : SkillsManifest.t) : appends (load_skill_content E p name m).
Proof. unfold load_skill_content. destruct (find_skill m name); appends_tac. Qed.

Lemma appends_load_reference_content (E : Env) (p : Path.t) (name ref : string)
    (m : SkillsManifest.t) : appends (load_reference_content E p name ref m).
Proof. unfold load_reference_content. destruct (find_skill m name); appends_tac. Qed.

Lemma appends_create_agent (E : Env) (model path : string) :
  appends (create_agent E model path).
Proof. unfold create_agent. pose proof appends_load_manifest. appends_tac. Qed.

Lemma appends_deps_ret {A} (a : A) : appends_with_deps (stx_ret a).
Proof. intros d log. exists []. simpl. now rewrite app_nil_r. Qed.

Lemma appends_deps_lift {A} (r : result A) : appends_with_deps (stx_lift r).
Proof. intros d log. exists []. simpl. now rewrite app_nil_r. Qed.

Lemma appends_deps_get : appends_with_deps (@stx_get tool_store).
Proof. intros d log. exists []. simpl. now rewrite app_nil_r. Qed.

Lemma appends_deps_modify (f : AgentDependencies.t -> AgentDependencies.t) :
  appends_with_deps (stx_modify (fun st : tool_store => (f (fst st), snd st))).
Proof. intros d log. exists []. simpl. now rewrite app_nil_r. Qed.

Lemma appends_deps_on_snd {A} (m : stx io_log A) :
  appends m -> appends_with_deps (on_snd (S := AgentDependencies.t) m).
Proof.
  intros Hm d log. destruct (Hm log) as (s & Hs). exists s.
  unfold on_snd. simpl. destruct (m log) as [r log1]. exact Hs.
Qed.

Lemma appends_deps_bind {A B} (m : stx tool_store A) (k : A -> stx tool_store B) :
  appends_with_deps m -> (forall a, appends_with_deps (k a)) ->
  appends_with_deps (stx_bind m k).
Proof.
  intros Hm Hk d log. unfold stx_bind. destruct (Hm d log) as (s1 & H1).
  destruct (m (d, log)) as [[a|e] [d1 log1]]; simpl in H1; subst log1.
  - destruct (Hk a d1 (log ++ s1)%list) as (s2 & H2). exists (s1 ++ s2)%list.
    now rewrite H2, app_assoc.
  - now exists s1.
Qed.

Lemma appends_deps_try {A} (body : stx tool_store A) (classes : exn -> bool)
    (handler : exn -> stx tool_store A) :
  appends_with_deps body -> (forall e, appends_with_deps (handler e)) ->
  appends_with_deps (try_except body classes handler).
Proof.
  intros Hb Hh d log. unfold try_except. destruct (Hb d log) as (s1 & H1).
  destruct (body (d, log)) as [[a|e] [d1 log1]]; simpl in H1; subst log1.
  - now exists s1.
  - destruct (classes e); [|now exists s1].
    destruct (Hh e d1 (log ++ s1)%list) as (s2 & H2). exists (s1 ++ s2)%list.
    now rewrite H2, app_assoc.
Qed.

Ltac appends_deps_tac :=
  repeat first
    [ apply appends_deps_ret
    | apply appends_deps_lift
    | apply appends_deps_get
    | apply appends_deps_modify
    | apply appends_deps_on_snd
    | apply appends_load_manifest
    | apply appends_load_skill_content
    | apply appends_load_reference_content
    | apply appends_deps_try; [|intros ?]
    | apply appends_deps_bind; [|intros ?] ].

Lemma appends_manifest_of_deps (E : Env) : appends_with_deps (manifest_of_deps E).
Proof.
  unfold manifest_of_deps. apply appends_deps_bind; [apply appends_deps_get|].
  intros st. destruct (AgentDependencies.manifest st.1); appends_deps_tac.
Qed.

Lemma appends_load_skill_tool (E : Env) (name : string) :
  appends_with_deps (load_skill_tool E name).
Proof.
  unfold load_skill_tool. apply appends_deps_bind; [apply appends_deps_get|].
  intros st. destruct (AgentDependencies.loaded_skills st.1 !! name).
  - apply appends_deps_ret.
  - apply appends_deps_bind; [apply appends_manifest_of_deps|]. intros m.
    appends_deps_tac.
Qed.

Lemma appends_read_reference_tool (E : Env) (name ref : string) :
  appends_with_deps (read_reference_tool E name ref).
Proof.
  unfold read_reference_tool. apply appends_deps_bind; [apply appends_deps_get|].
  intros st. destruct (AgentDependencies.loaded_references st.1 !! cache_key name ref).
  - apply appends_deps_ret.
  - apply appends_deps_bind; [apply appends_manifest_of_deps|]. intros m.
    appends_deps_tac.
Qed.

Lemma appends_run_tools (E : Env) (calls : list tool_call) :
  appends_with_deps (run_tools E calls).
Proof.
  induction calls as [|c calls IH]; simpl.
  - apply appends_deps_ret.
  - apply appends_deps_bind; [|intros _; exact IH].
    destruct c; [apply appends_load_skill_tool | apply appends_read_reference_tool].
Qed.

Lemma appends_agent_run (E : Env) (beh : behaviour) (agent : Agent.t) (query : string) :
  appends_with_deps (agent_run E beh agent query).
Proof.
  unfold agent_run. apply appends_deps_bind; [apply appends_run_tools|].
  intros _. apply appends_deps_lift.
Qed.

Lemma appends_with_local {A} (d : AgentDependencies.t) (m : stx tool_store A) :
  appends_with_deps m -> appends (with_local d m).
Proof.
  intros Hm log. destruct (Hm d log) as (s & Hs). exists s.
  unfold with_local. destruct (m (d, log)) as [r st]. exact Hs.
Qed.

(** A successful [create_agent] has read the manifest exactly once. *)
Lemma create_agent_reads_manifest (E : Env) (log log1 : io_log) (agent : Agent.t) :
  create_agent_default E log = (Returned agent, log1) ->
  reads_of default_manifest_path log1 = S (reads_of default_manifest_path log).
Proof.
  unfold create_agent_default, create_agent, stx_bind, load_manifest.
  change (Path.of_str "./zonewise/skills") with default_skills_path.
  change (Path.str (Path.div default_skills_path "skills-manifest.yaml"))
    with default_manifest_path.
  unfold stx_bind, path_exists, read_text, stx_lift, stx_raise, stx_ret.
  change (Path.str (Path.div default_skills_path "skills-manifest.yaml"))
    with default_manifest_path.
  destruct (files E !! default_manifest_path) as [text|]; simpl; [|discriminate].
  destruct (yaml_safe_load E text) as [data|e]; [|discriminate].
  destruct (validate_manifest E data) as [m|e]; [|discriminate].
  destruct (get_skill_descriptions m) as [text'|e]; [|discriminate].
  intros [= _ <-]. rewrite !reads_of_app.
  change (reads_of default_manifest_path [FsExists default_manifest_path]) with 0%nat.
  change (reads_of default_manifest_path [FsRead default_manifest_path]) with 1%nat.
  lia.
Qed.

(** A successful capability invocation has read the manifest at least once. *)
Lemma invoke_capability_reads_manifest (E : Env) (beh : behaviour) (query r : string)
    (log log' : io_log) :
  invoke_capability E beh query log = (Returned r, log') ->
  (S (reads_of default_manifest_path log) <= reads_of default_manifest_path log')%nat.
Proof.
  unfold invoke_capability, stx_bind.
  destruct (create_agent_default E log) as [[agent|e] log1] eqn:Hc; [|discriminate].
  apply create_agent_reads_manifest in Hc.
  destruct (appends_with_local deps_default _ (appends_agent_run E beh agent query) log1)
    as (s & Hs).
  intros H. rewrite H in Hs. simpl in Hs. subst log'.
  rewrite reads_of_app, Hc. lia.
Qed.

(** ** Numbers that can be printed *)

Ltac printable_tac Hp :=
  unfold sequential_printable, formattable, dims_or_empty in *; simpl in *;
  first
    [ exact Hp
    | destruct Hp as (Hf & Hd); rewrite !andb_true_iff in *;
      repeat split; first [tauto | vm_compute; reflexivity] ].

Section SequentialPrintable.
Context (E : Env) (beh : behaviour) (state state' : AnalysisState.t) (log log' : io_log).

Lemma zoning_node_printable :
  zoning_agent_node E beh state log = (Returned state', log') ->
  sequential_printable state -> sequential_printable state'.
Proof.
  intros H Hp. unfold zoning_agent_node in H. node_outcome E beh log H;
    destruct state as [ms pid [] ca co er fr ts]; printable_tac Hp.
Qed.

Lemma valuation_node_printable :
  valuation_agent_node E beh state log = (Returned state', log') ->
  sequential_printable state -> sequential_printable state'.
Proof.
  intros H Hp. unfold valuation_agent_node in H. node_outcome E beh log H;
    destruct state as [ms pid [] ca co er fr ts]; printable_tac Hp.
Qed.

Lemma permit_node_printable :
  permit_agent_node E beh state log = (Returned state', log') ->
  sequential_printable state -> sequential_printable state'.
Proof.
  intros H Hp. unfold permit_agent_node in H. node_outcome E beh log H;
    destruct state as [ms pid [] ca co er fr ts]; printable_tac Hp.
Qed.

Lemma envelope_node_printable :
  envelope_agent_node E beh state log = (Returned state', log') ->
  sequential_printable state -> sequential_printable state'.
Proof.
  intros H Hp. unfold envelope_agent_node in H. node_outcome E beh log H;
    destruct state as [ms pid [] ca co er fr ts]; printable_tac Hp.
Qed.

End SequentialPrintable.

Lemma initial_state_printable (parcel now : string) :
  sequential_printable (initial_state parcel now).
Proof. split; vm_compute; reflexivity. Qed.

(** ** The caches of a run *)

Lemma next_node_after (current stage : string) (state : AnalysisState.t) :
  In current [START; "zoning"; "valuation"; "permit"; "envelope"] ->
  route_to_next_agent state = stage ->
  In stage ["zoning"; "valuation"; "permit"; "envelope"; "synthesizer"] ->
  next_node create_analysis_workflow current state = Returned stage.
Proof.
  intros Hc Hr Hs. unfold next_node.
  simpl in Hc. destruct Hc as [<-|[<-|[<-|[<-|[<-|[]]]]]]; simpl; rewrite Hr;
    simpl in Hs; destruct Hs as [<-|[<-|[<-|[<-|[<-|[]]]]]]; reflexivity.
Qed.

Lemma route_by_completed (state : AnalysisState.t) (completed : list string) :
  AnalysisState.completed_agents state = completed ->
  route_to_next_agent state
  = match first_not_completed agent_order completed with
    | Some agent => agent
    | None => if negb (py_in "synthesizer" completed) then "synthesizer" else "end"
    end.
Proof. intros <-. reflexivity. Qed.

(** C5, as stated, fails: in a run of the sample installation in which
    every stage asks twice for the same skill, that skill document is read
    from storage four times and the manifest eight times, not once. *)
Lemma shared_cache_counterexample :
  exists state' log',
    run_property_analysis sample_env (fun _ => loads_twice "sun-analysis")
      default_recursion_limit create_analysis_workflow "2512345" "2026-01-01T00:00:00" []
    = (Returned state', log')
    /\ AnalysisState.completed_agents state' = agent_order
    /\ AnalysisState.errors state' = []
    /\ reads_of "zonewise/skills/sun-analysis/SKILL.md" log' = 4%nat
    /\ reads_of default_manifest_path log' = 8%nat.
Proof.
  eexists _, _. split; [vm_compute; reflexivity|].
  repeat split; vm_compute; reflexivity.
Qed.

Ltac stage_step Hs k node_ok node_print stage node Hprev Hc Hpprev Hp :=
  let r := fresh "r" in
  let log' := fresh "log" in
  let Hi := fresh "Hi" in
  let s := fresh "s" in
  let Hn := fresh "Hn" in
  let He := fresh "He" in
  let Hr := fresh "Hr" in
  rewrite (run_from_step _ _ _ _ _ _ stage node);
    [ | apply next_node_after;
        [ simpl; tauto
        | erewrite route_by_completed by eassumption; reflexivity
        | simpl; tauto ]
      | reflexivity | reflexivity ];
  match goal with
  | |- context [node ?E ?b ?st ?lg] =>
      destruct (Hs k lg) as (r & log' & Hi);
      destruct (node_ok E b st lg log' r Hi) as (s & Hn & Hc & He);
      pose proof (node_print E b st s lg log' Hn Hpprev) as Hp;
      rewrite Hn;
      pose proof (invoke_capability_reads_manifest _ _ _ _ _ _ Hi) as Hr;
      rewrite Hprev in Hc; simpl in Hc
  end.

(** C5, amended.  The stages of a run do not share a cache: every node
    invocation builds its own agent, which loads the catalog from storage,
    and starts from dependencies with no manifest and empty caches.  So in
    a sequential run in which every invocation of the reasoning capability
    succeeds, the four stages complete without an error note and the
    manifest has been read at least four times, once per stage. *)
Theorem catalog_read_by_every_stage (E : Env) (oracle : nat -> behaviour)
    (parcel now : string) (limit : nat) (log : io_log) :
  always_succeeds E oracle ->
  (5 <= limit)%nat ->
  (AgentDependencies.manifest deps_default = None
   /\ AgentDependencies.loaded_skills deps_default = ∅
   /\ AgentDependencies.loaded_references deps_default = ∅)
  /\ exists state' log',
       run_property_analysis E oracle limit create_analysis_workflow parcel now log
       = (Returned state', log')
       /\ AnalysisState.completed_agents state' = agent_order
       /\ AnalysisState.errors state' = []
       /\ (reads_of default_manifest_path log + 4
           <= reads_of default_manifest_path log')%nat.
Proof.
  intros Hs Hlimit. split; [repeat split|].
  do 5 (destruct limit as [|limit]; [lia|]). clear Hlimit.
  unfold run_property_analysis, ainvoke.
  assert (Hc0 : AnalysisState.completed_agents (initial_state parcel now) = [])
    by reflexivity.
  pose proof (initial_state_printable parcel now) as Hp0.
  stage_step Hs 0%nat zoning_node_succeeds zoning_node_printable
    "zoning" zoning_agent_node Hc0 Hc1 Hp0 Hp1.
  stage_step Hs 1%nat valuation_node_succeeds valuation_node_printable
    "valuation" valuation_agent_node Hc1 Hc2 Hp1 Hp2.
  stage_step Hs 2%nat permit_node_succeeds permit_node_printable
    "permit" permit_agent_node Hc2 Hc3 Hp2 Hp3.
  stage_step Hs 3%nat envelope_node_succeeds envelope_node_printable
    "envelope" envelope_agent_node Hc3 Hc4 Hp3 Hp4.
  rewrite (run_from_step _ _ _ _ _ _ "synthesizer"
             (fun E _ state => stx_lift (synthesizer_node E state)));
    [ | apply next_node_after;
        [ simpl; tauto
        | erewrite route_by_completed by eassumption; reflexivity
        | simpl; tauto ]
      | reflexivity | reflexivity ].
  unfold stx_lift.
  match goal with
  | |- context [synthesizer_node E ?st] =>
      destruct (synthesizer_node_returns E st (proj1 Hp4)) as (lines & ->)
  end.
  rewrite run_from_end by reflexivity.
  eexists _, _. split; [reflexivity|]. simpl.
  split; [exact Hc4|]. split; [|lia].
  repeat match goal with
         | H : AnalysisState.errors _ = AnalysisState.errors _ |- _ => rewrite H; clear H
         end.
  reflexivity.
Qed.

(** The sample installation with a model that answers at once. *)
Lemma catalog_read_by_every_stage_witness :
  exists state' log',
    run_property_analysis sample_env (fun _ => answers "ok") default_recursion_limit
      create_analysis_workflow "2512345" "2026-01-01T00:00:00" []
    = (Returned state', log')
    /\ (4 <= reads_of default_manifest_path log')%nat.
Proof.
  assert (H : always_succeeds sample_env (fun _ => answers "ok")).
  { intros k log. eexists _, _. vm_compute. reflexivity. }
  assert (Hl : (5 <= default_recursion_limit)%nat) by (vm_compute; lia).
  destruct (proj2 (catalog_read_by_every_stage sample_env _ "2512345"
                     "2026-01-01T00:00:00" default_recursion_limit [] H Hl))
    as (state' & log' & Hrun & _ & _ & Hreads).
  exists state', log'. split; [exact Hrun | exact Hreads].
Defined.

(** ** Memoization of the two tools *)

Lemma manifest_of_deps_cases (E : Env) (deps : AgentDependencies.t) (log : io_log) :
  (exists m, AgentDependencies.manifest deps = Some m
             /\ manifest_of_deps E (deps, log) = (Returned m, (deps, log)))
  \/ (exists m log', manifest_of_deps E (deps, log)
                     = (Returned m, (AgentDependencies.set_manifest m deps, log')))
  \/ (exists e log', manifest_of_deps E (deps, log) = (Raised e, (deps, log'))).
Proof.
  unfold manifest_of_deps. set (lm := load_manifest E).
  unfold stx_bind, stx_get, stx_modify, stx_ret, on_snd. simpl.
  destruct (AgentDependencies.manifest deps) as [m|]; simpl.
  - left. exists m. split; reflexivity.
  - destruct (lm (AgentDependencies.skills_path deps) log) as [[m|e] log1].
    + right. left. exists m, log1. reflexivity.
    + right. right. exists e, log1. reflexivity.
Qed.

(** [load_skill_tool] as a decision tree over its three lookups. *)
Lemma load_skill_tool_eq (E : Env) (name : string) (deps : AgentDependencies.t)
    (log : io_log) :
  load_skill_tool E name (deps, log) =
  match AgentDependencies.loaded_skills deps !! name with
  | Some cached => (Returned (already_loaded_skill name cached), (deps, log))
  | None =>
      match manifest_of_deps E (deps, log) with
      | (Returned m, (deps1, log1)) =>
          match load_skill_content E (AgentDependencies.skills_path deps) name m log1 with
          | (Returned skill, log2) =>
              (Returned (freshly_loaded_skill name skill),
               (AgentDependencies.cache_skill name skill deps1, log2))
          | (Raised e, log2) =>
              if is_FileNotFound_or_ValueError e
              then (Returned ("Error loading skill: " +:+ exn_str e), (deps1, log2))
              else (Raised e, (deps1, log2))
          end
      | (Raised e, st) => (Raised e, st)
      end
  end.
Proof.
  unfold load_skill_tool, stx_bind at 1, stx_get. cbn [fst snd].
  destruct (AgentDependencies.loaded_skills deps !! name) as [cached|]; [reflexivity|].
  unfold stx_bind at 1.
  destruct (manifest_of_deps E (deps, log)) as [[m|e] [deps1 log1]]; [|reflexivity].
  unfold try_except, stx_bind, on_snd, stx_modify, stx_ret. cbn [fst snd].
  destruct (load_skill_content E (AgentDependencies.skills_path deps) name m log1)
    as [[skill|e] log2]; cbn [fst snd]; [reflexivity|].
  destruct (is_FileNotFound_or_ValueError e); reflexivity.
Qed.

(** [read_reference_tool] as a decision tree over its three lookups. *)
Lemma read_reference_tool_eq (E : Env) (name ref : string) (deps : AgentDependencies.t)
    (log : io_log) :
  read_reference_tool E name ref (deps, log) =
  match AgentDependencies.loaded_references deps !! cache_key name ref with
  | Some cached => (Returned (already_loaded_reference cached), (deps, log))
  | None =>
      match manifest_of_deps E (deps, log) with
      | (Returned m, (deps1, log1)) =>
          match load_reference_content E (AgentDependencies.skills_path deps)
                  name ref m log1 with
          | (Returned doc, log2) =>
              (Returned (freshly_loaded_reference ref doc),
               (AgentDependencies.cache_reference (cache_key name ref) doc deps1, log2))
          | (Raised e, log2) =>
              if is_FileNotFound_or_ValueError e
              then (Returned ("Error loading reference: " +:+ exn_str e), (deps1, log2))
              else (Raised e, (deps1, log2))
          end
      | (Raised e, st) => (Raised e, st)
      end
  end.
Proof.
  unfold read_reference_tool, stx_bind at 1, stx_get. cbn [fst snd].
  destruct (AgentDependencies.loaded_references deps !! cache_key name ref) as [cached|];
    [reflexivity|].
  unfold stx_bind at 1.
  destruct (manifest_of_deps E (deps, log)) as [[m|e] [deps1 log1]]; [|reflexivity].
  unfold try_except, stx_bind, on_snd, stx_modify, stx_ret. cbn [fst snd].
  destruct (load_reference_content E (AgentDependencies.skills_path deps) name ref m log1)
    as [[doc|e] log2]; cbn [fst snd]; [reflexivity|].
  destruct (is_FileNotFound_or_ValueError e); reflexivity.
Qed.

(** A first call that finds what it needs loads it, once, and caches it. *)
Lemma load_skill_tool_loads (E : Env) (name : string) (deps deps0 : AgentDependencies.t)
    (log log0 : io_log) (m : SkillsManifest.t) (meta : SkillMetadata.t)
    (text body : string) (fm : pyobj) (front_matter : strdict pyobj) :
  AgentDependencies.loaded_skills deps !! name = None ->
  manifest_of_deps E (deps, log) = (Returned m, (deps0, log0)) ->
  find_skill m name = Some meta ->
  files E !! Path.str (Path.div (Path.parent (AgentDependencies.skills_path deps))
                                (SkillMetadata.path meta)) = Some text ->
  parse_front_matter E text = Returned (fm, body) ->
  validate_front_matter E fm = Returned front_matter ->
  load_skill_tool E name (deps, log)
  = (Returned (freshly_loaded_skill name (LoadedSkill.mk name body front_matter)),
     (AgentDependencies.cache_skill name (LoadedSkill.mk name body front_matter) deps0,
      (log0 ++ [FsExists (Path.str (Path.div (Path.parent (AgentDependencies.skills_path deps))
                                             (SkillMetadata.path meta)));
                FsRead (Path.str (Path.div (Path.parent (AgentDependencies.skills_path deps))
                                           (SkillMetadata.path meta)))])%list)).
Proof.
  intros Hc Hm Hf Hfile Hparse Hval.
  rewrite load_skill_tool_eq, Hc, Hm.
  unfold load_skill_content. rewrite Hf.
  unfold stx_bind, path_exists, read_text, stx_lift, stx_ret, stx_raise.
  rewrite Hfile. cbn. rewrite Hparse. cbn. rewrite Hval. cbn.
  now rewrite <- app_assoc.
Qed.

Lemma read_reference_tool_loads (E : Env) (name ref : string)
    (deps deps0 : AgentDependencies.t) (log log0 : io_log) (m : SkillsManifest.t)
    (meta : SkillMetadata.t) (text : string) :
  AgentDependencies.loaded_references deps !! cache_key name ref = None ->
  manifest_of_deps E (deps, log) = (Returned m, (deps0, log0)) ->
  find_skill m name = Some meta ->
  files E !! Path.str
               (Path.div
                  (Path.div
                     (Path.div (Path.parent (AgentDependencies.skills_path deps))
                               (PyStr.replace "/SKILL.md" "" (SkillMetadata.path meta)))
                     "references") ref) = Some text ->
  read_reference_tool E name ref (deps, log)
  = (Returned (freshly_loaded_reference ref (SkillReference.mk ref name text)),
     (AgentDependencies.cache_reference (cache_key name ref)
        (SkillReference.mk ref name text) deps0,
      (log0 ++ [FsExists (Path.str
                  (Path.div
                     (Path.div
                        (Path.div (Path.parent (AgentDependencies.skills_path deps))
                                  (PyStr.replace "/SKILL.md" "" (SkillMetadata.path meta)))
                        "references") ref));
                FsRead (Path.str
                  (Path.div
                     (Path.div
                        (Path.div (Path.parent (AgentDependencies.skills_path deps))
                                  (PyStr.replace "/SKILL.md" "" (SkillMetadata.path meta)))
                        "references") ref))])%list)).
Proof.
  intros Hc Hm Hf Hfile.
  rewrite read_reference_tool_eq, Hc, Hm.
  unfold load_reference_content. rewrite Hf.
  unfold stx_bind, path_exists, read_text, stx_lift, stx_ret, stx_raise.
  rewrite Hfile. cbn. now rewrite <- app_assoc.
Qed.

(** C6. A first call of [load_skill_tool] for a skill that the manifest
    lists, whose file is there and whose front matter is accepted, reads
    the file once, returns the document and puts it in the cache; so does
    a first call of [read_reference_tool] for a reference whose file is
    there, under the key built from the skill name and the reference
    name.  And whenever a call of either tool has returned a document
    (that is, anything but its error text), the document is in the cache,
    and a second call for the same name, or the same pair, on that cache
    returns the cached content, leaves the cache as it is and touches
    storage not at all: the log is unchanged, nothing is read or parsed
    again. *)
Theorem tools_memoize (E : Env) :
  (forall name deps log r deps1 log1,
     load_skill_tool E name (deps, log) = (Returned r, (deps1, log1)) ->
     PyStr.startswith "Error loading skill: " r = false ->
     exists skill,
       AgentDependencies.loaded_skills deps1 !! name = Some skill
       /\ (r = freshly_loaded_skill name skill \/ r = already_loaded_skill name skill)
       /\ load_skill_tool E name (deps1, log1)
          = (Returned (already_loaded_skill name skill), (deps1, log1)))
  /\ (forall name ref deps log r deps1 log1,
        read_reference_tool E name ref (deps, log) = (Returned r, (deps1, log1)) ->
        PyStr.startswith "Error loading reference: " r = false ->
        exists doc,
          AgentDependencies.loaded_references deps1 !! cache_key name ref = Some doc
          /\ (r = freshly_loaded_reference ref doc \/ r = already_loaded_reference doc)
          /\ read_reference_tool E name ref (deps1, log1)
             = (Returned (already_loaded_reference doc), (deps1, log1)))
  /\ (forall name deps log m deps0 log0 meta text fm body front_matter,
        AgentDependencies.loaded_skills deps !! name = None ->
        manifest_of_deps E (deps, log) = (Returned m, (deps0, log0)) ->
        find_skill m name = Some meta ->
        let skill_path :=
          Path.str (Path.div (Path.parent (AgentDependencies.skills_path deps))
                             (SkillMetadata.path meta)) in
        files E !! skill_path = Some text ->
        parse_front_matter E text = Returned (fm, body) ->
        validate_front_matter E fm = Returned front_matter ->
        let skill := LoadedSkill.mk name body front_matter in
        let deps1 := AgentDependencies.cache_skill name skill deps0 in
        let log1 := (log0 ++ [FsExists skill_path; FsRead skill_path])%list in
        load_skill_tool E name (deps, log)
        = (Returned (freshly_loaded_skill name skill), (deps1, log1))
        /\ load_skill_tool E name (deps1, log1)
           = (Returned (already_loaded_skill name skill), (deps1, log1)))
  /\ (forall name ref deps log m deps0 log0 meta text,
        AgentDependencies.loaded_references deps !! cache_key name ref = None ->
        manifest_of_deps E (deps, log) = (Returned m, (deps0, log0)) ->
        find_skill m name = Some meta ->
        let ref_path :=
          Path.str
            (Path.div
               (Path.div
                  (Path.div (Path.parent (AgentDependencies.skills_path deps))
                            (PyStr.replace "/SKILL.md" "" (SkillMetadata.path meta)))
                  "references") ref) in
        files E !! ref_path = Some text ->
        let doc := SkillReference.mk ref name text in
        let deps1 := AgentDependencies.cache_reference (cache_key name ref) doc deps0 in
        let log1 := (log0 ++ [FsExists ref_path; FsRead ref_path])%list in
        read_reference_tool E name ref (deps, log)
        = (Returned (freshly_loaded_reference ref doc), (deps1, log1))
        /\ read_reference_tool E name ref (deps1, log1)
           = (Returned (already_loaded_reference doc), (deps1, log1))).
Proof.
  split; [|split; [|split]].
  - intros name deps log r deps1 log1 H Herr.
    rewrite load_skill_tool_eq in H.
    destruct (AgentDependencies.loaded_skills deps !! name) as [cached|] eqn:Hl.
    + inversion H; subst. exists cached. split; [exact Hl|]. split; [now right|].
      rewrite load_skill_tool_eq, Hl. reflexivity.
    + destruct (manifest_of_deps E (deps, log)) as [[m|e] [d1 l1]]; [|discriminate H].
      destruct (load_skill_content E (AgentDependencies.skills_path deps) name m l1)
        as [[skill|e] l2].
      * inversion H; subst. exists skill.
        assert (Hin : AgentDependencies.loaded_skills
                        (AgentDependencies.cache_skill name skill d1) !! name
                      = Some skill) by (simpl; apply lookup_insert_eq).
        split; [exact Hin|]. split; [now left|].
        rewrite load_skill_tool_eq, Hin. reflexivity.
      * destruct (is_FileNotFound_or_ValueError e); [|discriminate H].
        inversion H; subst. now rewrite startswith_app in Herr.
  - intros name ref deps log r deps1 log1 H Herr.
    rewrite read_reference_tool_eq in H.
    destruct (AgentDependencies.loaded_references deps !! cache_key name ref)
      as [cached|] eqn:Hl.
    + inversion H; subst. exists cached. split; [exact Hl|]. split; [now right|].
      rewrite read_reference_tool_eq, Hl. reflexivity.
    + destruct (manifest_of_deps E (deps, log)) as [[m|e] [d1 l1]]; [|discriminate H].
      destruct (load_reference_content E (AgentDependencies.skills_path deps) name ref m l1)
        as [[doc|e] l2].
      * inversion H; subst. exists doc.
        assert (Hin : AgentDependencies.loaded_references
                        (AgentDependencies.cache_reference (cache_key name ref) doc d1)
                        !! cache_key name ref
                      = Some doc) by (simpl; apply lookup_insert_eq).
        split; [exact Hin|]. split; [now left|].
        rewrite read_reference_tool_eq, Hin. reflexivity.
      * destruct (is_FileNotFound_or_ValueError e); [|discriminate H].
        inversion H; subst. now rewrite startswith_app in Herr.
  - intros name deps log m deps0 log0 meta text fm body front_matter Hc Hm Hf
      skill_path Hfile Hparse Hval skill deps1 log1.
    split.
    + exact (load_skill_tool_loads E name deps deps0 log log0 m meta text body fm
               front_matter Hc Hm Hf Hfile Hparse Hval).
    + rewrite load_skill_tool_eq. subst deps1.
      cbn [AgentDependencies.loaded_skills AgentDependencies.cache_skill].
      now rewrite lookup_insert_eq.
  - intros name ref deps log m deps0 log0 meta text Hc Hm Hf ref_path Hfile
      doc deps1 log1.
    split.
    + exact (read_reference_tool_loads E name ref deps deps0 log log0 m meta text
               Hc Hm Hf Hfile).
    + rewrite read_reference_tool_eq. subst deps1.
      cbn [AgentDependencies.loaded_references AgentDependencies.cache_reference].
      now rewrite lookup_insert_eq.
Qed.

(** On the sample installation, for the skill and for its reference: the
    first call reads the manifest and the document; the second call
    returns the same content and leaves cache and log as the first call
    left them. *)
Lemma tools_memoize_witness :
  (exists r deps1 log1 skill,
     load_skill_tool sample_env "sun-analysis" (deps_default, [])
     = (Returned r, (deps1, log1))
     /\ r = freshly_loaded_skill "sun-analysis" skill
     /\ reads_of "zonewise/skills/sun-analysis/SKILL.md" log1 = 1%nat
     /\ load_skill_tool sample_env "sun-analysis" (deps1, log1)
        = (Returned (already_loaded_skill "sun-analysis" skill), (deps1, log1)))
  /\ (exists deps1 log1,
        let doc := SkillReference.mk "api_reference.md" "sun-analysis" "GET /sun" in
        read_reference_tool sample_env "sun-analysis" "api_reference.md" (deps_default, [])
        = (Returned (freshly_loaded_reference "api_reference.md" doc), (deps1, log1))
        /\ AgentDependencies.loaded_references deps1
             !! cache_key "sun-analysis" "api_reference.md" = Some doc
        /\ reads_of "zonewise/skills/sun-analysis/references/api_reference.md" log1
           = 1%nat
        /\ read_reference_tool sample_env "sun-analysis" "api_reference.md" (deps1, log1)
           = (Returned (already_loaded_reference doc), (deps1, log1))).
Proof.
  split.
  - assert (H : exists r deps1 log1,
               load_skill_tool sample_env "sun-analysis" (deps_default, [])
               = (Returned r, (deps1, log1))
               /\ PyStr.startswith "Error loading skill: " r = false
               /\ PyStr.startswith "[" r = false
               /\ reads_of "zonewise/skills/sun-analysis/SKILL.md" log1 = 1%nat).
    { eexists _, _, _. split; [vm_compute; reflexivity|].
      repeat split; vm_compute; reflexivity. }
    destruct H as (r & deps1 & log1 & H & Herr & Hfresh & Hreads).
    destruct (proj1 (tools_memoize sample_env) _ _ _ _ _ _ H Herr)
      as (skill & _ & [Hr|Hr] & Hsecond).
    + exists r, deps1, log1, skill. repeat split; assumption.
    + rewrite Hr in Hfresh. discriminate Hfresh.
  - destruct (proj2 (proj2 (proj2 (tools_memoize sample_env)))
                "sun-analysis" "api_reference.md" deps_default []
                sample_manifest
                (AgentDependencies.set_manifest sample_manifest deps_default)
                [FsExists default_manifest_path; FsRead default_manifest_path]
                _ "GET /sun" eq_refl eq_refl eq_refl eq_refl)
      as (Hfirst & Hsecond).
    eexists _, _. split; [exact Hfirst|]. split; [reflexivity|].
    split; [vm_compute; reflexivity | exact Hsecond].
Defined.

(** ** A missing manifest, met before any stage *)



(** The cache key does not separate its two parts: two different pairs can
    share a slot. *)
Example cache_key_collision : cache_key "a:b" "c" = cache_key "a" "b:c".
Proof. reflexivity. Qed.

(** ** What a sequential run keeps true *)

Ltac invariant_tac Hinv :=
  unfold sequential_invariant in *; simpl in *;
  destruct Hinv as (Hv & Hr & Ha & Hs);
  split; [first [assumption | reflexivity]|];
  split; [first [assumption | now right]|];
  split;
  [ first [ assumption
          | intros _; split; reflexivity
          | intros Hin; apply in_app_or in Hin; simpl in Hin;
            destruct Hin as [Hin|[Hin|[]]]; [now apply Ha | discriminate Hin] ]
  | first [ assumption
          | intros Hin; apply in_app_or in Hin; simpl in Hin;
            destruct Hin as [Hin|[Hin|[]]]; [now apply Hs | discriminate Hin] ] ].

Section SequentialInvariant.
Context (E : Env) (beh : behaviour) (state state' : AnalysisState.t) (log log' : io_log).

Lemma zoning_node_invariant :
  zoning_agent_node E beh state log = (Returned state', log') ->
  sequential_invariant state -> sequential_invariant state'.
Proof.
  intros H Hinv. unfold zoning_agent_node in H. node_outcome E beh log H;
    destruct state as [ms pid [] ca co er fr ts]; invariant_tac Hinv.
Qed.

Lemma valuation_node_invariant :
  valuation_agent_node E beh state log = (Returned state', log') ->
  sequential_invariant state -> sequential_invariant state'.
Proof.
  intros H Hinv. unfold valuation_agent_node in H. node_outcome E beh log H;
    destruct state as [ms pid [] ca co er fr ts]; invariant_tac Hinv.
Qed.

Lemma permit_node_invariant :
  permit_agent_node E beh state log = (Returned state', log') ->
  sequential_invariant state -> sequential_invariant state'.
Proof.
  intros H Hinv. unfold permit_agent_node in H. node_outcome E beh log H;
    destruct state as [ms pid [] ca co er fr ts]; invariant_tac Hinv.
Qed.

Lemma envelope_node_invariant :
  envelope_agent_node E beh state log = (Returned state', log') ->
  sequential_invariant state -> sequential_invariant state'.
Proof.
  intros H Hinv. unfold envelope_agent_node in H. node_outcome E beh log H;
    destruct state as [ms pid [] ca co er fr ts]; invariant_tac Hinv.
Qed.

End SequentialInvariant.

Lemma route_cases (state : AnalysisState.t) :
  let completed := AnalysisState.completed_agents state in
  In (route_to_next_agent state) agent_order
  \/ (route_to_next_agent state = "synthesizer"
      /\ forall a, In a agent_order -> In a completed)
  \/ (route_to_next_agent state = "end" /\ In "synthesizer" completed).
Proof.
  intros completed. unfold route_to_next_agent. fold completed.
  destruct (first_not_completed agent_order completed) as [a|] eqn:Hf.
  - left. destruct (first_not_completed_Some _ _ _ Hf) as (pre & post & Ho & _).
    rewrite Ho. apply in_or_app. right. now left.
  - right. rewrite first_not_completed_None in Hf.
    destruct (py_in "synthesizer" completed) eqn:Hs; simpl.
    + right. split; [reflexivity | now apply py_in_In].
    + left. split; [reflexivity | assumption].
Qed.

Lemma invariant_gives_BID (state : AnalysisState.t) :
  sequential_invariant state ->
  In "valuation" (AnalysisState.completed_agents state) ->
  recommendation (AnalysisState.property_data state) = rec_BID.
Proof.
  intros (Hv & Hr & Ha & _) Hin. destruct (Ha Hin) as (Harv & Hbid).
  rewrite recommendation_unfold, Harv, Hbid, Hv.
  destruct Hr as [-> | ->]; reflexivity.
Qed.

(** A sequential run that returns has gone through the synthesizer on a
    record with the valuation figures and a permit slice that is either
    written by the permit node or still at its defaults: it announces BID. *)
Lemma sequential_run_ends_in_BID (E : Env) (oracle : nat -> behaviour) (limit : nat) :
  forall step current state log state' log',
    In current [START; "zoning"; "valuation"; "permit"; "envelope"] ->
    sequential_invariant state ->
    run_from E create_analysis_workflow oracle limit step current state log
    = (Returned state', log') ->
    recommendation (AnalysisState.property_data state') = rec_BID
    /\ announces_BID state'.
Proof.
  induction limit as [|limit IH]; intros step current state log state' log' Hc Hinv H;
    destruct (route_cases state) as [Hin | [(Hr & Hall) | (_ & Hs)]];
    try (destruct Hinv as (_ & _ & _ & Hns); now destruct Hns).
  - simpl in Hin. destruct Hin as [Hr|[Hr|[Hr|[Hr|[]]]]]; symmetry in Hr;
      rewrite (run_from_limit _ _ _ _ _ _ _ _
                 (next_node_after current _ state Hc Hr ltac:(simpl; tauto)) eq_refl) in H;
      discriminate H.
  - rewrite (run_from_limit _ _ _ _ _ _ _ _
               (next_node_after current _ state Hc Hr ltac:(simpl; tauto)) eq_refl) in H.
    discriminate H.
  - simpl in Hin. destruct Hin as [Hr|[Hr|[Hr|[Hr|[]]]]]; symmetry in Hr.
    + rewrite (run_from_step _ _ _ _ _ _ _ zoning_agent_node _ _
                 (next_node_after current _ state Hc Hr ltac:(simpl; tauto))
                 eq_refl eq_refl) in H.
      destruct (zoning_agent_node E (oracle step) state log) as [[s1|e] l1] eqn:Hn;
        [|discriminate H].
      apply IH in H; [exact H | simpl; tauto |].
      exact (zoning_node_invariant _ _ _ _ _ _ Hn Hinv).
    + rewrite (run_from_step _ _ _ _ _ _ _ valuation_agent_node _ _
                 (next_node_after current _ state Hc Hr ltac:(simpl; tauto))
                 eq_refl eq_refl) in H.
      destruct (valuation_agent_node E (oracle step) state log) as [[s1|e] l1] eqn:Hn;
        [|discriminate H].
      apply IH in H; [exact H | simpl; tauto |].
      exact (valuation_node_invariant _ _ _ _ _ _ Hn Hinv).
    + rewrite (run_from_step _ _ _ _ _ _ _ permit_agent_node _ _
                 (next_node_after current _ state Hc Hr ltac:(simpl; tauto))
                 eq_refl eq_refl) in H.
      destruct (permit_agent_node E (oracle step) state log) as [[s1|e] l1] eqn:Hn;
        [|discriminate H].
      apply IH in H; [exact H | simpl; tauto |].
      exact (permit_node_invariant _ _ _ _ _ _ Hn Hinv).
    + rewrite (run_from_step _ _ _ _ _ _ _ envelope_agent_node _ _
                 (next_node_after current _ state Hc Hr ltac:(simpl; tauto))
                 eq_refl eq_refl) in H.
      destruct (envelope_agent_node E (oracle step) state log) as [[s1|e] l1] eqn:Hn;
        [|discriminate H].
      apply IH in H; [exact H | simpl; tauto |].
      exact (envelope_node_invariant _ _ _ _ _ _ Hn Hinv).
  - rewrite (run_from_step _ _ _ _ _ _ _
               (fun E _ state => stx_lift (synthesizer_node E state)) _ _
               (next_node_after current _ state Hc Hr ltac:(simpl; tauto))
               eq_refl eq_refl) in H.
    unfold stx_lift in H.
    destruct (synthesizer_node E state) as [s|e] eqn:Hsyn;
      cbv beta iota in H; [|discriminate H].
    destruct (synthesizer_node_inv E state s Hsyn) as (lines & ->).
    rewrite run_from_end in H by reflexivity.
    inversion H; subst. clear H.
    assert (Hbid : recommendation (AnalysisState.property_data state) = rec_BID).
    { apply invariant_gives_BID; [assumption|]. apply Hall. simpl. tauto. }
    split; [exact Hbid|].
    unfold announces_BID, announced. simpl. rewrite Hbid. apply last_snoc.
Qed.


(** ** A permit analysis that never ran *)

Lemma zoning_node_success_data (E : Env) (beh : behaviour) (state : AnalysisState.t)
    (log log' : io_log) (r : string) :
  invoke_capability E beh "" log = (Returned r, log') ->
  exists state',
    zoning_agent_node E beh state log = (Returned state', log')
    /\ AnalysisState.completed_agents state'
       = (AnalysisState.completed_agents state ++ ["zoning"])%list
    /\ AnalysisState.errors state' = AnalysisState.errors state
    /\ AnalysisState.final_report state' = AnalysisState.final_report state
    /\ permit_risk_score (AnalysisState.property_data state')
       = permit_risk_score (AnalysisState.property_data state)
    /\ open_violations (AnalysisState.property_data state')
       = open_violations (AnalysisState.property_data state).
Proof.
  intros H. unfold zoning_agent_node.
  node_cases E beh log H; destruct state as [ms pid [] ca co er fr ts];
    eexists; repeat split.
Qed.

Lemma valuation_node_success_data (E : Env) (beh : behaviour) (state : AnalysisState.t)
    (log log' : io_log) (r : string) :
  invoke_capability E beh "" log = (Returned r, log') ->
  exists state',
    valuation_agent_node E beh state log = (Returned state', log')
    /\ AnalysisState.completed_agents state'
       = (AnalysisState.completed_agents state ++ ["valuation"])%list
    /\ AnalysisState.errors state' = AnalysisState.errors state
    /\ AnalysisState.final_report state' = AnalysisState.final_report state
    /\ permit_risk_score (AnalysisState.property_data state')
       = permit_risk_score (AnalysisState.property_data state)
    /\ open_violations (AnalysisState.property_data state')
       = open_violations (AnalysisState.property_data state)
    /\ arv (AnalysisState.property_data state') = Some (NInt 325000)
    /\ max_bid (AnalysisState.property_data state') = Some (NInt 165000).
Proof.
  intros H. unfold valuation_agent_node.
  node_cases E beh log H; destruct state as [ms pid [] ca co er fr ts];
    eexists; repeat split.
Qed.

Lemma permit_pending_next (current : string) (state : AnalysisState.t) :
  current = "valuation" \/ current = "permit" ->
  permit_pending state ->
  next_node create_analysis_workflow current state = Returned "permit".
Proof.
  intros Hc (Hcompl & _). apply next_node_after.
  - destruct Hc as [-> | ->]; simpl; tauto.
  - now rewrite (route_by_completed state _ Hcompl).
  - simpl. tauto.
Qed.

Lemma permit_pending_BID (state : AnalysisState.t) :
  permit_pending state ->
  recommendation (AnalysisState.property_data state) = rec_BID.
Proof.
  intros (_ & Ha & Hm & Hr & Hv & _).
  now rewrite recommendation_unfold, Ha, Hm, Hr, Hv.
Qed.

Section PermitFailure.
Context (E : Env) (oracle : nat -> behaviour).
Hypothesis Hlate :
  forall k log, (2 <= k)%nat ->
    exists e log', invoke_capability E (oracle k) "" log = (Raised e, log').

(** Once the permit stage is next and keeps failing, the loop stays at the
    permit node until the recursion limit ends the run. *)
Lemma permit_loop_hits_limit (limit : nat) :
  forall step current state log,
    (2 <= step)%nat ->
    current = "valuation" \/ current = "permit" ->
    permit_pending state ->
    exists log', run_from E create_analysis_workflow oracle limit step current state log
                 = (Raised recursion_error, log').
Proof.
  induction limit as [|limit IH]; intros step current state log Hstep Hc Hp.
  - rewrite (run_from_limit _ _ _ _ _ "permit");
      [eexists; reflexivity | now apply permit_pending_next | reflexivity].
  - rewrite (run_from_step _ _ _ _ _ _ "permit" permit_agent_node);
      [| now apply permit_pending_next | reflexivity | reflexivity].
    destruct (Hlate step log Hstep) as (e & log1 & Hi).
    destruct (permit_node_fails E (oracle step) state log log1 e Hi)
      as (state' & Hn & _ & Hcompl & Hpd & Hfr).
    rewrite Hn. apply IH; [lia | now right |].
    unfold permit_pending in *. rewrite Hcompl, Hpd, Hfr. exact Hp.
Qed.

Lemma permit_loop_checkpoints (n : nat) :
  forall step current state log,
    (2 <= step)%nat ->
    current = "valuation" \/ current = "permit" ->
    permit_pending state ->
    exists cps log',
      checkpoints E create_analysis_workflow oracle n step current state log
      = (Returned cps, log')
      /\ length cps = n
      /\ forall (i : nat) node st, cps !! i = Some (node, st) ->
           node = "permit"
           /\ permit_pending st
           /\ length (notes_with_prefix "Permit agent error: " (AnalysisState.errors st))
              = (length (notes_with_prefix "Permit agent error: "
                           (AnalysisState.errors state)) + S i)%nat.
Proof.
  induction n as [|n IH]; intros step current state log Hstep Hc Hp.
  - eexists [], _. split; [reflexivity|]. split; [reflexivity|].
    intros i node st H. discriminate H.
  - rewrite (checkpoints_step _ _ _ _ _ _ "permit" permit_agent_node);
      [| now apply permit_pending_next | reflexivity | reflexivity].
    destruct (Hlate step log Hstep) as (e & log1 & Hi).
    destruct (permit_node_fails E (oracle step) state log log1 e Hi)
      as (state' & Hn & Herr & Hcompl & Hpd & Hfr).
    rewrite Hn.
    assert (Hp' : permit_pending state').
    { unfold permit_pending in *. rewrite Hcompl, Hpd, Hfr. exact Hp. }
    destruct (IH (S step) "permit" state' log1) as (cps & log2 & Hcps & Hlen & Hall);
      [lia | now right | exact Hp' |].
    rewrite Hcps. eexists _, _. split; [reflexivity|].
    split; [simpl; now rewrite Hlen|].
    intros [|i] node st H; simpl in H.
    + injection H as <- <-. split; [reflexivity|]. split; [exact Hp'|].
      rewrite Herr, notes_with_prefix_snoc, length_app. simpl. lia.
    + destruct (Hall i node st H) as (-> & Hp2 & Hl2).
      split; [reflexivity|]. split; [exact Hp2|].
      rewrite Hl2, Herr, notes_with_prefix_snoc, length_app. simpl. lia.
Qed.

End PermitFailure.

(** C10 on the code.  The synthesizer does give BID to a record with the
    valuation figures and the permit slice at its defaults, the same text
    it gives once a permit stage has written the slice, and the
    phased-parallel mode gets there: with a failed permit coroutine and the
    placeholder valuation, whatever it returns announces BID.  The
    sequential mode does not.  When zoning and valuation succeed and the
    reasoning capability fails at every invocation after them, the run
    never reaches the synthesizer: for every recursion limit it ends with
    the engine's recursion error, and every node execution after the first
    two is a retry of the permit stage, which leaves the state with the
    figures, the default permit slice, no report and one more permit
    note. *)
Theorem failed_permit_never_synthesized (E : Env) (parcel now : string) :
  (forall pd,
     let valued := set_max_bid (Some (NInt 165000)) (set_arv (Some (NInt 325000)) pd) in
     recommendation (set_permit_risk_score 0 (set_open_violations [] valued)) = rec_BID
     /\ recommendation (set_permit_risk_score 15 (set_open_violations [] valued))
        = rec_BID)
  /\ (forall zoning envelope e state',
        run_parallel_analysis E
          (mkTasks zoning (fun _ => Raised e)
                   (run_valuation_analysis placeholder_tasks) envelope) parcel now
        = Returned state' ->
        permit_risk_score (AnalysisState.property_data state') = 0
        /\ open_violations (AnalysisState.property_data state') = []
        /\ In ("Permit error: " +:+ exn_str e) (AnalysisState.errors state')
        /\ announces_BID state')
  /\ (forall oracle,
        (forall k log, (k < 2)%nat ->
           exists r log', invoke_capability E (oracle k) "" log = (Returned r, log')) ->
        (forall k log, (2 <= k)%nat ->
           exists e log', invoke_capability E (oracle k) "" log = (Raised e, log')) ->
        forall limit log,
          (exists log',
             run_property_analysis E oracle limit create_analysis_workflow parcel now log
             = (Raised recursion_error, log'))
          /\ (exists cps log',
                checkpoints E create_analysis_workflow oracle limit 0 START
                  (initial_state parcel now) log = (Returned cps, log')
                /\ length cps = limit
                /\ forall (i : nat) node st, cps !! i = Some (node, st) ->
                     (2 <= i)%nat ->
                     node = "permit"
                     /\ permit_pending st
                     /\ recommendation (AnalysisState.property_data st) = rec_BID
                     /\ length (notes_with_prefix "Permit agent error: "
                                  (AnalysisState.errors st)) = (i - 1)%nat)).
Proof.
  split; [intros [] valued; split; reflexivity|]. split.
  - intros zoning envelope e state' H.
    rewrite run_parallel_analysis_eq in H.
    destruct (synthesizer_node_inv E _ state' H) as (lines & ->).
    unfold parallel_state. cbn.
    destruct (zoning parcel) as [zr|ze]; cbn;
      match goal with
      | |- context [envelope parcel ?d] => destruct (envelope parcel d) as [er|ee]
      end; cbn;
      (split; [reflexivity|]); (split; [reflexivity|]); (split; [tauto|]);
      unfold announces_BID, announced; cbn; reflexivity.
  - intros oracle Hearly Hlate limit log.
    assert (Hz : next_node create_analysis_workflow START (initial_state parcel now)
                 = Returned "zoning") by reflexivity.
    destruct (Hearly 0%nat log ltac:(lia)) as (r0 & log1 & Hi0).
    destruct (zoning_node_success_data E (oracle 0%nat) (initial_state parcel now)
                log log1 r0 Hi0) as (s1 & Hn1 & Hc1 & He1 & Hf1 & Hr1 & Hv1).
    assert (Hv : next_node create_analysis_workflow "zoning" s1 = Returned "valuation").
    { apply next_node_after; [simpl; tauto | | simpl; tauto].
      now rewrite (route_by_completed s1 _ Hc1). }
    destruct (Hearly 1%nat log1 ltac:(lia)) as (r1 & log2 & Hi1).
    destruct (valuation_node_success_data E (oracle 1%nat) s1 log1 log2 r1 Hi1)
      as (s2 & Hn2 & Hc2 & He2 & Hf2 & Hr2 & Hv2 & Ha2 & Hm2).
    assert (Hp : permit_pending s2).
    { unfold permit_pending. rewrite Hc2, Hc1, Hf2, Hf1, Hr2, Hr1, Hv2, Hv1.
      repeat split; assumption. }
    assert (He : notes_with_prefix "Permit agent error: " (AnalysisState.errors s2) = []).
    { now rewrite He2, He1. }
    split.
    + unfold run_property_analysis, ainvoke.
      destruct limit as [|[|limit]].
      * rewrite (run_from_limit _ _ _ _ _ "zoning" _ _ Hz eq_refl). eauto.
      * rewrite (run_from_step _ _ _ _ _ _ "zoning" zoning_agent_node _ _ Hz eq_refl eq_refl).
        rewrite Hn1, (run_from_limit _ _ _ _ _ "valuation" _ _ Hv eq_refl). eauto.
      * rewrite (run_from_step _ _ _ _ _ _ "zoning" zoning_agent_node _ _ Hz eq_refl eq_refl).
        rewrite Hn1.
        rewrite (run_from_step _ _ _ _ _ _ "valuation" valuation_agent_node _ _ Hv
                   eq_refl eq_refl).
        rewrite Hn2.
        apply (permit_loop_hits_limit E oracle Hlate); [lia | now left | exact Hp].
    + destruct limit as [|[|limit]].
      * eexists [], _. split; [reflexivity|]. split; [reflexivity|].
        intros i node st H. discriminate H.
      * rewrite (checkpoints_step _ _ _ _ _ _ "zoning" zoning_agent_node _ _ Hz
                   eq_refl eq_refl).
        rewrite Hn1. cbn [checkpoints stx_ret].
        eexists _, _. split; [reflexivity|]. split; [reflexivity|].
        intros [|i] node st H Hi; [lia | discriminate H].
      * rewrite (checkpoints_step _ _ _ _ _ _ "zoning" zoning_agent_node _ _ Hz
                   eq_refl eq_refl).
        rewrite Hn1.
        rewrite (checkpoints_step _ _ _ _ _ _ "valuation" valuation_agent_node _ _ Hv
                   eq_refl eq_refl).
        rewrite Hn2.
        destruct (permit_loop_checkpoints E oracle Hlate limit 2 "valuation" s2 log2)
          as (cps & log3 & Hcps & Hlen & Hall); [lia | now left | exact Hp |].
        rewrite Hcps. eexists _, _. split; [reflexivity|].
        split; [simpl; now rewrite Hlen|].
        intros [|[|i]] node st H Hi; [lia | lia |]. simpl in H.
        destruct (Hall i node st H) as (-> & Hp2 & Hl2).
        split; [reflexivity|]. split; [exact Hp2|].
        split; [now apply permit_pending_BID|].
        rewrite Hl2, He. simpl. lia.
Qed.

(** The sample installation with a model call that times out from the
    third node execution on: the run with the engine's default limit ends
    in the recursion error. *)
Lemma failed_permit_never_synthesized_witness :
  exists log',
    run_property_analysis sample_env (fails_from 2 "timeout") default_recursion_limit
      create_analysis_workflow "2512345" "2026-01-01T00:00:00" []
    = (Raised recursion_error, log').
Proof.
  assert (Hearly : forall k log, (k < 2)%nat ->
            exists r log', invoke_capability sample_env (fails_from 2 "timeout" k) "" log
                           = (Returned r, log')).
  { intros k log Hk. unfold fails_from.
    destruct (Nat.ltb_spec k 2) as [_|Hge]; [|lia].
    eexists _, _. vm_compute. reflexivity. }
  assert (Hlate : forall k log, (2 <= k)%nat ->
            exists e log', invoke_capability sample_env (fails_from 2 "timeout" k) "" log
                           = (Raised e, log')).
  { intros k log Hk. unfold fails_from.
    destruct (Nat.ltb_spec k 2) as [Hlt|_]; [lia|].
    eexists _, _. vm_compute. reflexivity. }
  exact (proj1 (proj2 (proj2 (failed_permit_never_synthesized sample_env
                                "2512345" "2026-01-01T00:00:00"))
                  (fails_from 2 "timeout") Hearly Hlate default_recursion_limit [])).
Defined.

(** * Further properties of the code *)

(** ** Substrings *)

Lemma partition_app_r (sep p s : string) :
  PyStr.partition sep s <> None -> PyStr.partition sep (p +:+ s) <> None.
Proof.
  intros H. induction p as [|c p IH]; simpl; [exact H|].
  destruct (PyStr.startswith sep (String c (p +:+ s))); [discriminate|].
  destruct (PyStr.partition sep (p +:+ s)) as [[before after]|]; [discriminate | exact IH].
Qed.

Lemma partition_unfold (sep s : string) :
  PyStr.partition sep s =
  if PyStr.startswith sep s then Some (EmptyString, PyStr.drop (String.length sep) s)
  else match s with
       | EmptyString => None
       | String c s' =>
           match PyStr.partition sep s' with
           | Some (before, after) => Some (String c before, after)
           | None => None
           end
       end.
Proof. destruct s; reflexivity. Qed.

Lemma partition_prefix (sep s : string) : PyStr.partition sep (sep +:+ s) <> None.
Proof. rewrite partition_unfold, startswith_app. discriminate. Qed.

Lemma contains_app (x p s : string) : PyStr.contains x (p +:+ x +:+ s) = true.
Proof.
  unfold PyStr.contains.
  pose proof (partition_app_r x p (x +:+ s) (partition_prefix x s)) as H.
  destruct (PyStr.partition x (p +:+ x +:+ s)); [reflexivity | now destruct H].
Qed.

Lemma contains_app_r (x p s : string) :
  PyStr.contains x s = true -> PyStr.contains x (p +:+ s) = true.
Proof.
  unfold PyStr.contains. intros H.
  assert (Hs : PyStr.partition x s <> None) by (destruct (PyStr.partition x s); congruence).
  pose proof (partition_app_r x p s Hs) as Hp.
  destruct (PyStr.partition x (p +:+ s)); [reflexivity | now destruct Hp].
Qed.

Lemma append_empty_r (s : string) : s +:+ "" = s.
Proof.
  induction s as [|c s IH]; [reflexivity|].
  change (String c s +:+ "") with (String c (s +:+ "")). now f_equal.
Qed.

(** Every element of a list of lines occurs in their join. *)
Lemma contains_join (x sep : string) (lines : list string) :
  In x lines -> PyStr.contains x (PyStr.join sep lines) = true.
Proof.
  induction lines as [|y rest IH]; intros Hin; [destruct Hin|].
  destruct Hin as [<-|Hin].
  - destruct rest as [|z rest]; cbn [PyStr.join].
    + rewrite <- (append_empty_r y) at 2. apply (contains_app y "" "").
    + apply (contains_app y "").
  - destruct rest as [|z rest]; [destruct Hin|].
    cbn [PyStr.join]. apply contains_app_r, contains_app_r, IH, Hin.
Qed.

(** ** The report of the synthesizer *)

(** The lines the synthesizer joins: the head, the recommendation, and the
    error section when there are error notes. *)
Lemma synthesizer_node_lines (E : Env) (state : AnalysisState.t) :
  formattable (AnalysisState.property_data state) = true ->
  exists head,
    report_head E state = Returned head
    /\ synthesizer_node E state =
       Returned
         (AnalysisState.append_message
            (AIMessage ("[Synthesizer] Generated final report with recommendation: "
                        +:+ recommendation (AnalysisState.property_data state)) "synthesizer")
            (AnalysisState.set_final_report
               (PyStr.join nl
                  (if list_truthy (AnalysisState.errors state)
                   then ((head ++ [recommendation (AnalysisState.property_data state)])
                         ++ [""; "## Errors"]
                         ++ map (fun e => "- " +:+ e) (AnalysisState.errors state))%list
                   else (head ++ [recommendation (AnalysisState.property_data state)])%list))
               state)).
Proof.
  intros Hf. unfold synthesizer_node.
  destruct (report_head_returns E state Hf) as (rest & Hhead). rewrite Hhead.
  eexists. split; [reflexivity|]. simpl.
  destruct (list_truthy (AnalysisState.errors state)); reflexivity.
Qed.

(** X1. On a state whose numbers can be printed the synthesizer returns,
    and the report carries the recommendation text; when the state has
    error notes, it carries the heading of the error section and every
    note as a line of its own, "- " followed by the note.  The synthesizer
    changes nothing in the state but the report and the message log. *)
Theorem report_carries_recommendation_and_errors (E : Env) (state : AnalysisState.t) :
  formattable (AnalysisState.property_data state) = true ->
  exists state' report,
    synthesizer_node E state = Returned state'
    /\ AnalysisState.final_report state' = Some report
    /\ PyStr.contains (recommendation (AnalysisState.property_data state)) report = true
    /\ (forall e, In e (AnalysisState.errors state) ->
          PyStr.contains "## Errors" report = true
          /\ PyStr.contains ("- " +:+ e) report = true)
    /\ AnalysisState.property_data state' = AnalysisState.property_data state
    /\ AnalysisState.errors state' = AnalysisState.errors state
    /\ AnalysisState.completed_agents state' = AnalysisState.completed_agents state.
Proof.
  intros Hf. destruct (synthesizer_node_lines E state Hf) as (head & _ & Hs).
  eexists _, _. split; [exact Hs|]. split; [reflexivity|].
  split; [|split; [|repeat split]].
  - apply contains_join.
    destruct (list_truthy (AnalysisState.errors state));
      rewrite ?in_app_iff; simpl; tauto.
  - intros e He.
    destruct (AnalysisState.errors state) as [|e0 errs] eqn:Herr; [destruct He|].
    cbn [list_truthy]. split; apply contains_join; rewrite !in_app_iff.
    + right. simpl. tauto.
    + right. right. apply in_map_iff. now exists e.
Qed.

(** A state in which the zoning stage has left a note. *)
Lemma report_carries_recommendation_and_errors_witness :
  exists state' report,
    synthesizer_node sample_env
      (AnalysisState.append_error "Zoning agent error: timeout"
         (initial_state "2512345" "2026-01-01T00:00:00"))
    = Returned state'
    /\ AnalysisState.final_report state' = Some report
    /\ PyStr.contains "## Errors" report = true
    /\ PyStr.contains "- Zoning agent error: timeout" report = true.
Proof.
  destruct (report_carries_recommendation_and_errors sample_env
              (AnalysisState.append_error "Zoning agent error: timeout"
                 (initial_state "2512345" "2026-01-01T00:00:00")) eq_refl)
    as (state' & report & Hs & Hr & _ & He & _).
  exists state', report. split; [exact Hs|]. split; [exact Hr|].
  apply (He "Zoning agent error: timeout"). left. reflexivity.
Defined.

Lemma report_head_lines (E : Env) (state : AnalysisState.t) :
  let pd := AnalysisState.property_data state in
  formattable pd = true ->
  exists head,
    report_head E state = Returned head
    /\ (opt_number_truthy (max_buildable_sqft pd) = false ->
        In "- **Max Buildable:** N/A" head)
    /\ (opt_number_truthy (arv pd) = false -> In "- **Estimated ARV:** N/A" head)
    /\ (opt_number_truthy (max_bid pd) = false -> In "- **Max Bid:** N/A" head)
    /\ (str_or (zoning_district pd) "Unknown" = "Unknown" ->
        In "- **District:** Unknown" head)
    /\ (opt_number_truthy (max_height pd) = false -> In "- **Max Height:** N/A ft" head)
    /\ (opt_number_truthy (avg_sun_hours pd) = false ->
        In "- **Average Sun Hours:** N/A hrs/day" head).
Proof.
  intros pd Hf. apply formattable_fields in Hf.
  destruct Hf as (Hh & Hb & Ha & Hm & Hr & Hs).
  unfold report_head, py_str_int. fold pd. rewrite Hr.
  destruct (format_plain_or_NA E _ Hh) as (th & -> & Hth).
  destruct (format_plain_or_NA E _ Hs) as (ts & -> & Hts).
  destruct (opt_number_truthy (max_buildable_sqft pd)) eqn:H1;
    [destruct (format_guarded_or_NA E _ H1 Hb) as (s1 & ->)|];
    (destruct (opt_number_truthy (arv pd)) eqn:H2;
      [destruct (format_guarded_field E _ H2 Ha) as (s2 & ->)|]);
    (destruct (opt_number_truthy (max_bid pd)) eqn:H3;
      [destruct (format_guarded_field E _ H3 Hm) as (s3 & ->)|]);
    cbn [result_bind]; eexists; (split; [reflexivity|]);
    repeat split; intros H; try discriminate H;
    try (rewrite ?H, ?(Hth H), ?(Hts H); simpl; tauto).
Qed.

(** X2. In the report of a state whose numbers can be printed, a field
    that is unset or zero is printed with a placeholder: N/A for the
    valuation figures, the buildable area, the height and the sun hours,
    Unknown for a missing or empty district. *)
Theorem report_shows_placeholders (E : Env) (state : AnalysisState.t) :
  let pd := AnalysisState.property_data state in
  formattable pd = true ->
  exists state' report,
    synthesizer_node E state = Returned state'
    /\ AnalysisState.final_report state' = Some report
    /\ (opt_number_truthy (arv pd) = false ->
        PyStr.contains "- **Estimated ARV:** N/A" report = true)
    /\ (opt_number_truthy (max_bid pd) = false ->
        PyStr.contains "- **Max Bid:** N/A" report = true)
    /\ (opt_number_truthy (max_buildable_sqft pd) = false ->
        PyStr.contains "- **Max Buildable:** N/A" report = true)
    /\ (opt_number_truthy (max_height pd) = false ->
        PyStr.contains "- **Max Height:** N/A ft" report = true)
    /\ (opt_number_truthy (avg_sun_hours pd) = false ->
        PyStr.contains "- **Average Sun Hours:** N/A hrs/day" report = true)
    /\ (zoning_district pd = None \/ zoning_district pd = Some "" ->
        PyStr.contains "- **District:** Unknown" report = true).
Proof.
  intros pd Hf.
  destruct (report_head_lines E state Hf)
    as (head & Hh & Hb & Ha & Hm & Hd & Hht & Hsun).
  destruct (synthesizer_node_lines E state Hf) as (head' & Hh' & Hs).
  rewrite Hh in Hh'. injection Hh' as <-.
  eexists _, _. split; [exact Hs|]. split; [reflexivity|].
  assert (Hin : forall x, In x head ->
            PyStr.contains x
              (PyStr.join nl
                 (if list_truthy (AnalysisState.errors state)
                  then ((head ++ [recommendation (AnalysisState.property_data state)])
                        ++ [""; "## Errors"]
                        ++ map (fun e => "- " +:+ e) (AnalysisState.errors state))%list
                  else (head ++ [recommendation (AnalysisState.property_data state)])%list))
            = true).
  { intros x Hx. apply contains_join.
    destruct (list_truthy (AnalysisState.errors state)); rewrite !in_app_iff; tauto. }
  repeat split; intros H; apply Hin; auto.
  apply Hd. fold pd. destruct H as [-> | ->]; reflexivity.
Qed.

(** On the state a run starts from, every placeholder is printed. *)
Lemma report_shows_placeholders_witness :
  exists state' report,
    synthesizer_node sample_env (initial_state "2512345" "2026-01-01T00:00:00")
    = Returned state'
    /\ AnalysisState.final_report state' = Some report
    /\ PyStr.contains "- **Estimated ARV:** N/A" report = true
    /\ PyStr.contains "- **District:** Unknown" report = true.
Proof.
  destruct (report_shows_placeholders sample_env
              (initial_state "2512345" "2026-01-01T00:00:00") eq_refl)
    as (state' & report & Hs & Hr & Harv & _ & _ & _ & _ & Hd).
  exists state', report. split; [exact Hs|]. split; [exact Hr|].
  split; [apply Harv; reflexivity | apply Hd; left; reflexivity].
Defined.

(** ** The router and the graph *)

Lemma py_in_ext (c1 c2 : list string) (x : string) :
  (forall a, In a c1 <-> In a c2) -> py_in x c1 = py_in x c2.
Proof.
  intros H. destruct (py_in x c2) eqn:H2.
  - apply py_in_In, H, py_in_In, H2.
  - apply py_in_not_In. intros Hin. apply H in Hin.
    apply py_in_In in Hin. congruence.
Qed.

Lemma first_not_completed_ext (order c1 c2 : list string) :
  (forall a, In a c1 <-> In a c2) ->
  first_not_completed order c1 = first_not_completed order c2.
Proof.
  intros H. induction order as [|a order IH]; simpl; [reflexivity|].
  now rewrite (py_in_ext c1 c2 a H), IH.
Qed.

(** X3. The router looks only at which identifiers are in the completed
    list: two states whose lists have the same members, in whatever order
    and with whatever repetitions, are routed to the same node. *)
Theorem route_depends_on_membership (s1 s2 : AnalysisState.t) :
  (forall a, In a (AnalysisState.completed_agents s1)
             <-> In a (AnalysisState.completed_agents s2)) ->
  route_to_next_agent s1 = route_to_next_agent s2.
Proof.
  intros H. unfold route_to_next_agent.
  now rewrite (first_not_completed_ext agent_order _ _ H),
              (py_in_ext _ _ "synthesizer" H).
Qed.

(** Permit then zoning, and zoning twice then permit: the same answer. *)
Lemma route_depends_on_membership_witness :
  route_to_next_agent
    (AnalysisState.append_completed "zoning"
       (AnalysisState.append_completed "permit" (initial_state "2512345" "t0")))
  = route_to_next_agent
      (AnalysisState.append_completed "permit"
         (AnalysisState.append_completed "zoning"
            (AnalysisState.append_completed "zoning" (initial_state "2512345" "t0")))).
Proof.
  apply route_depends_on_membership. intros a. simpl. tauto.
Defined.

Lemma conditional_edge_is_router (current : string)
    (branch : (AnalysisState.t -> string) * strdict string) :
  dict_lookup (conditional_edges create_analysis_workflow) current = Some branch ->
  branch = (route_to_next_agent, route_mapping).
Proof.
  cbn -[String.eqb].
  repeat (destruct (String.eqb _ current); [intros [= <-]; reflexivity|]).
  discriminate.
Qed.

(** X4. Whatever the current node and the state, the graph built by
    [create_analysis_workflow] has a next node: following an edge never
    fails, and it leads either to the end of the run or to a node that
    the graph has registered. *)
Theorem workflow_edges_lead_to_nodes (current : string) (state : AnalysisState.t) :
  exists next,
    next_node create_analysis_workflow current state = Returned next
    /\ (next = END
        \/ exists f, dict_lookup (nodes create_analysis_workflow) next = Some f).
Proof.
  unfold next_node.
  destruct (dict_lookup (conditional_edges create_analysis_workflow) current)
    as [branch|] eqn:Hb.
  - rewrite (conditional_edge_is_router current branch Hb).
    destruct (route_cases state) as [Hin | [(Hr & _) | (Hr & _)]].
    + simpl in Hin. destruct Hin as [Hr|[Hr|[Hr|[Hr|[]]]]]; rewrite <- Hr;
        eexists; (split; [reflexivity|]); right; eexists; reflexivity.
    + rewrite Hr. eexists. split; [reflexivity|]. right. eexists. reflexivity.
    + rewrite Hr. eexists. split; [reflexivity|]. now left.
  - destruct (dict_lookup (edges create_analysis_workflow) current) as [n|] eqn:He.
    + cbn -[String.eqb] in He.
      destruct (String.eqb "synthesizer" current); [|discriminate He].
      injection He as <-. eexists. split; [reflexivity|]. now left.
    + eexists. split; [reflexivity|]. now left.
Qed.

(** ** What a sequential run that returns looks like *)

Lemma in_fixed_order_cases (completed : list string) :
  in_fixed_order completed ->
  completed = [] \/ completed = ["zoning"] \/ completed = ["zoning"; "valuation"]
  \/ completed = ["zoning"; "valuation"; "permit"]
  \/ completed = agent_order.
Proof.
  intros (n & ->). do 4 (destruct n as [|n]; [simpl; tauto|]).
  right. right. right. right. destruct n; reflexivity.
Qed.

Lemma stage_note_prefixed (prefix text : string) :
  In prefix stage_prefixes -> is_stage_note (prefix +:+ text) = true.
Proof.
  intros Hin. unfold is_stage_note. apply existsb_exists.
  exists prefix. split; [exact Hin | apply startswith_app].
Qed.

Ltac node_effect_tac :=
  unfold node_effect; simpl; split; [reflexivity|];
  first
    [ left; split; reflexivity
    | right; split; [reflexivity|]; eexists; split; [|reflexivity];
      apply stage_note_prefixed; simpl; tauto ].

Section NodeEffects.
Context (E : Env) (beh : behaviour) (state state' : AnalysisState.t) (log log' : io_log).

Lemma zoning_node_effect :
  zoning_agent_node E beh state log = (Returned state', log') ->
  node_effect "zoning" state state'.
Proof.
  intros H. unfold zoning_agent_node in H. node_outcome E beh log H; node_effect_tac.
Qed.

Lemma valuation_node_effect :
  valuation_agent_node E beh state log = (Returned state', log') ->
  node_effect "valuation" state state'.
Proof.
  intros H. unfold valuation_agent_node in H. node_outcome E beh log H; node_effect_tac.
Qed.

Lemma permit_node_effect :
  permit_agent_node E beh state log = (Returned state', log') ->
  node_effect "permit" state state'.
Proof.
  intros H. unfold permit_agent_node in H. node_outcome E beh log H; node_effect_tac.
Qed.

Lemma envelope_node_effect :
  envelope_agent_node E beh state log = (Returned state', log') ->
  node_effect "envelope" state state'.
Proof.
  intros H. unfold envelope_agent_node in H. node_outcome E beh log H; node_effect_tac.
Qed.

End NodeEffects.

Ltac returned_stage_case IH H Hc Hcompl Herrs stage node effect k :=
  let Hr := fresh "Hr" in
  let Hn := fresh "Hn" in
  assert (Hr : route_to_next_agent _ = stage)
    by (erewrite route_by_completed by exact Hcompl; reflexivity);
  match type of H with
  | run_from _ _ _ ?limit _ _ _ _ = _ =>
      destruct limit;
      [ rewrite (run_from_limit _ _ _ _ _ _ _ _
                   (next_node_after _ _ _ Hc Hr ltac:(simpl; tauto)) eq_refl) in H;
        discriminate H
      | rewrite (run_from_step _ _ _ _ _ _ _ node _ _
                   (next_node_after _ _ _ Hc Hr ltac:(simpl; tauto))
                   eq_refl eq_refl) in H ]
  end;
  match type of H with
  | context [node ?E ?b ?st ?lg] =>
      destruct (node E b st lg) as [[s1|e] l1] eqn:Hn; [|discriminate H];
      apply effect in Hn; destruct Hn as (_ & [(Hc1 & He1) | (Hc1 & note & Hnote & He1)]);
      (apply IH in H;
       [ exact H
       | simpl; tauto
       | rewrite Hc1, Hcompl; first [ now exists k | now exists (pred k) ]
       | rewrite He1; first [ exact Herrs
                            | apply Forall_app; split;
                              [exact Herrs | now constructor] ] ])
  end.

Lemma returned_run_shape (E : Env) (oracle : nat -> behaviour) (limit : nat) :
  forall step current state log state' log',
    In current [START; "zoning"; "valuation"; "permit"; "envelope"] ->
    in_fixed_order (AnalysisState.completed_agents state) ->
    Forall (fun e => is_stage_note e = true) (AnalysisState.errors state) ->
    run_from E create_analysis_workflow oracle limit step current state log
    = (Returned state', log') ->
    AnalysisState.completed_agents state' = agent_order
    /\ Forall (fun e => is_stage_note e = true) (AnalysisState.errors state')
    /\ exists report,
         AnalysisState.final_report state' = Some report
         /\ PyStr.startswith "# ZoneWise Property Analysis Report" report = true.
Proof.
  induction limit as [limit IH] using lt_wf_ind.
  intros step current state log state' log' Hc Hord Herrs H.
  assert (IH' : forall step current state log state' log',
             In current [START; "zoning"; "valuation"; "permit"; "envelope"] ->
             in_fixed_order (AnalysisState.completed_agents state) ->
             Forall (fun e => is_stage_note e = true) (AnalysisState.errors state) ->
             run_from E create_analysis_workflow oracle (pred limit) step current state log
             = (Returned state', log') ->
             AnalysisState.completed_agents state' = agent_order
             /\ Forall (fun e => is_stage_note e = true) (AnalysisState.errors state')
             /\ exists report,
                  AnalysisState.final_report state' = Some report
                  /\ PyStr.startswith "# ZoneWise Property Analysis Report" report = true).
  { destruct limit as [|limit].
    - intros st cu s l s' l' Hcu Ho He Hrun. exfalso.
      destruct (route_cases s) as [Hin | [(Hr & _) | (Hr & Hs)]].
      + simpl in Hin. destruct Hin as [Hr|[Hr|[Hr|[Hr|[]]]]]; symmetry in Hr;
          rewrite (run_from_limit _ _ _ _ _ _ _ _
                     (next_node_after cu _ s Hcu Hr ltac:(simpl; tauto)) eq_refl) in Hrun;
          discriminate Hrun.
      + rewrite (run_from_limit _ _ _ _ _ _ _ _
                   (next_node_after cu _ s Hcu Hr ltac:(simpl; tauto)) eq_refl) in Hrun.
        discriminate Hrun.
      + destruct (in_fixed_order_cases _ Ho) as [Hl|[Hl|[Hl|[Hl|Hl]]]];
          rewrite Hl in Hs; simpl in Hs; intuition discriminate.
    - apply IH. simpl. lia. }
  clear IH.
  destruct (in_fixed_order_cases _ Hord) as [Hl|[Hl|[Hl|[Hl|Hl]]]].
  - returned_stage_case IH' H Hc Hl Herrs "zoning" zoning_agent_node
      zoning_node_effect 1%nat.
  - returned_stage_case IH' H Hc Hl Herrs "valuation" valuation_agent_node
      valuation_node_effect 2%nat.
  - returned_stage_case IH' H Hc Hl Herrs "permit" permit_agent_node
      permit_node_effect 3%nat.
  - returned_stage_case IH' H Hc Hl Herrs "envelope" envelope_agent_node
      envelope_node_effect 4%nat.
  - assert (Hr : route_to_next_agent state = "synthesizer")
      by (erewrite route_by_completed by exact Hl; reflexivity).
    destruct limit as [|limit];
      [ rewrite (run_from_limit _ _ _ _ _ _ _ _
                   (next_node_after _ _ _ Hc Hr ltac:(simpl; tauto)) eq_refl) in H;
        discriminate H |].
    rewrite (run_from_step _ _ _ _ _ _ _
               (fun E _ state => stx_lift (synthesizer_node E state)) _ _
               (next_node_after _ _ _ Hc Hr ltac:(simpl; tauto)) eq_refl eq_refl) in H.
    unfold stx_lift in H.
    destruct (synthesizer_node E state) as [s|e] eqn:Hsyn;
      cbv beta iota in H; [|discriminate H].
    destruct (synthesizer_node_inv E state s Hsyn) as (lines & ->).
    rewrite run_from_end in H by reflexivity.
    inversion H; subst. clear H.
    split; [exact Hl|]. split; [exact Herrs|].
    exists (PyStr.join nl ("# ZoneWise Property Analysis Report" :: lines)).
    split; [reflexivity | apply join_startswith].
Qed.

(** X5. A sequential run that returns has all four stages in its completed
    list, each once and in the fixed order, holds a report that opens with
    the title, and has in its errors list nothing but notes of the four
    agent nodes. *)
Theorem returned_run_is_complete (E : Env) (oracle : nat -> behaviour) (limit : nat)
    (parcel now : string) (log log' : io_log) (state' : AnalysisState.t) :
  run_property_analysis E oracle limit create_analysis_workflow parcel now log
  = (Returned state', log') ->
  AnalysisState.completed_agents state' = ["zoning"; "valuation"; "permit"; "envelope"]
  /\ Forall (fun e => is_stage_note e = true) (AnalysisState.errors state')
  /\ exists report,
       AnalysisState.final_report state' = Some report
       /\ PyStr.startswith "# ZoneWise Property Analysis Report" report = true.
Proof.
  intros H. unfold run_property_analysis, ainvoke in H.
  apply (returned_run_shape E oracle limit 0 START (initial_state parcel now) log
           state' log');
    [simpl; tauto | now exists 0%nat | constructor | exact H].
Qed.

(** The sample run in which the first call of the permit stage times out. *)
Lemma returned_run_is_complete_witness :
  exists state' log',
    run_property_analysis sample_env (fails_at 2 "timeout") default_recursion_limit
      create_analysis_workflow "2512345" "2026-01-01T00:00:00" []
    = (Returned state', log')
    /\ AnalysisState.completed_agents state' = ["zoning"; "valuation"; "permit"; "envelope"]
    /\ AnalysisState.errors state' = ["Permit agent error: timeout"].
Proof.
  assert (H : exists state' log',
             run_property_analysis sample_env (fails_at 2 "timeout")
               default_recursion_limit create_analysis_workflow
               "2512345" "2026-01-01T00:00:00" []
             = (Returned state', log')
             /\ AnalysisState.errors state' = ["Permit agent error: timeout"]).
  { eexists _, _. split; [vm_compute; reflexivity | reflexivity]. }
  destruct H as (state' & log' & Hrun & Herr).
  exists state', log'. split; [exact Hrun|]. split; [|exact Herr].
  exact (proj1 (returned_run_is_complete _ _ _ _ _ _ _ _ Hrun)).
Defined.

Lemma checkpoints_end (E : Env) (g : StateGraph) (oracle : nat -> behaviour)
    (n step : nat) (current : string) (state : AnalysisState.t) (log : io_log) :
  next_node g current state = Returned END ->
  checkpoints E g oracle n step current state log = (Returned [], log).
Proof.
  intros H. destruct n; simpl; [reflexivity|].
  unfold stx_bind, stx_lift. rewrite H. reflexivity.
Qed.

Ltac route_now :=
  apply next_node_after;
  [ simpl; tauto
  | erewrite route_by_completed by eassumption; reflexivity
  | simpl; tauto ].

Ltac checkpoint_step Hs k node_ok node_print stage node Hprev Hc Hpprev Hp :=
  let r := fresh "r" in
  let log' := fresh "log" in
  let Hi := fresh "Hi" in
  let s := fresh "s" in
  let Hn := fresh "Hn" in
  let He := fresh "He" in
  rewrite (checkpoints_step _ _ _ _ _ _ stage node);
    [ | route_now | reflexivity | reflexivity ];
  match goal with
  | |- context [node ?E ?b ?st ?lg] =>
      destruct (Hs k lg) as (r & log' & Hi);
      destruct (node_ok E b st lg log' r Hi) as (s & Hn & Hc & He);
      pose proof (node_print E b st s lg log' Hn Hpprev) as Hp;
      rewrite Hn; rewrite Hprev in Hc; simpl in Hc
  end.

(** X6. When every invocation of the reasoning capability succeeds, the
    nodes run in the order zoning, valuation, permit, envelope,
    synthesizer, each once and none twice: the first [n] node executions
    of a run are the first [n] of these five, for every [n].  With the
    engine's default recursion limit the run returns. *)
Theorem successful_run_order (E : Env) (oracle : nat -> behaviour)
    (parcel now : string) (log : io_log) :
  always_succeeds E oracle ->
  (forall n,
     exists cps log',
       checkpoints E create_analysis_workflow oracle n 0 START
         (initial_state parcel now) log = (Returned cps, log')
       /\ map fst cps
          = firstn n ["zoning"; "valuation"; "permit"; "envelope"; "synthesizer"])
  /\ (exists state' log',
        run_property_analysis E oracle default_recursion_limit
          create_analysis_workflow parcel now log
        = (Returned state', log')).
Proof.
  intros Hs.
  assert (Hc0 : AnalysisState.completed_agents (initial_state parcel now) = [])
    by reflexivity.
  pose proof (initial_state_printable parcel now) as Hp0.
  split.
  - intros n.
    destruct n as [|n]; [eexists [], _; split; reflexivity|].
    checkpoint_step Hs 0%nat zoning_node_succeeds zoning_node_printable
      "zoning" zoning_agent_node Hc0 Hc1 Hp0 Hp1.
    destruct n as [|n]; [eexists _, _; split; reflexivity|].
    checkpoint_step Hs 1%nat valuation_node_succeeds valuation_node_printable
      "valuation" valuation_agent_node Hc1 Hc2 Hp1 Hp2.
    destruct n as [|n]; [eexists _, _; split; reflexivity|].
    checkpoint_step Hs 2%nat permit_node_succeeds permit_node_printable
      "permit" permit_agent_node Hc2 Hc3 Hp2 Hp3.
    destruct n as [|n]; [eexists _, _; split; reflexivity|].
    checkpoint_step Hs 3%nat envelope_node_succeeds envelope_node_printable
      "envelope" envelope_agent_node Hc3 Hc4 Hp3 Hp4.
    destruct n as [|n]; [eexists _, _; split; reflexivity|].
    rewrite (checkpoints_step _ _ _ _ _ _ "synthesizer"
               (fun E _ state => stx_lift (synthesizer_node E state)));
      [ | route_now | reflexivity | reflexivity ].
    unfold stx_lift.
    match goal with
    | |- context [synthesizer_node E ?st] =>
        destruct (synthesizer_node_returns E st (proj1 Hp4)) as (lines & ->)
    end.
    rewrite checkpoints_end by reflexivity.
    eexists _, _. split; [reflexivity|]. simpl. now rewrite firstn_nil.
  - unfold run_property_analysis, ainvoke, default_recursion_limit.
    stage_step Hs 0%nat zoning_node_succeeds zoning_node_printable
      "zoning" zoning_agent_node Hc0 Hc1 Hp0 Hp1.
    stage_step Hs 1%nat valuation_node_succeeds valuation_node_printable
      "valuation" valuation_agent_node Hc1 Hc2 Hp1 Hp2.
    stage_step Hs 2%nat permit_node_succeeds permit_node_printable
      "permit" permit_agent_node Hc2 Hc3 Hp2 Hp3.
    stage_step Hs 3%nat envelope_node_succeeds envelope_node_printable
      "envelope" envelope_agent_node Hc3 Hc4 Hp3 Hp4.
    rewrite (run_from_step _ _ _ _ _ _ "synthesizer"
               (fun E _ state => stx_lift (synthesizer_node E state)));
      [ | route_now | reflexivity | reflexivity ].
    unfold stx_lift.
    match goal with
    | |- context [synthesizer_node E ?st] =>
        destruct (synthesizer_node_returns E st (proj1 Hp4)) as (lines & ->)
    end.
    rewrite run_from_end by reflexivity.
    eexists _, _. reflexivity.
Qed.

(** The sample installation with a model that answers at once: the first
    three node executions, and all five. *)
Lemma successful_run_order_witness :
  (exists cps log',
     checkpoints sample_env create_analysis_workflow (fun _ => answers "ok")
       3 0 START (initial_state "2512345" "2026-01-01T00:00:00") [] = (Returned cps, log')
     /\ map fst cps = ["zoning"; "valuation"; "permit"])
  /\ (exists cps log',
        checkpoints sample_env create_analysis_workflow (fun _ => answers "ok")
          default_recursion_limit 0 START
          (initial_state "2512345" "2026-01-01T00:00:00") [] = (Returned cps, log')
        /\ map fst cps = ["zoning"; "valuation"; "permit"; "envelope"; "synthesizer"]).
Proof.
  assert (H : always_succeeds sample_env (fun _ => answers "ok")).
  { intros k log. eexists _, _. vm_compute. reflexivity. }
  destruct (successful_run_order sample_env _ "2512345" "2026-01-01T00:00:00" [] H)
    as (Hok & _).
  split; [exact (Hok 3%nat) | exact (Hok default_recursion_limit)].
Defined.

(** ** The phased-parallel mode *)

Lemma risk_zero_never_SKIP (pd : PropertyData) :
  permit_risk_score pd = 0 ->
  recommendation pd <> rec_SKIP
  /\ (open_violations pd <> [] -> available (arv pd) -> available (max_bid pd) ->
      recommendation pd = rec_REVIEW).
Proof.
  intros H0. rewrite recommendation_unfold, H0. split.
  - destruct (_ && _); [destruct (_ && _)|]; discriminate.
  - intros Hv Ha Hb. apply available_truthy in Ha, Hb. rewrite Ha, Hb.
    destruct (open_violations pd); [now destruct Hv | reflexivity].
Qed.

Lemma parallel_run_returns (E : Env) (T : analysis_tasks) (parcel now : string) :
  formattable (AnalysisState.property_data (parallel_state T parcel now)) = true ->
  exists state',
    run_parallel_analysis E T parcel now = Returned state'
    /\ permit_risk_score (AnalysisState.property_data state') = 0
    /\ AnalysisState.completed_agents state'
       = ["zoning"; "permit"; "valuation"; "envelope"]
    /\ (forall e,
          run_valuation_analysis T parcel
            (zoning_dims (AnalysisState.property_data state')) = Raised e ->
          arv (AnalysisState.property_data state') = None)
    /\ (forall r,
          run_valuation_analysis T parcel
            (zoning_dims (AnalysisState.property_data state')) = Returned r ->
          arv (AnalysisState.property_data state') = ValuationResult.arv r
          /\ max_bid (AnalysisState.property_data state') = ValuationResult.max_bid r).
Proof.
  intros Hf. rewrite run_parallel_analysis_eq.
  destruct (synthesizer_node_returns E _ Hf) as (lines & ->). clear Hf.
  eexists. split; [reflexivity|].
  cbn [AnalysisState.property_data AnalysisState.completed_agents
       AnalysisState.append_message AnalysisState.set_final_report].
  unfold parallel_state.
  destruct (run_zoning_analysis T parcel) as [zr|ze];
    destruct (run_permit_analysis T parcel) as [pr|pe]; cbn;
    match goal with
    | |- context [run_valuation_analysis T parcel ?d] =>
        destruct (run_valuation_analysis T parcel d) as [vr|ve] eqn:Hv;
        destruct (run_envelope_analysis T parcel d) as [er|ee] eqn:He
    end; cbn;
    (split; [reflexivity|]); (split; [reflexivity|]);
    split; intros x Heq; rewrite Hv in Heq;
    try discriminate Heq; try reflexivity;
    injection Heq as <-; split; reflexivity.
Qed.

(** X7. Whenever the numbers the coroutines returned can be printed, the
    phased-parallel run returns, whichever coroutines failed.  It lists
    all four stages as completed and never writes the permit risk score,
    which stays 0: so it never recommends SKIP, and a property with open
    violations and valuation figures gets REVIEW. *)
Theorem parallel_run_never_skips (E : Env) (T : analysis_tasks) (parcel now : string) :
  formattable (AnalysisState.property_data (parallel_state T parcel now)) = true ->
  exists state',
    run_parallel_analysis E T parcel now = Returned state'
    /\ AnalysisState.completed_agents state'
       = ["zoning"; "permit"; "valuation"; "envelope"]
    /\ permit_risk_score (AnalysisState.property_data state') = 0
    /\ recommendation (AnalysisState.property_data state') <> rec_SKIP
    /\ (open_violations (AnalysisState.property_data state') <> [] ->
        available (arv (AnalysisState.property_data state')) ->
        available (max_bid (AnalysisState.property_data state')) ->
        recommendation (AnalysisState.property_data state') = rec_REVIEW).
Proof.
  intros Hf.
  destruct (parallel_run_returns E T parcel now Hf) as (state' & Hrun & H0 & Hc & _).
  exists state'. split; [exact Hrun|]. split; [exact Hc|]. split; [exact H0|].
  exact (risk_zero_never_SKIP _ H0).
Qed.

(** A permit coroutine that reports an open violation: REVIEW. *)
Lemma parallel_run_never_skips_witness :
  let T := mkTasks (run_zoning_analysis placeholder_tasks)
                   (fun _ => Returned (PermitResult.mk (Some [])
                                         (Some [[("code", PyStr "unsafe structure")]])))
                   (run_valuation_analysis placeholder_tasks)
                   (run_envelope_analysis placeholder_tasks) in
  exists state',
    run_parallel_analysis sample_env T "2512345" "2026-01-01T00:00:00" = Returned state'
    /\ recommendation (AnalysisState.property_data state') = rec_REVIEW.
Proof.
  intros T.
  destruct (parallel_run_never_skips sample_env T "2512345" "2026-01-01T00:00:00"
              eq_refl)
    as (state' & Hrun & _ & _ & _ & Hreview).
  exists state'. split; [exact Hrun|].
  assert (Hpd : open_violations (AnalysisState.property_data state')
                = [[("code", PyStr "unsafe structure")]]
                /\ arv (AnalysisState.property_data state') = Some (NInt 325000)
                /\ max_bid (AnalysisState.property_data state') = Some (NInt 165000)).
  { vm_compute in Hrun. injection Hrun as <-. repeat split. }
  destruct Hpd as (Hv & Ha & Hb).
  apply Hreview.
  - rewrite Hv. discriminate.
  - rewrite Ha. eexists. split; reflexivity.
  - rewrite Hb. eexists. split; reflexivity.
Defined.

(** X8. In the phased-parallel mode, when the valuation coroutine fails, or
    returns without a usable [arv] or [max_bid], and the numbers that were
    returned can be printed, the run returns and the recommendation is
    INCOMPLETE, whatever the other coroutines return. *)
Theorem parallel_valuation_failure_is_INCOMPLETE (E : Env) (T : analysis_tasks)
    (parcel now : string) :
  formattable (AnalysisState.property_data (parallel_state T parcel now)) = true ->
  exists state',
    run_parallel_analysis E T parcel now = Returned state'
    /\ ((exists e,
           run_valuation_analysis T parcel
             (zoning_dims (AnalysisState.property_data state')) = Raised e)
        \/ (exists r,
              run_valuation_analysis T parcel
                (zoning_dims (AnalysisState.property_data state')) = Returned r
              /\ (~ available (ValuationResult.arv r)
                  \/ ~ available (ValuationResult.max_bid r))) ->
        recommendation (AnalysisState.property_data state') = rec_INCOMPLETE).
Proof.
  intros Hf.
  destruct (parallel_run_returns E T parcel now Hf)
    as (state' & Hrun & _ & _ & Hfail & Hok).
  exists state'. split; [exact Hrun|].
  rewrite recommendation_unfold.
  intros [(e & He) | (r & Hr & Hna)].
  - rewrite (Hfail e He). reflexivity.
  - destruct (Hok r Hr) as (-> & ->). rewrite !available_truthy in Hna.
    destruct Hna as [Hna|Hna].
    + destruct (opt_number_truthy (ValuationResult.arv r)); [now destruct Hna | reflexivity].
    + destruct (opt_number_truthy (ValuationResult.max_bid r)); [now destruct Hna|].
      now rewrite andb_false_r.
Qed.

(** A valuation coroutine that times out. *)
Lemma parallel_valuation_failure_is_INCOMPLETE_witness :
  let T := mkTasks (run_zoning_analysis placeholder_tasks)
                   (run_permit_analysis placeholder_tasks)
                   (fun _ _ => Raised (CapabilityError "timeout"))
                   (run_envelope_analysis placeholder_tasks) in
  exists state',
    run_parallel_analysis sample_env T "2512345" "2026-01-01T00:00:00" = Returned state'
    /\ recommendation (AnalysisState.property_data state') = rec_INCOMPLETE.
Proof.
  intros T.
  destruct (parallel_valuation_failure_is_INCOMPLETE sample_env T
              "2512345" "2026-01-01T00:00:00" eq_refl) as (state' & Hrun & Hinc).
  exists state'. split; [exact Hrun|].
  apply Hinc. left. exists (CapabilityError "timeout"). reflexivity.
Defined.

(** X9. The second phase sees of the first phase only the zoning
    dimensions: the valuation and envelope coroutines are called with the
    [dims] entry of the zoning result, and with [None] when the zoning
    coroutine failed; nothing of the permit result reaches them. *)
Theorem parallel_phase_two_inputs (E : Env) (T : analysis_tasks) (parcel now : string) :
  let dims :=
    match run_zoning_analysis T parcel with
    | Returned r => ZoningResult.dims r
    | Raised _ => None
    end in
  run_parallel_analysis E T parcel now
  = run_parallel_analysis E
      (mkTasks (run_zoning_analysis T) (run_permit_analysis T)
               (fun p _ => run_valuation_analysis T p dims)
               (fun p _ => run_envelope_analysis T p dims))
      parcel now.
Proof.
  unfold run_parallel_analysis. cbn -[synthesizer_node].
  destruct (run_zoning_analysis T parcel) as [zr|ze];
    destruct (run_permit_analysis T parcel) as [pr|pe]; reflexivity.
Qed.

(** ** The tools at their edges *)

Lemma manifest_of_deps_cached (E : Env) (deps : AgentDependencies.t) (log : io_log)
    (m : SkillsManifest.t) :
  AgentDependencies.manifest deps = Some m ->
  manifest_of_deps E (deps, log) = (Returned m, (deps, log)).
Proof.
  intros H. unfold manifest_of_deps, stx_bind, stx_get. cbn [fst snd]. rewrite H.
  reflexivity.
Qed.

Lemma manifest_of_deps_keeps_caches (E : Env) (deps deps1 : AgentDependencies.t)
    (log log1 : io_log) (r : result SkillsManifest.t) :
  manifest_of_deps E (deps, log) = (r, (deps1, log1)) ->
  AgentDependencies.loaded_skills deps1 = AgentDependencies.loaded_skills deps
  /\ AgentDependencies.loaded_references deps1 = AgentDependencies.loaded_references deps
  /\ AgentDependencies.skills_path deps1 = AgentDependencies.skills_path deps.
Proof.
  destruct (manifest_of_deps_cases E deps log)
    as [(m & _ & ->) | [(m & l & ->) | (e & l & ->)]];
    intros H; inversion H; subst; repeat split.
Qed.

(** X10. With the manifest already in the dependencies, asking either tool
    for a skill the manifest does not list is answered with an error text:
    no exception, no access to storage, no change to the caches. *)
Theorem unknown_skill_is_answered (E : Env) (deps : AgentDependencies.t)
    (m : SkillsManifest.t) (name ref : string) (log : io_log) :
  AgentDependencies.manifest deps = Some m ->
  find_skill m name = None ->
  (AgentDependencies.loaded_skills deps !! name = None ->
   load_skill_tool E name (deps, log)
   = (Returned ("Error loading skill: Skill not found: " +:+ name), (deps, log)))
  /\ (AgentDependencies.loaded_references deps !! cache_key name ref = None ->
      read_reference_tool E name ref (deps, log)
      = (Returned ("Error loading reference: Skill not found: " +:+ name), (deps, log))).
Proof.
  intros Hm Hf. split; intros Hc.
  - rewrite load_skill_tool_eq, Hc, (manifest_of_deps_cached E deps log m Hm).
    unfold load_skill_content. rewrite Hf. reflexivity.
  - rewrite read_reference_tool_eq, Hc, (manifest_of_deps_cached E deps log m Hm).
    unfold load_reference_content. rewrite Hf. reflexivity.
Qed.

(** The sample manifest has no skill called permit-lookup. *)
Lemma unknown_skill_is_answered_witness :
  load_skill_tool sample_env "permit-lookup"
    (AgentDependencies.set_manifest sample_manifest deps_default, [])
  = (Returned "Error loading skill: Skill not found: permit-lookup",
     (AgentDependencies.set_manifest sample_manifest deps_default, [])).
Proof.
  apply (proj1 (unknown_skill_is_answered sample_env
                  (AgentDependencies.set_manifest sample_manifest deps_default)
                  sample_manifest "permit-lookup" "" [] eq_refl eq_refl)).
  reflexivity.
Defined.

(** X11. The two missing files are treated differently.  When the skill is
    not cached, the dependencies hold no manifest and the manifest file is
    absent, [load_skill_tool] raises [FileNotFoundError].  When the manifest
    is there and lists the skill but the skill file is absent, the tool
    returns an error text instead, after one existence check, and caches
    nothing. *)
Theorem missing_files_in_load_skill_tool (E : Env) (deps : AgentDependencies.t)
    (name : string) (log : io_log) :
  AgentDependencies.loaded_skills deps !! name = None ->
  let manifest_path :=
    Path.str (Path.div (AgentDependencies.skills_path deps) "skills-manifest.yaml") in
  (AgentDependencies.manifest deps = None ->
   files E !! manifest_path = None ->
   load_skill_tool E name (deps, log)
   = (Raised (FileNotFoundError ("Skills manifest not found: " +:+ manifest_path)),
      (deps, (log ++ [FsExists manifest_path])%list)))
  /\ (forall m meta,
        AgentDependencies.manifest deps = Some m ->
        find_skill m name = Some meta ->
        let skill_path :=
          Path.str (Path.div (Path.parent (AgentDependencies.skills_path deps))
                             (SkillMetadata.path meta)) in
        files E !! skill_path = None ->
        load_skill_tool E name (deps, log)
        = (Returned ("Error loading skill: Skill file not found: " +:+ skill_path),
           (deps, (log ++ [FsExists skill_path])%list))).
Proof.
  intros Hc manifest_path. split.
  - intros Hm Hf. rewrite load_skill_tool_eq, Hc.
    unfold manifest_of_deps, stx_bind, stx_get, on_snd. cbn [fst snd]. rewrite Hm.
    cbn [fst snd]. rewrite (load_manifest_missing E _ log Hf). reflexivity.
  - intros m meta Hm Hf skill_path Hfile.
    rewrite load_skill_tool_eq, Hc, (manifest_of_deps_cached E deps log m Hm).
    unfold load_skill_content. rewrite Hf.
    unfold stx_bind, path_exists. fold skill_path. rewrite Hfile. reflexivity.
Qed.

(** With no file at all: without a manifest in the dependencies the tool
    raises; with the sample manifest in them it answers with a text. *)
Lemma missing_files_in_load_skill_tool_witness :
  load_skill_tool bare_env "sun-analysis" (deps_default, [])
  = (Raised (FileNotFoundError
       "Skills manifest not found: zonewise/skills/skills-manifest.yaml"),
     (deps_default, [FsExists "zonewise/skills/skills-manifest.yaml"]))
  /\ load_skill_tool bare_env "sun-analysis"
       (AgentDependencies.set_manifest sample_manifest deps_default, [])
     = (Returned
          "Error loading skill: Skill file not found: zonewise/skills/sun-analysis/SKILL.md",
        (AgentDependencies.set_manifest sample_manifest deps_default,
         [FsExists "zonewise/skills/sun-analysis/SKILL.md"])).
Proof.
  split.
  - exact (proj1 (missing_files_in_load_skill_tool bare_env deps_default
                    "sun-analysis" [] eq_refl) eq_refl eq_refl).
  - exact (proj2 (missing_files_in_load_skill_tool bare_env
                    (AgentDependencies.set_manifest sample_manifest deps_default)
                    "sun-analysis" [] eq_refl)
             sample_manifest _ eq_refl eq_refl eq_refl).
Defined.

(** X12. A load that fails is not remembered: when either tool answers
    with its error text, both caches are as they were before the call and
    hold no entry for what was asked, so the next call goes to storage
    again. *)
Theorem failed_load_is_not_cached (E : Env) :
  (forall name deps log r deps1 log1,
     load_skill_tool E name (deps, log) = (Returned r, (deps1, log1)) ->
     PyStr.startswith "Error loading skill: " r = true ->
     AgentDependencies.loaded_skills deps1 = AgentDependencies.loaded_skills deps
     /\ AgentDependencies.loaded_references deps1
        = AgentDependencies.loaded_references deps
     /\ AgentDependencies.loaded_skills deps1 !! name = None)
  /\ (forall name ref deps log r deps1 log1,
        read_reference_tool E name ref (deps, log) = (Returned r, (deps1, log1)) ->
        PyStr.startswith "Error loading reference: " r = true ->
        AgentDependencies.loaded_skills deps1 = AgentDependencies.loaded_skills deps
        /\ AgentDependencies.loaded_references deps1
           = AgentDependencies.loaded_references deps
        /\ AgentDependencies.loaded_references deps1 !! cache_key name ref = None).
Proof.
  split.
  - intros name deps log r deps1 log1 H Herr.
    rewrite load_skill_tool_eq in H.
    destruct (AgentDependencies.loaded_skills deps !! name) as [cached|] eqn:Hl.
    + inversion H; subst. discriminate Herr.
    + destruct (manifest_of_deps E (deps, log)) as [[m|e] [d1 l1]] eqn:Hm;
        [|discriminate H].
      apply manifest_of_deps_keeps_caches in Hm. destruct Hm as (Hs & Hr & _).
      destruct (load_skill_content E (AgentDependencies.skills_path deps) name m l1)
        as [[skill|e] l2].
      * inversion H; subst. discriminate Herr.
      * destruct (is_FileNotFound_or_ValueError e); [|discriminate H].
        inversion H; subst. rewrite Hs, Hr, Hl. repeat split.
  - intros name ref deps log r deps1 log1 H Herr.
    rewrite read_reference_tool_eq in H.
    destruct (AgentDependencies.loaded_references deps !! cache_key name ref)
      as [cached|] eqn:Hl.
    + inversion H; subst. discriminate Herr.
    + destruct (manifest_of_deps E (deps, log)) as [[m|e] [d1 l1]] eqn:Hm;
        [|discriminate H].
      apply manifest_of_deps_keeps_caches in Hm. destruct Hm as (Hs & Hr & _).
      destruct (load_reference_content E (AgentDependencies.skills_path deps) name ref m l1)
        as [[doc|e] l2].
      * inversion H; subst. discriminate Herr.
      * destruct (is_FileNotFound_or_ValueError e); [|discriminate H].
        inversion H; subst. rewrite Hs, Hr, Hl. repeat split.
Qed.

(** The skill file is missing: two calls, two error texts, two existence
    checks, and still nothing cached. *)
Lemma failed_load_is_not_cached_witness :
  exists r deps1 log1,
    load_skill_tool bare_env "sun-analysis"
      (AgentDependencies.set_manifest sample_manifest deps_default, [])
    = (Returned r, (deps1, log1))
    /\ AgentDependencies.loaded_skills deps1 !! "sun-analysis" = None
    /\ snd (snd (load_skill_tool bare_env "sun-analysis" (deps1, log1)))
       = [FsExists "zonewise/skills/sun-analysis/SKILL.md";
          FsExists "zonewise/skills/sun-analysis/SKILL.md"].
Proof.
  assert (H : exists r deps1 log1,
             load_skill_tool bare_env "sun-analysis"
               (AgentDependencies.set_manifest sample_manifest deps_default, [])
             = (Returned r, (deps1, log1))
             /\ PyStr.startswith "Error loading skill: " r = true
             /\ snd (snd (load_skill_tool bare_env "sun-analysis" (deps1, log1)))
                = [FsExists "zonewise/skills/sun-analysis/SKILL.md";
                   FsExists "zonewise/skills/sun-analysis/SKILL.md"]).
  { eexists _, _, _. split; [vm_compute; reflexivity|]. split; vm_compute; reflexivity. }
  destruct H as (r & deps1 & log1 & H & Herr & Hlog).
  exists r, deps1, log1. split; [exact H|]. split; [|exact Hlog].
  exact (proj2 (proj2 (proj1 (failed_load_is_not_cached bare_env) _ _ _ _ _ _ H Herr))).
Defined.

(** X13. With the manifest already in the dependencies, loading a listed
    skill that is not cached touches nothing but the skill's own file: one
    existence check, followed by one read if the file exists.  The manifest
    in the dependencies stays the same. *)
Theorem cached_manifest_load_touches_skill_file (E : Env) (deps deps1 : AgentDependencies.t)
    (m : SkillsManifest.t) (meta : SkillMetadata.t) (name : string)
    (log log1 : io_log) (r : result string) :
  AgentDependencies.manifest deps = Some m ->
  find_skill m name = Some meta ->
  AgentDependencies.loaded_skills deps !! name = None ->
  load_skill_tool E name (deps, log) = (r, (deps1, log1)) ->
  let skill_path :=
    Path.str (Path.div (Path.parent (AgentDependencies.skills_path deps))
                       (SkillMetadata.path meta)) in
  AgentDependencies.manifest deps1 = Some m
  /\ ((files E !! skill_path = None /\ log1 = (log ++ [FsExists skill_path])%list)
      \/ (files E !! skill_path <> None
          /\ log1 = (log ++ [FsExists skill_path; FsRead skill_path])%list)).
Proof.
  intros Hm Hf Hc H skill_path.
  rewrite load_skill_tool_eq, Hc, (manifest_of_deps_cached E deps log m Hm) in H.
  unfold load_skill_content in H. rewrite Hf in H.
  unfold stx_bind, path_exists, read_text, stx_lift, stx_ret, stx_raise in H.
  fold skill_path in H.
  destruct (files E !! skill_path) as [text|] eqn:Hfile; cbn in H.
  - destruct (parse_front_matter E text) as [[fm body]|e]; cbn in H;
      [destruct (validate_front_matter E fm) as [d|e]; cbn in H|];
      try destruct (is_FileNotFound_or_ValueError e);
      inversion H; subst; (split; [assumption|]); right;
      (split; [discriminate|]); now rewrite <- app_assoc.
  - inversion H; subst. split; [assumption|]. left. split; reflexivity.
Qed.

(** The sample skill, with the sample manifest in the dependencies. *)
Lemma cached_manifest_load_touches_skill_file_witness :
  snd (snd (load_skill_tool sample_env "sun-analysis"
              (AgentDependencies.set_manifest sample_manifest deps_default, [])))
  = [FsExists "zonewise/skills/sun-analysis/SKILL.md";
     FsRead "zonewise/skills/sun-analysis/SKILL.md"].
Proof.
  destruct (load_skill_tool sample_env "sun-analysis"
              (AgentDependencies.set_manifest sample_manifest deps_default, []))
    as [r [deps1 log1]] eqn:H.
  destruct (cached_manifest_load_touches_skill_file sample_env
              (AgentDependencies.set_manifest sample_manifest deps_default) deps1
              sample_manifest _ "sun-analysis" [] log1 r eq_refl eq_refl eq_refl H)
    as (_ & [(Hnone & _) | (_ & ->)]).
  - vm_compute in Hnone. discriminate Hnone.
  - reflexivity.
Defined.

Lemma find_skill_declare_references (f : SkillMetadata.t -> list string)
    (m : SkillsManifest.t) (name : string) :
  find_skill (declare_references f m) name
  = option_map
      (fun s => SkillMetadata.mk (SkillMetadata.name s) (SkillMetadata.description s)
                  (SkillMetadata.path s) (SkillMetadata.category s)
                  (SkillMetadata.priority s) (SkillMetadata.tokens_estimate s) (f s))
      (find_skill m name).
Proof.
  unfold find_skill, declare_references. cbn [SkillsManifest.skills].
  induction (SkillsManifest.skills m) as [|s skills IH]; [reflexivity|].
  cbn [map List.find SkillMetadata.name].
  destruct (String.eqb (SkillMetadata.name s) name); [reflexivity | exact IH].
Qed.

(** X14. Neither loader consults the list of references a skill declares
    in the manifest: with any other declared lists, a skill and a
    reference load exactly as before.  The list is no whitelist. *)
Theorem declared_references_are_not_consulted (E : Env) (skills_path : Path.t)
    (name ref : string) (m : SkillsManifest.t) (f : SkillMetadata.t -> list string) :
  load_reference_content E skills_path name ref (declare_references f m)
  = load_reference_content E skills_path name ref m
  /\ load_skill_content E skills_path name (declare_references f m)
     = load_skill_content E skills_path name m.
Proof.
  unfold load_reference_content, load_skill_content.
  rewrite find_skill_declare_references.
  destruct (find_skill m name) as [meta|]; split; reflexivity.
Qed.

Lemma load_reference_content_labels (E : Env) (skills_path : Path.t) (name ref : string)
    (m : SkillsManifest.t) (log log' : io_log) (doc : SkillReference.t) :
  load_reference_content E skills_path name ref m log = (Returned doc, log') ->
  SkillReference.skill_name doc = name /\ SkillReference.name doc = ref.
Proof.
  unfold load_reference_content.
  destruct (find_skill m name) as [meta|]; [|discriminate].
  unfold stx_bind, path_exists, read_text, stx_ret, stx_raise.
  destruct (bool_decide _); cbn; [|discriminate].
  destruct (files E !! _); cbn; [|discriminate].
  intros H. inversion H; subst. split; reflexivity.
Qed.

(** X15. Two different pairs of skill name and reference name that build
    the same cache key share one slot.  After the reference of the first
    pair has been loaded, a request for the second pair is answered from
    the cache, with the document of the first pair and without any access
    to storage. *)
Theorem colliding_keys_share_a_slot (E : Env) (s1 r1 s2 r2 : string)
    (deps deps1 : AgentDependencies.t) (log log1 : io_log) (r : string) :
  cache_key s1 r1 = cache_key s2 r2 ->
  AgentDependencies.loaded_references deps !! cache_key s1 r1 = None ->
  read_reference_tool E s1 r1 (deps, log) = (Returned r, (deps1, log1)) ->
  PyStr.startswith "Error loading reference: " r = false ->
  exists doc,
    SkillReference.skill_name doc = s1
    /\ SkillReference.name doc = r1
    /\ r = freshly_loaded_reference r1 doc
    /\ read_reference_tool E s2 r2 (deps1, log1)
       = (Returned (already_loaded_reference doc), (deps1, log1)).
Proof.
  intros Hkey Hc H Herr.
  rewrite read_reference_tool_eq, Hc in H.
  destruct (manifest_of_deps E (deps, log)) as [[m|e] [d1 l1]]; [|discriminate H].
  destruct (load_reference_content E (AgentDependencies.skills_path deps) s1 r1 m l1)
    as [[doc|e] l2] eqn:Hload.
  - inversion H; subst. exists doc.
    destruct (load_reference_content_labels _ _ _ _ _ _ _ _ Hload) as (Hs & Hn).
    split; [exact Hs|]. split; [exact Hn|]. split; [reflexivity|].
    rewrite read_reference_tool_eq, <- Hkey.
    cbn [AgentDependencies.loaded_references AgentDependencies.cache_reference].
    rewrite lookup_insert_eq. reflexivity.
  - destruct (is_FileNotFound_or_ValueError e); [|discriminate H].
    inversion H; subst. now rewrite startswith_app in Herr.
Qed.

(** The reference c of the skill a:b is loaded; asking for the reference
    b:c of the skill a then returns the document of a:b, although a has a
    reference b:c of its own in storage. *)
Lemma colliding_keys_share_a_slot_witness :
  exists r deps1 log1 doc,
    read_reference_tool colon_env "a:b" "c" (deps_default, []) = (Returned r, (deps1, log1))
    /\ SkillReference.skill_name doc = "a:b"
    /\ read_reference_tool colon_env "a" "b:c" (deps1, log1)
       = (Returned (already_loaded_reference doc), (deps1, log1))
    /\ files colon_env !! "zonewise/skills/second/references/b:c"
       = Some "reference of the second skill".
Proof.
  assert (H : exists r deps1 log1,
             read_reference_tool colon_env "a:b" "c" (deps_default, [])
             = (Returned r, (deps1, log1))
             /\ PyStr.startswith "Error loading reference: " r = false).
  { eexists _, _, _. split; vm_compute; reflexivity. }
  destruct H as (r & deps1 & log1 & H & Herr).
  destruct (colliding_keys_share_a_slot colon_env "a:b" "c" "a" "b:c"
              deps_default deps1 [] log1 r eq_refl eq_refl H Herr)
    as (doc & Hs & _ & _ & Hsecond).
  exists r, deps1, log1, doc. repeat split; assumption || reflexivity.
Defined.

(** ** Where the front matter ends *)

Lemma startswith_drop (p s : string) :
  PyStr.startswith p s = true -> s = p +:+ PyStr.drop (String.length p) s.
Proof.
  revert s. induction p as [|a p IH]; intros s H; [reflexivity|].
  destruct s as [|b s]; [discriminate H|]. simpl in H.
  destruct (Ascii.eqb a b) eqn:Hab; [|discriminate H].
  apply Ascii.eqb_eq in Hab. subst b.
  change (String a s = String a (p +:+ PyStr.drop (String.length p) s)).
  f_equal. now apply IH.
Qed.

Lemma partition_sound (sep s before after : string) :
  PyStr.partition sep s = Some (before, after) -> s = before +:+ sep +:+ after.
Proof.
  revert before after. induction s as [|c s IH]; intros before after;
    rewrite partition_unfold.
  - destruct (PyStr.startswith sep "") eqn:Hs; [|discriminate].
    intros [= <- <-]. now apply startswith_drop.
  - destruct (PyStr.startswith sep (String c s)) eqn:Hs.
    + intros [= <- <-]. now apply startswith_drop.
    + destruct (PyStr.partition sep s) as [[b a]|]; [|discriminate].
      intros [= <- <-]. change (String c s = String c (b +:+ sep +:+ a)).
      f_equal. now apply IH.
Qed.

Lemma startswith_app_l (p s t : string) :
  PyStr.startswith p s = true -> PyStr.startswith p (s +:+ t) = true.
Proof.
  revert s. induction p as [|a p IH]; intros s H; [reflexivity|].
  destruct s as [|b s]; [discriminate H|]. simpl in H.
  change (PyStr.startswith (String a p) (String b (s +:+ t)) = true). simpl.
  destruct (Ascii.eqb a b); [now apply IH | discriminate H].
Qed.

(** The text before the leftmost occurrence contains no occurrence. *)
Lemma partition_leftmost (sep s before after : string) :
  sep <> "" ->
  PyStr.partition sep s = Some (before, after) ->
  PyStr.contains sep before = false.
Proof.
  intros Hne. revert before after. induction s as [|c s IH]; intros before after;
    rewrite partition_unfold.
  - destruct (PyStr.startswith sep "") eqn:Hs; [|discriminate].
    destruct sep; [now destruct Hne | discriminate Hs].
  - destruct (PyStr.startswith sep (String c s)) eqn:Hs.
    + intros [= <- <-]. unfold PyStr.contains. rewrite partition_unfold.
      destruct sep; [now destruct Hne | reflexivity].
    + destruct (PyStr.partition sep s) as [[b a]|] eqn:Hp; [|discriminate].
      intros [= <- <-]. specialize (IH b a eq_refl).
      unfold PyStr.contains in *. rewrite partition_unfold.
      destruct (PyStr.startswith sep (String c b)) eqn:Hsb.
      * apply (startswith_app_l _ _ (sep +:+ a)) in Hsb.
        apply partition_sound in Hp. subst s.
        change (String c b +:+ sep +:+ a) with (String c (b +:+ sep +:+ a)) in Hsb.
        congruence.
      * destruct (PyStr.partition sep b); [discriminate IH | reflexivity].
Qed.

(** X16. Whatever [parse_front_matter] returns is one of two things: the
    document unchanged with an empty front matter, or a split of the
    document at its first two markers, where the text between them holds
    no marker and is what the YAML parser was given, a parsed value that
    is falsy (an empty block) is replaced by the empty dictionary, and the
    body is the rest of the document, later markers included, stripped of
    surrounding white space. *)
Theorem parse_front_matter_result (E : Env) (content : string) (fm : pyobj)
    (body : string) :
  parse_front_matter E content = Returned (fm, body) ->
  (fm = PyDict [] /\ body = content)
  \/ exists enclosed rest metadata,
       content = "---" +:+ enclosed +:+ "---" +:+ rest
       /\ PyStr.contains "---" enclosed = false
       /\ yaml_safe_load E enclosed = Returned metadata
       /\ fm = (if truthy metadata then metadata else PyDict [])
       /\ body = PyStr.strip rest.
Proof.
  unfold parse_front_matter.
  destruct (PyStr.startswith "---" content) eqn:Hs; [|intros [= <- <-]; now left].
  cbn [PyStr.split]. rewrite (partition_unfold "---" content), Hs.
  set (rest1 := PyStr.drop (String.length "---") content).
  destruct (PyStr.partition "---" rest1) as [[enclosed rest]|] eqn:Hp;
    [|intros [= <- <-]; now left].
  cbn [length Nat.leb nth].
  destruct (yaml_safe_load E enclosed) as [metadata|e] eqn:Hy.
  - intros [= <- <-]. right. exists enclosed, rest, metadata.
    split; [|split; [|repeat split]].
    + rewrite (startswith_drop "---" content Hs). fold rest1.
      now rewrite (partition_sound _ _ _ _ Hp).
    + apply (partition_leftmost "---" rest1 enclosed rest); [discriminate | exact Hp].
    + exact Hy.
  - destruct (is_YAMLError e); [intros [= <- <-]; now left | discriminate].
Qed.

(** A document with three markers: the third stays in the body. *)
Lemma parse_front_matter_result_witness :
  exists enclosed rest,
    "---name: sun---Use --- the ephemeris. " = "---" +:+ enclosed +:+ "---" +:+ rest
    /\ PyStr.contains "---" enclosed = false
    /\ parse_front_matter sample_env "---name: sun---Use --- the ephemeris. "
       = Returned (PyDict [(PyStr "text", PyStr "name: sun")], PyStr.strip rest)
    /\ PyStr.strip rest = "Use --- the ephemeris.".
Proof.
  assert (H : parse_front_matter sample_env "---name: sun---Use --- the ephemeris. "
              = Returned (PyDict [(PyStr "text", PyStr "name: sun")],
                          "Use --- the ephemeris.")) by reflexivity.
  destruct (parse_front_matter_result sample_env _ _ _ H)
    as [(Hfm & _) | (enclosed & rest & metadata & Hc & Hn & _ & _ & Hb)];
    [discriminate Hfm|].
  exists enclosed, rest. rewrite <- Hb. repeat split; assumption.
Defined.

(** ** The agent factory *)

Lemma append_assoc (s1 s2 s3 : string) : (s1 +:+ s2) +:+ s3 = s1 +:+ s2 +:+ s3.
Proof.
  induction s1 as [|c s1 IH]; [reflexivity|].
  change (String c ((s1 +:+ s2) +:+ s3) = String c (s1 +:+ s2 +:+ s3)). now f_equal.
Qed.

Lemma contains_app_l (x s t : string) :
  PyStr.contains x s = true -> PyStr.contains x (s +:+ t) = true.
Proof.
  unfold PyStr.contains at 1. intros H.
  destruct (PyStr.partition x s) as [[b a]|] eqn:Hp; [|discriminate H].
  rewrite (partition_sound _ _ _ _ Hp), !append_assoc. apply contains_app.
Qed.

Lemma skills_description_lines_In (skills : list SkillMetadata.t) :
  forall (lines : list string) (skill : SkillMetadata.t),
    skills_description_lines skills = Returned lines ->
    In skill skills ->
    In ("## " +:+ SkillMetadata.name skill) lines
    /\ In ("Category: " +:+ SkillMetadata.category skill +:+ " | Priority: "
           +:+ pretty (SkillMetadata.priority skill)) lines.
Proof.
  induction skills as [|s0 rest IH]; intros lines skill H Hin; [destruct Hin|].
  cbn [skills_description_lines] in H.
  unfold skill_description_lines, py_str_int in H.
  destruct (int_fits_str (SkillMetadata.priority s0)); [|discriminate H].
  cbn [result_bind] in H.
  destruct (skills_description_lines rest) as [more|e]; [|discriminate H].
  cbn [result_bind] in H. inversion H; subst. clear H.
  destruct Hin as [<- | Hin].
  - split; simpl; tauto.
  - destruct (IH more skill eq_refl Hin) as (H1 & H2).
    split; simpl; tauto.
Qed.

Lemma skill_descriptions_list_skill (m : SkillsManifest.t) (text : string)
    (skill : SkillMetadata.t) :
  get_skill_descriptions m = Returned text ->
  In skill (SkillsManifest.skills m) ->
  PyStr.contains ("## " +:+ SkillMetadata.name skill) text = true
  /\ PyStr.contains
       ("Category: " +:+ SkillMetadata.category skill +:+ " | Priority: "
        +:+ pretty (SkillMetadata.priority skill)) text = true.
Proof.
  unfold get_skill_descriptions. intros H Hin.
  destruct (skills_description_lines (SkillsManifest.skills m)) as [lines|e] eqn:Hl;
    [|discriminate H].
  cbn [result_bind] in H.
  pose proof (f_equal (fun r => match r with Returned a => a | Raised _ => text end) H)
    as Ht.
  cbv beta iota in Ht. rewrite <- Ht.
  destruct (skills_description_lines_In _ _ _ Hl Hin) as (H1 & H2).
  split; apply contains_join; apply in_or_app; right; assumption.
Qed.

(** X17. When [create_agent] returns, it has loaded the manifest of the
    given skills directory, the agent carries the given model name and
    the two tools, and its system prompt lists every skill of that
    manifest: the heading with the skill's name and the line with its
    category and priority. *)
Theorem create_agent_prompt_lists_skills (E : Env) (model skills_path : string)
    (log log' : io_log) (agent : Agent.t) :
  create_agent E model skills_path log = (Returned agent, log') ->
  exists manifest,
    load_manifest E (Path.of_str skills_path) log = (Returned manifest, log')
    /\ Agent.model agent = model
    /\ Agent.tools agent = ["load_skill_tool"; "read_reference_tool"]
    /\ forall skill, In skill (SkillsManifest.skills manifest) ->
         PyStr.contains ("## " +:+ SkillMetadata.name skill) (Agent.system_prompt agent)
         = true
         /\ PyStr.contains
              ("Category: " +:+ SkillMetadata.category skill +:+ " | Priority: "
               +:+ pretty (SkillMetadata.priority skill))
              (Agent.system_prompt agent) = true.
Proof.
  unfold create_agent, stx_bind, stx_ret, stx_lift.
  destruct (load_manifest E (Path.of_str skills_path) log) as [[manifest|e] l];
    [|discriminate].
  destruct (get_skill_descriptions manifest) as [text|e] eqn:Hd; [|discriminate].
  intros H. inversion H; subst. exists manifest.
  split; [reflexivity|]. split; [reflexivity|]. split; [reflexivity|].
  intros skill Hin. cbn [Agent.system_prompt]. unfold SYSTEM_PROMPT.
  destruct (skill_descriptions_list_skill manifest text skill Hd Hin) as (H1 & H2).
  split; apply contains_app_r, contains_app_l; assumption.
Qed.

(** The sample installation: the prompt lists the sun analysis skill. *)
Lemma create_agent_prompt_lists_skills_witness :
  exists agent log',
    create_agent sample_env default_model "./zonewise/skills" [] = (Returned agent, log')
    /\ PyStr.contains "## sun-analysis" (Agent.system_prompt agent) = true.
Proof.
  assert (H : exists agent log',
             create_agent sample_env default_model "./zonewise/skills" []
             = (Returned agent, log')
             /\ load_manifest sample_env (Path.of_str "./zonewise/skills") []
                = (Returned sample_manifest, log')).
  { eexists _, _. split; vm_compute; reflexivity. }
  destruct H as (agent & log' & H & Hm).
  exists agent, log'. split; [exact H|].
  destruct (create_agent_prompt_lists_skills _ _ _ _ _ _ H)
    as (manifest & Hm' & _ & _ & Hall).
  rewrite Hm in Hm'. injection Hm' as <-.
  exact (proj1 (Hall _ (or_introl eq_refl))).
Defined.

(** X18. A manifest that is there but cannot be used, because the YAML
    parser raises on it or because its content does not validate, makes
    [create_agent] raise that same exception after one existence check
    and one read.  In a workflow stage the exception ends as the stage's
    error note, and the stage is not marked completed. *)
Theorem unusable_manifest_outcome (E : Env) (text : string) (e : exn) :
  files E !! default_manifest_path = Some text ->
  (yaml_safe_load E text = Raised e
   \/ exists data, yaml_safe_load E text = Returned data
                   /\ validate_manifest E data = Raised e) ->
  (forall model log,
     create_agent E model "./zonewise/skills" log
     = (Raised e,
        (log ++ [FsExists default_manifest_path; FsRead default_manifest_path])%list))
  /\ (forall beh state log,
        let log' :=
          (log ++ [FsExists default_manifest_path; FsRead default_manifest_path])%list in
        isolates_failure zoning_agent_node "Zoning agent error: " E beh state log e log'
        /\ isolates_failure valuation_agent_node "Valuation agent error: " E beh state log e log'
        /\ isolates_failure permit_agent_node "Permit agent error: " E beh state log e log'
        /\ isolates_failure envelope_agent_node "Envelope agent error: " E beh state log e log').
Proof.
  intros Hfile Hbad.
  assert (Hc : forall model log,
             create_agent E model "./zonewise/skills" log
             = (Raised e,
                (log ++ [FsExists default_manifest_path;
                         FsRead default_manifest_path])%list)).
  { intros model log. unfold create_agent, stx_bind, load_manifest.
    change (Path.of_str "./zonewise/skills") with default_skills_path.
    change (Path.str (Path.div default_skills_path "skills-manifest.yaml"))
      with default_manifest_path.
    unfold stx_bind, path_exists, read_text, stx_lift, stx_raise.
    change (Path.str (Path.div default_skills_path "skills-manifest.yaml"))
      with default_manifest_path.
    rewrite Hfile. cbn. rewrite <- app_assoc.
    destruct Hbad as [-> | (data & -> & ->)]; reflexivity. }
  split; [exact Hc|].
  intros beh state log log'.
  assert (Hi : invoke_capability E beh "" log = (Raised e, log')).
  { unfold invoke_capability, stx_bind, create_agent_default. now rewrite Hc. }
  repeat split.
  - now apply zoning_node_fails.
  - now apply valuation_node_fails.
  - now apply permit_node_fails.
  - now apply envelope_node_fails.
Qed.

(** A manifest with an unclosed bracket. *)
Lemma unusable_manifest_outcome_witness :
  create_agent broken_env default_model "./zonewise/skills" []
  = (Raised (YAMLError "while parsing a flow sequence"),
     [FsExists "zonewise/skills/skills-manifest.yaml";
      FsRead "zonewise/skills/skills-manifest.yaml"]).
Proof.
  exact (proj1 (unusable_manifest_outcome broken_env "skills: [sun"
                  (YAMLError "while parsing a flow sequence")
                  eq_refl (or_introl eq_refl)) default_model []).
Defined.

(** ** The skill evaluator *)

Lemma str_lower_response (data : string) :
  (if String.eqb data "" then "" else str_lower data) = str_lower data.
Proof. destruct data; reflexivity. Qed.

Lemma loaded_skill_names_spec (deps : AgentDependencies.t) (s : string) :
  In s (loaded_skill_names deps) <-> is_Some (AgentDependencies.loaded_skills deps !! s).
Proof.
  unfold loaded_skill_names. rewrite in_map_iff. split.
  - intros ([k v] & Hk & Hin). simpl in Hk. subst k.
    apply list_elem_of_In, elem_of_map_to_list in Hin. now exists v.
  - intros [v Hv]. exists (s, v). split; [reflexivity|].
    now apply list_elem_of_In, elem_of_map_to_list.
Qed.

Lemma filter_length_0 {A} (f : A -> bool) (l : list A) :
  Nat.eqb (length (List.filter f l)) 0 = true <-> forall x, In x l -> f x = false.
Proof.
  induction l as [|a l IH]; simpl.
  - split; [intros _ x [] | reflexivity].
  - destruct (f a) eqn:Ha; simpl.
    + split; [discriminate|]. intros H. rewrite (H a) in Ha by now left. discriminate.
    + rewrite IH. split.
      * intros H x [<- | Hx]; [assumption | now apply H].
      * intros H x Hx. apply H. now right.
Qed.

(** A tool call adds to the skill cache at most the skill it was asked for. *)
Lemma run_tool_loaded_skills (E : Env) (c : tool_call) (deps deps1 : AgentDependencies.t)
    (log log1 : io_log) (r : result string) (s : string) :
  run_tool E c (deps, log) = (r, (deps1, log1)) ->
  is_Some (AgentDependencies.loaded_skills deps1 !! s) ->
  is_Some (AgentDependencies.loaded_skills deps !! s) \/ c = CallLoadSkill s.
Proof.
  destruct c as [name | name ref]; simpl.
  - rewrite load_skill_tool_eq.
    destruct (AgentDependencies.loaded_skills deps !! name) as [cached|].
    + intros H; inversion H; subst. now left.
    + destruct (manifest_of_deps E (deps, log)) as [[m|e] [d1 l1]] eqn:Hm.
      * destruct (manifest_of_deps_keeps_caches E deps d1 log l1 _ Hm) as (Hs & _ & _).
        destruct (load_skill_content E (AgentDependencies.skills_path deps) name m l1)
          as [[skill|e] l2].
        -- intros H; inversion H; subst. simpl. rewrite Hs.
           destruct (decide (name = s)) as [->|Hne]; [now right|].
           rewrite lookup_insert_ne by assumption. now left.
        -- destruct (is_FileNotFound_or_ValueError e); intros H; inversion H; subst;
             rewrite Hs; now left.
      * destruct (manifest_of_deps_keeps_caches E deps d1 log l1 _ Hm) as (Hs & _ & _).
        intros H; inversion H; subst. rewrite Hs. now left.
  - rewrite read_reference_tool_eq.
    destruct (AgentDependencies.loaded_references deps !! cache_key name ref) as [cached|].
    + intros H; inversion H; subst. now left.
    + destruct (manifest_of_deps E (deps, log)) as [[m|e] [d1 l1]] eqn:Hm.
      * destruct (manifest_of_deps_keeps_caches E deps d1 log l1 _ Hm) as (Hs & _ & _).
        destruct (load_reference_content E (AgentDependencies.skills_path deps) name ref m l1)
          as [[doc|e] l2].
        -- intros H; inversion H; subst. simpl. rewrite Hs. now left.
        -- destruct (is_FileNotFound_or_ValueError e); intros H; inversion H; subst;
             rewrite Hs; now left.
      * destruct (manifest_of_deps_keeps_caches E deps d1 log l1 _ Hm) as (Hs & _ & _).
        intros H; inversion H; subst. rewrite Hs. now left.
Qed.

Lemma requested_skills_spec (beh : behaviour) (s : string) :
  In s (requested_skills beh) <-> In (CallLoadSkill s) (tool_calls beh).
Proof.
  unfold requested_skills. rewrite in_flat_map. split.
  - intros ([name | name ref] & Hc & Hin); simpl in Hin; [|contradiction].
    destruct Hin as [<- | []]. assumption.
  - intros H. exists (CallLoadSkill s). split; [assumption | now left].
Qed.

Lemma run_tools_loaded_skills (E : Env) (calls : list tool_call) :
  forall (deps deps1 : AgentDependencies.t) (log log1 : io_log) (r : result unit)
         (s : string),
    run_tools E calls (deps, log) = (r, (deps1, log1)) ->
    is_Some (AgentDependencies.loaded_skills deps1 !! s) ->
    is_Some (AgentDependencies.loaded_skills deps !! s) \/ In (CallLoadSkill s) calls.
Proof.
  induction calls as [|c rest IH]; intros deps deps1 log log1 r s H Hs.
  - inversion H; subst. now left.
  - cbn [run_tools] in H. unfold stx_bind in H.
    destruct (run_tool E c (deps, log)) as [[x|e] [d1 l1]] eqn:Hc.
    + destruct (IH _ _ _ _ _ _ H Hs) as [Hd | Hin]; [|right; now right].
      destruct (run_tool_loaded_skills E c deps d1 log l1 _ s Hc Hd) as [? | ->];
        [now left | right; now left].
    + inversion H; subst.
      destruct (run_tool_loaded_skills E c deps deps1 log log1 _ s Hc Hs) as [? | ->];
        [now left | right; now left].
Qed.

(** [run_eval] on a run of the agent that returned, and on one that raised. *)
Lemma run_eval_eq (E : Env) (beh : behaviour) (agent : Agent.t) (case : SkillEvalCase.t)
    (deps : AgentDependencies.t) (log : io_log) :
  run_eval E beh agent case (deps, log) =
  match agent_run E beh agent (SkillEvalCase.query case) (reset_caches deps, log) with
  | (Returned data, (deps1, log1)) =>
      let response := str_lower data in
      let skills_loaded := loaded_skill_names deps1 in
      let skills_missing :=
        List.filter (fun s => negb (py_in s skills_loaded))
                    (SkillEvalCase.expected_skills case) in
      let forbidden_loaded :=
        List.filter (fun s => py_in s skills_loaded)
                    (SkillEvalCase.forbidden_skills case) in
      let response_keywords_missing :=
        List.filter (fun kw => negb (PyStr.contains (str_lower kw) response))
                    (SkillEvalCase.expected_in_response case) in
      (Returned
         (SkillEvalResult.mk (SkillEvalCase.name case)
            (Nat.eqb (length skills_missing) 0
             && Nat.eqb (length forbidden_loaded) 0
             && Nat.eqb (length response_keywords_missing) 0)
            skills_loaded skills_missing forbidden_loaded
            (List.filter (fun kw => PyStr.contains (str_lower kw) response)
                         (SkillEvalCase.expected_in_response case))
            response_keywords_missing None),
       (deps1, log1))
  | (Raised e, st) =>
      (Returned
         (SkillEvalResult.mk (SkillEvalCase.name case) false []
            (SkillEvalCase.expected_skills case) [] []
            (SkillEvalCase.expected_in_response case) (Some (exn_str e))),
       st)
  end.
Proof.
  unfold run_eval, stx_bind at 1, stx_modify, try_except. cbn [fst snd].
  unfold stx_bind at 1.
  destruct (agent_run E beh agent (SkillEvalCase.query case) (reset_caches deps, log))
    as [[data|e] [deps1 log1]]; [|reflexivity].
  unfold stx_bind, stx_get, stx_ret. cbn [fst snd]. rewrite str_lower_response.
  reflexivity.
Qed.

(** The evaluation leaves the store as the run of the agent left it. *)
Lemma run_eval_store (E : Env) (beh : behaviour) (agent : Agent.t) (case : SkillEvalCase.t)
    (deps : AgentDependencies.t) (log : io_log) :
  snd (run_eval E beh agent case (deps, log))
  = snd (agent_run E beh agent (SkillEvalCase.query case) (reset_caches deps, log)).
Proof.
  rewrite run_eval_eq.
  destruct (agent_run E beh agent (SkillEvalCase.query case) (reset_caches deps, log))
    as [[data|e] [d1 l1]]; reflexivity.
Qed.

Lemma agent_run_loaded_skills (E : Env) (beh : behaviour) (agent : Agent.t) (query : string)
    (deps deps1 : AgentDependencies.t) (log log1 : io_log) (r : result string) (s : string) :
  agent_run E beh agent query (deps, log) = (r, (deps1, log1)) ->
  is_Some (AgentDependencies.loaded_skills deps1 !! s) ->
  is_Some (AgentDependencies.loaded_skills deps !! s) \/ In s (requested_skills beh).
Proof.
  unfold agent_run, stx_bind, stx_lift. intros H Hs. rewrite requested_skills_spec.
  destruct (run_tools E (tool_calls beh) (deps, log)) as [[x|e] [d1 l1]] eqn:Ht;
    inversion H; subst; exact (run_tools_loaded_skills E _ _ _ _ _ _ s Ht Hs).
Qed.

(** X19. An evaluation never raises, and its verdict is exact: the case
    passes if and only if the run of the agent returned an answer, every
    expected skill is in the evaluator's skill cache after the run, no
    forbidden skill is, and every expected keyword, lowercased, occurs in
    the lowercased answer.  A run that raised is reported as failed, with
    the text of the exception, every expected skill and keyword missing and
    no skill loaded, whatever the cache holds by then. *)
Theorem run_eval_verdict (E : Env) (beh : behaviour) (agent : Agent.t)
    (case : SkillEvalCase.t) (deps : AgentDependencies.t) (log : io_log) :
  exists res deps1 log1,
    run_eval E beh agent case (deps, log) = (Returned res, (deps1, log1))
    /\ (SkillEvalResult.passed res = true <->
         exists data,
           agent_run E beh agent (SkillEvalCase.query case) (reset_caches deps, log)
             = (Returned data, (deps1, log1))
           /\ (forall s, In s (SkillEvalCase.expected_skills case) ->
                  is_Some (AgentDependencies.loaded_skills deps1 !! s))
           /\ (forall s, In s (SkillEvalCase.forbidden_skills case) ->
                  AgentDependencies.loaded_skills deps1 !! s = None)
           /\ (forall kw, In kw (SkillEvalCase.expected_in_response case) ->
                  PyStr.contains (str_lower kw) (str_lower data) = true))
    /\ (forall e,
          agent_run E beh agent (SkillEvalCase.query case) (reset_caches deps, log)
            = (Raised e, (deps1, log1)) ->
          res = SkillEvalResult.mk (SkillEvalCase.name case) false []
                  (SkillEvalCase.expected_skills case) [] []
                  (SkillEvalCase.expected_in_response case) (Some (exn_str e))).
Proof.
  rewrite run_eval_eq.
  destruct (agent_run E beh agent (SkillEvalCase.query case) (reset_caches deps, log))
    as [[data|e] [deps1 log1]].
  - eexists _, deps1, log1. split; [reflexivity|]. split; [|discriminate].
    cbn [SkillEvalResult.passed]. rewrite !andb_true_iff, !filter_length_0. split.
    + intros [[Hm Hf] Hk]. exists data. split; [reflexivity|]. repeat split.
      * intros s Hs. apply loaded_skill_names_spec, py_in_In.
        apply Hm in Hs. now apply negb_false_iff in Hs.
      * intros s Hs. apply Hf in Hs. apply py_in_not_In in Hs.
        rewrite loaded_skill_names_spec in Hs.
        destruct (AgentDependencies.loaded_skills deps1 !! s) eqn:Hl; [|reflexivity].
        exfalso. apply Hs. now eexists.
      * intros kw Hkw. apply Hk in Hkw. now apply negb_false_iff in Hkw.
    + intros (data' & Heq & Hm & Hf & Hk). inversion Heq; subst data'. repeat split.
      * intros s Hs. apply negb_false_iff, py_in_In, loaded_skill_names_spec. now apply Hm.
      * intros s Hs. apply py_in_not_In. rewrite loaded_skill_names_spec, (Hf s Hs).
        intros [v Hv]. discriminate.
      * intros kw Hkw. apply negb_false_iff. now apply Hk.
  - eexists _, deps1, log1. split; [reflexivity|]. split.
    + cbn [SkillEvalResult.passed]. split; [discriminate|].
      intros (data & Heq & _). discriminate.
    + intros e' He. inversion He; subst. reflexivity.
Qed.

(** The sample case passes when the model loads the sample skill and
    answers with the keyword. *)
Lemma run_eval_verdict_witness :
  exists res,
    fst (run_eval sample_env (loads_twice "sun-analysis")
           (Agent.mk default_model "" []) sample_case (stale_deps, []))
    = Returned res
    /\ SkillEvalResult.passed res = true.
Proof.
  destruct (run_eval_verdict sample_env (loads_twice "sun-analysis")
              (Agent.mk default_model "" []) sample_case stale_deps [])
    as (res & deps1 & log1 & Hrun & Hiff & _).
  exists res. split; [exact (f_equal fst Hrun)|].
  apply Hiff. exists "done".
  assert (Hst : (deps1, log1)
                = snd (agent_run sample_env (loads_twice "sun-analysis")
                         (Agent.mk default_model "" [])
                         (SkillEvalCase.query sample_case) (reset_caches stale_deps, []))).
  { rewrite <- run_eval_store. exact (eq_sym (f_equal snd Hrun)). }
  split.
  - rewrite Hst. vm_compute. reflexivity.
  - assert (Hd : AgentDependencies.loaded_skills deps1
                 = AgentDependencies.loaded_skills
                     (fst (snd (agent_run sample_env (loads_twice "sun-analysis")
                                  (Agent.mk default_model "" [])
                                  (SkillEvalCase.query sample_case)
                                  (reset_caches stale_deps, [])))))
      by now rewrite <- Hst.
    rewrite Hd. repeat split.
    + intros s [<- | []]. vm_compute. eexists. reflexivity.
    + intros s [<- | []]. vm_compute. reflexivity.
    + intros kw [<- | []]. vm_compute. reflexivity.
Defined.

(** X20. An evaluation counts only what the model asked for during this
    run: every skill it reports as loaded, and every forbidden skill it
    reports, is a skill the model called [load_skill_tool] for.  What an
    earlier evaluation left in the cache of the shared dependencies is not
    counted. *)
Theorem eval_counts_only_requested_skills (E : Env) (beh : behaviour) (agent : Agent.t)
    (case : SkillEvalCase.t) (deps deps1 : AgentDependencies.t) (log log1 : io_log)
    (res : SkillEvalResult.t) :
  run_eval E beh agent case (deps, log) = (Returned res, (deps1, log1)) ->
  (forall s, In s (SkillEvalResult.skills_loaded res) -> In s (requested_skills beh))
  /\ (forall s, In s (SkillEvalResult.forbidden_loaded res) ->
        In s (requested_skills beh) /\ In s (SkillEvalCase.forbidden_skills case))
  /\ (forall s, is_Some (AgentDependencies.loaded_skills deps1 !! s) ->
        In s (requested_skills beh)).
Proof.
  rewrite run_eval_eq.
  destruct (agent_run E beh agent (SkillEvalCase.query case) (reset_caches deps, log))
    as [[data|e] [d1 l1]] eqn:Hrun; intros H; inversion H; subst; clear H.
  all: assert (Hreq : forall s, is_Some (AgentDependencies.loaded_skills deps1 !! s) ->
                                In s (requested_skills beh)).
  all: try (intros s Hs;
            destruct (agent_run_loaded_skills E beh agent _ _ _ _ _ _ s Hrun Hs)
              as [[v Hv] | Hin]; [|exact Hin];
            unfold reset_caches in Hv; cbn in Hv; rewrite lookup_empty in Hv;
            discriminate).
  - cbn [SkillEvalResult.skills_loaded SkillEvalResult.forbidden_loaded]. repeat split.
    + intros s Hs. now apply Hreq, loaded_skill_names_spec.
    + apply filter_In in H as [_ Hs]. apply py_in_In in Hs.
      now apply Hreq, loaded_skill_names_spec.
    + now apply filter_In in H as [Hs _].
    + exact Hreq.
  - cbn [SkillEvalResult.skills_loaded SkillEvalResult.forbidden_loaded]. repeat split.
    + intros s [].
    + destruct H.
    + destruct H.
    + exact Hreq.
Qed.

(** The dependencies still hold a forbidden skill from an earlier
    evaluation; the model loads the sample skill twice and answers. *)
Lemma eval_counts_only_requested_skills_witness :
  SkillEvalResult.passed
    (match fst (run_eval sample_env (loads_twice "sun-analysis")
                  (Agent.mk default_model "" []) sample_case (stale_deps, [])) with
     | Returned res => res
     | Raised _ => SkillEvalResult.mk "" false [] [] [] [] [] None
     end) = true
  /\ ~ In "permit-lookup" (requested_skills (loads_twice "sun-analysis"))
  /\ forall s, In s ["sun-analysis"] -> In s (requested_skills (loads_twice "sun-analysis")).
Proof.
  destruct (run_eval sample_env (loads_twice "sun-analysis")
              (Agent.mk default_model "" []) sample_case (stale_deps, []))
    as [[res|e] [deps1 log1]] eqn:H; [|vm_compute in H; discriminate H].
  pose proof (eval_counts_only_requested_skills sample_env (loads_twice "sun-analysis")
                (Agent.mk default_model "" []) sample_case stale_deps deps1 [] log1 res H)
    as (Hl & _ & _).
  assert (Hres : SkillEvalResult.skills_loaded res = ["sun-analysis"]
                 /\ SkillEvalResult.passed res = true).
  { vm_compute in H. inversion H; subst. split; reflexivity. }
  destruct Hres as (Hskills & Hpassed).
  split; [exact Hpassed|]. split.
  - vm_compute. intros [Heq | [Heq | []]]; discriminate.
  - rewrite <- Hskills. exact Hl.
Defined.
